(** * Notification settings manager (sentry/notifications/manager.py)

  A shallow embedding of [NotificationsManager] and the properties of
  its specification.  The three Django tables the manager touches are
  lists of rows, a [QuerySet] is a [Q] object that is evaluated against
  the table when it is listed or deleted, and every method is a
  function in a state-and-exception monad over the store: an exception
  aborts the call but keeps the writes already made, as the methods run
  outside a transaction (only the [get_or_create] of [_update_settings]
  is wrapped in one). *)

From Stdlib Require Import ZArith List String Bool Lia.
From stdpp Require Import base decidable option list strings gmap.

Open Scope string_scope.
Open Scope Z_scope.

(** ** Enumerations *)

(** The enumerations are declared in sentry/notifications/types.py,
  sentry/types/integrations.py and sentry/services/hybrid_cloud/actor.py,
  which are not part of the sources at hand.  Where the manager names
  the members they are constructors; the members of
  [NotificationSettingOptionValues] are the five values of the
  specification's data model.  A column holding such a member stands for
  the column holding the member's [.value]. *)

Module ActorType.
Inductive t := USER | TEAM.
#[global] Instance eq_dec : EqDecision t.
Proof. solve_decision. Defined.
End ActorType.

Module NotificationScopeType.
Inductive t := USER | ORGANIZATION | PROJECT | TEAM.
#[global] Instance eq_dec : EqDecision t.
Proof. solve_decision. Defined.
End NotificationScopeType.

Module NotificationScopeEnum.
Inductive t := USER | ORGANIZATION | PROJECT | TEAM.
#[global] Instance eq_dec : EqDecision t.
Proof. solve_decision. Defined.
End NotificationScopeEnum.

Module NotificationSettingOptionValues.
Inductive t := DEFAULT | NEVER | ALWAYS | SUBSCRIBE_ONLY | COMMITTED_ONLY.
#[global] Instance eq_dec : EqDecision t.
Proof. solve_decision. Defined.
End NotificationSettingOptionValues.

Module NotificationSettingsOptionEnum.
Inductive t := ALWAYS | NEVER.
#[global] Instance eq_dec : EqDecision t.
Proof. solve_decision. Defined.
End NotificationSettingsOptionEnum.

(** The members of [ExternalProviders] and [NotificationSettingTypes] are
  not known here: a member is represented by its integer [value], the
  thing the manager stores ([provider.value], [type.value]).  A member is
  an object and so always true in a Python condition, whatever its
  value.  Members compare and hash by value, as the manager takes for
  granted when it reads with a member a dictionary that is keyed by
  stored integers ([EXTERNAL_PROVIDERS[setting.provider]], the
  classification by [setting.type]). *)

Module ExternalProviders.
Record t := Member { value : Z }.
#[global] Instance eq_dec : EqDecision t.
Proof. solve_decision. Defined.
End ExternalProviders.

Module NotificationSettingTypes.
Record t := Member { value : Z }.
#[global] Instance eq_dec : EqDecision t.
Proof. solve_decision. Defined.
End NotificationSettingTypes.

(** [RpcActor]: the resolved form of a recipient, a tag and an id. *)
Module RpcActor.
Record t := Build { actor_type : ActorType.t; id : Z }.
#[global] Instance eq_dec : EqDecision t.
Proof. solve_decision. Defined.
End RpcActor.

(** The parent of a batch lookup is a [Project] or an [Organization]. *)
Module Parent.
Inductive t :=
| Project (id : Z) (organization_id : Z)
| Organization (id : Z).
Definition id (p : t) : Z :=
    match p with Project i _ => i | Organization i => i end.
End Parent.

(** ** Rows of the three tables *)

(** [NotificationSetting]: the setting record.  [user_id] and [team_id]
  are nullable columns. *)
Module NotificationSetting.
Record t := Build {
  id : Z;
  provider : Z;
  type : Z;
  scope_type : NotificationScopeType.t;
  scope_identifier : Z;
  user_id : option Z;
  team_id : option Z;
  value : NotificationSettingOptionValues.t
}.
#[global] Instance eq_dec : EqDecision t.
Proof. solve_decision. Defined.
Definition with_value (v : NotificationSettingOptionValues.t) (r : t) : t :=
    Build (id r) (provider r) (type r) (scope_type r) (scope_identifier r)
          (user_id r) (team_id r) v.
End NotificationSetting.

(** [NotificationSettingOption]: the second row of the double write; its
  columns hold the string names of the type, the scope and the value. *)
Module NotificationSettingOption.
Record t := Build {
  type : string;
  scope_type : string;
  scope_identifier : Z;
  user_id : option Z;
  team_id : option Z;
  value : string
}.
Definition with_value (v : string) (r : t) : t :=
    Build (type r) (scope_type r) (scope_identifier r) (user_id r) (team_id r) v.
End NotificationSettingOption.

(** [NotificationSettingProvider]: the provider projection. *)
Module NotificationSettingProvider.
Record t := Build {
  provider : string;
  type : string;
  scope_type : NotificationScopeEnum.t;
  scope_identifier : Z;
  user_id : option Z;
  team_id : option Z;
  value : NotificationSettingsOptionEnum.t
}.
#[global] Instance eq_dec : EqDecision t.
Proof. solve_decision. Defined.
Definition with_value (v : NotificationSettingsOptionEnum.t) (r : t) : t :=
    Build (provider r) (type r) (scope_type r) (scope_identifier r)
          (user_id r) (team_id r) v.
End NotificationSettingProvider.

(** An [analytics.record] call. *)
Record AnalyticsEvent := {
event : string;
target_type : string;
event_actor_id : option Z;
event_id : Z
}.

(** ** The store and the monad *)

Record Store := {
settings : list NotificationSetting.t;
next_pk : Z;
options : list NotificationSettingOption.t;
providers : list NotificationSettingProvider.t;
analytics : list AnalyticsEvent
}.

Definition set_settings (l : list NotificationSetting.t) (s : Store) : Store :=
  {| settings := l; next_pk := next_pk s; options := options s;
     providers := providers s; analytics := analytics s |}.

Definition set_options (l : list NotificationSettingOption.t) (s : Store) : Store :=
  {| settings := settings s; next_pk := next_pk s; options := l;
     providers := providers s; analytics := analytics s |}.

Definition set_providers (l : list NotificationSettingProvider.t) (s : Store) : Store :=
  {| settings := settings s; next_pk := next_pk s; options := options s;
     providers := l; analytics := analytics s |}.

Inductive exn :=
| AssertionError (msg : string)
| UnboundLocalError (name : string)
| KeyError (table : string)
| MultipleObjectsReturned
| Exception_ (msg : string)
| InvalidScopeError.

Definition Db (A : Type) : Type := Store -> (exn + A) * Store.

Definition db_ret {A} (a : A) : Db A := fun s => (inr a, s).
Definition db_raise {A} (e : exn) : Db A := fun s => (inl e, s).
Definition db_bind {A B} (m : Db A) (k : A -> Db B) : Db B :=
  fun s => match m s with
           | (inr a, s') => k a s'
           | (inl e, s') => (inl e, s')
           end.
Definition db_lift {A} (r : exn + A) : Db A := fun s => (r, s).
Definition db_read {A} (f : Store -> A) : Db A := fun s => (inr (f s), s).
Definition db_write (f : Store -> Store) : Db unit := fun s => (inr tt, f s).

Declare Scope db_scope.
Delimit Scope db_scope with db.
Notation "x <~ m ;; k" := (db_bind m (fun x => k))
  (at level 100, m at next level, right associativity) : db_scope.
Notation "m ;;; k" := (db_bind m (fun _ => k))
  (at level 100, right associativity) : db_scope.

(** [for x in l: body x]. *)
Fixpoint db_for {A} (l : list A) (body : A -> Db unit) : Db unit :=
  match l with
  | [] => db_ret tt
  | x :: l' => db_bind (body x) (fun _ => db_for l' body)
  end.

(** A Python [dict] with its insertion order; [d[k]] raises [KeyError]
  on a missing key. *)
Definition dict (K V : Type) : Type := list (K * V).

Fixpoint dict_get {K V} `{EqDecision K} (d : dict K V) (k : K) : option V :=
  match d with
  | [] => None
  | (k', v) :: d' => if decide (k' = k) then Some v else dict_get d' k
  end.

Definition keys {K V} (d : dict K V) : list K := map fst d.

Definition subscript {K V} `{EqDecision K} (name : string) (d : dict K V) (k : K)
  : exn + V :=
  match dict_get d k with
  | Some v => inr v
  | None => inl (KeyError name)
  end.

(** Truth value of an [int | None] and of a set in a condition. *)
Definition truthy (x : option Z) : bool :=
  match x with Some n => negb (n =? 0) | None => false end.

Definition nonempty (s : gset Z) : bool := negb (bool_decide (s = ∅)).

(** ** Query objects *)

(** Django's [Q]: the lookups the manager builds on [NotificationSetting].
  [Q_user_id None] is [user_id IS NULL]; a NULL column is in no
  [__in] list. *)
Inductive Q :=
| Q_all
| Q_none
| Q_and (a b : Q)
| Q_or (a b : Q)
| Q_provider (v : Z)
| Q_type (v : Z)
| Q_scope_type (v : NotificationScopeType.t)
| Q_scope_type__in (vs : list NotificationScopeType.t)
| Q_scope_identifier (v : Z)
| Q_scope_identifier__in (vs : gset Z)
| Q_user_id (v : option Z)
| Q_team_id (v : option Z)
| Q_user_id__in (vs : gset Z)
| Q_team_id__in (vs : gset Z).

Definition in_ids (c : option Z) (vs : gset Z) : bool :=
  match c with Some i => bool_decide (i ∈ vs) | None => false end.

Fixpoint matches (q : Q) (r : NotificationSetting.t) : bool :=
  match q with
  | Q_all => true
  | Q_none => false
  | Q_and a b => matches a r && matches b r
  | Q_or a b => matches a r || matches b r
  | Q_provider v => NotificationSetting.provider r =? v
  | Q_type v => NotificationSetting.type r =? v
  | Q_scope_type v => bool_decide (NotificationSetting.scope_type r = v)
  | Q_scope_type__in vs => bool_decide (NotificationSetting.scope_type r ∈ vs)
  | Q_scope_identifier v => NotificationSetting.scope_identifier r =? v
  | Q_scope_identifier__in vs =>
      bool_decide (NotificationSetting.scope_identifier r ∈ vs)
  | Q_user_id v => bool_decide (NotificationSetting.user_id r = v)
  | Q_team_id v => bool_decide (NotificationSetting.team_id r = v)
  | Q_user_id__in vs => in_ids (NotificationSetting.user_id r) vs
  | Q_team_id__in vs => in_ids (NotificationSetting.team_id r) vs
  end.

(** [list(queryset)]: the matching rows, in the order of the table. *)
Definition qs_list (q : Q) : Db (list NotificationSetting.t) :=
  db_read (fun s => List.filter (matches q) (settings s)).

(** [queryset.delete()]. *)
Definition qs_delete (q : Q) : Db unit :=
  db_write (fun s =>
    set_settings (List.filter (fun r => negb (matches q r)) (settings s)) s).

(** A [defaultdict(set)] from the stored type to provider names. *)
Definition dd_get (m : gmap Z (gset string)) (k : Z) : gset string :=
  default ∅ (m !! k).

Definition dd_add (m : gmap Z (gset string)) (k : Z) (x : string)
  : gmap Z (gset string) :=
  <[k := {[x]} ∪ dd_get m k]> m.

(** ** Scope resolution *)

(** Modelled from the spec: [get_scope] is defined in
  sentry/notifications/helpers.py, which is not among the sources.
  Section 4.1: the resolver fails with [InvalidScopeError] if both
  [team_id] and [user_id] are given, or neither; a project is more
  specific than an organization; without either the scope is the
  recipient's own, [TEAM] or [USER] with the recipient's id. *)
Definition get_scope (team user project organization : option Z)
  : exn + (NotificationScopeType.t * Z) :=
  match team, user with
  | Some _, Some _ => inl InvalidScopeError
  | None, None => inl InvalidScopeError
  | Some t, None =>
      match project, organization with
      | Some p, _ => inr (NotificationScopeType.PROJECT, p)
      | None, Some o => inr (NotificationScopeType.ORGANIZATION, o)
      | None, None => inr (NotificationScopeType.TEAM, t)
      end
  | None, Some u =>
      match project, organization with
      | Some p, _ => inr (NotificationScopeType.PROJECT, p)
      | None, Some o => inr (NotificationScopeType.ORGANIZATION, o)
      | None, None => inr (NotificationScopeType.USER, u)
      end
  end.

(** ** The manager *)

Section Manager.

Set Default Proof Using "Type".

(** The tables and helpers the manager imports; their declarations are
    in modules that are not at hand, so the manager is stated over
    any of them. *)
Variable EXTERNAL_PROVIDERS : dict ExternalProviders.t string.
Variable PERSONAL_NOTIFICATION_PROVIDERS : list string.
Variable NOTIFICATION_SETTING_TYPES : dict NotificationSettingTypes.t string.
Variable NOTIFICATION_SCOPE_TYPE : dict NotificationScopeType.t string.
Variable NOTIFICATION_SETTING_OPTION_VALUES :
  dict NotificationSettingOptionValues.t string.
Variable VALID_VALUES_FOR_KEY_V2 :
  dict NotificationSettingTypes.t (list NotificationSettingOptionValues.t).
(** [get_scope_type(type)], a function of the alert type alone. *)
Variable get_scope_type : NotificationSettingTypes.t -> exn + NotificationScopeType.t.
(** [str(type)], which Django applies to a lookup value that is not a
    string when the column is a [CharField]. *)
Variable str_of_type : NotificationSettingTypes.t -> string.

(** Modelled from the spec: [validate] is defined in
    sentry/notifications/helpers.py, which is not among the sources.
    Section 7: a value is permitted for an alert type when the fixed
    compatibility table lists it for that type. *)
Definition validate (type : NotificationSettingTypes.t)
           (value : NotificationSettingOptionValues.t) : bool :=
  match dict_get VALID_VALUES_FOR_KEY_V2 type with
  | Some vs => bool_decide (value ∈ vs)
  | None => false
  end.

(** *** Queries on [NotificationSetting] *)

Definition _filter (provider : option ExternalProviders.t)
           (type : option NotificationSettingTypes.t)
           (scope_type : option NotificationScopeType.t)
           (scope_identifier : option Z)
           (user_ids team_ids : option (gset Z)) : Q :=
  let query := Q_all in
  let query :=
    match provider with
    | Some p => Q_and query (Q_provider (ExternalProviders.value p))
    | None => query
    end in
  let query :=
    match type with
    | Some t => Q_and query (Q_type (NotificationSettingTypes.value t))
    | None => query
    end in
  let query :=
    match scope_type with
    | Some st => Q_and query (Q_scope_type st)
    | None => query
    end in
  let query :=
    match scope_identifier with
    | Some i => if i =? 0 then query else Q_and query (Q_scope_identifier i)
    | None => query
    end in
  let some_ids (ids : option (gset Z)) : bool :=
    match ids with Some s => nonempty s | None => false end in
  let ids_or_empty (ids : option (gset Z)) : gset Z :=
    if some_ids ids then default ∅ ids else ∅ in
  let query :=
    if some_ids team_ids || some_ids user_ids
    then Q_and query (Q_or (Q_team_id__in (ids_or_empty team_ids))
                           (Q_user_id__in (ids_or_empty user_ids)))
    else query in
  query.

Definition remove_for_user (user : Z) (type : option NotificationSettingTypes.t)
  : Db unit :=
  qs_delete (_filter None type None None (Some {[user]}) None).

Definition remove_for_project (project_id : Z)
           (type : option NotificationSettingTypes.t) : Db unit :=
  qs_delete (_filter None type (Some NotificationScopeType.PROJECT)
                     (Some project_id) None None).

Definition remove_for_organization (organization_id : Z)
           (type : option NotificationSettingTypes.t) : Db unit :=
  qs_delete (_filter None type (Some NotificationScopeType.ORGANIZATION)
                     (Some organization_id) None None).

Definition find_settings (provider : ExternalProviders.t)
           (type : NotificationSettingTypes.t)
           (user_id team_id project organization : option Z) : exn + Q :=
  let team_ids : gset Z := ∅ in
  let user_ids : gset Z := ∅ in
  let team_ids :=
    match team_id with
    | Some t => if t =? 0 then team_ids else {[t]} ∪ team_ids
    | None => team_ids
    end in
  let user_ids :=
    match user_id with
    | Some u => if u =? 0 then user_ids else {[u]} ∪ user_ids
    | None => user_ids
    end in
  if negb ((nonempty team_ids && negb (nonempty user_ids))
           || (nonempty user_ids && negb (nonempty team_ids)))
  then inl (AssertionError "Can only get settings for team or user")
  else
    match get_scope team_id user_id project organization with
    | inl e => inl e
    | inr (scope_type, scope_identifier) =>
        if negb ((bool_decide (size team_ids = 1%nat)
                  && bool_decide (size user_ids = 0%nat))
                 || (bool_decide (size team_ids = 0%nat)
                     && bool_decide (size user_ids = 1%nat)))
        then inl (AssertionError "Cannot find settings for None actor_id")
        else inr (_filter (Some provider) (Some type) (Some scope_type)
                          (Some scope_identifier) (Some user_ids) (Some team_ids))
    end.

Definition get_settings (provider : ExternalProviders.t)
           (type : NotificationSettingTypes.t)
           (user_id team_id project organization : option Z)
  : Db NotificationSettingOptionValues.t :=
  (q <~ db_lift (find_settings provider type user_id team_id project organization) ;;
   rows <~ qs_list q ;;
   let settings := firstn 1 rows in
   match settings with
   | r :: _ => db_ret (NotificationSetting.value r)
   | [] => db_ret NotificationSettingOptionValues.DEFAULT
   end)%db.

(** The loop of [get_for_recipient_by_parent] that sorts the recipients'
    ids into [user_ids] and [team_ids]. *)
Definition add_recipient (ids : gset Z * gset Z) (recipient : RpcActor.t)
  : gset Z * gset Z :=
  let '(user_ids, team_ids) := ids in
  let team_ids :=
    if bool_decide (RpcActor.actor_type recipient = ActorType.TEAM)
    then {[RpcActor.id recipient]} ∪ team_ids else team_ids in
  let user_ids :=
    if bool_decide (RpcActor.actor_type recipient = ActorType.USER)
    then {[RpcActor.id recipient]} ∪ user_ids else user_ids in
  (user_ids, team_ids).

Definition get_for_recipient_by_parent (type_ : NotificationSettingTypes.t)
           (parent : Parent.t) (recipients : list RpcActor.t) : exn + Q :=
  let '(user_ids, team_ids) := fold_left add_recipient recipients (∅, ∅) in
  if negb (nonempty team_ids || nonempty user_ids)
  then inr Q_none
  else
    match get_scope_type type_ with
    | inl e => inl e
    | inr parent_specific_scope_type =>
        inr (Q_and
               (Q_and
                  (Q_or
                     (Q_or
                        (Q_and (Q_scope_type parent_specific_scope_type)
                               (Q_scope_identifier (Parent.id parent)))
                        (Q_and (Q_scope_type NotificationScopeType.USER)
                               (Q_scope_identifier__in user_ids)))
                     (Q_and (Q_scope_type NotificationScopeType.TEAM)
                            (Q_scope_identifier__in team_ids)))
                  (Q_or (Q_team_id__in team_ids) (Q_user_id__in user_ids)))
               (Q_type (NotificationSettingTypes.value type_)))
    end.

(** *** Writes to [NotificationSetting] *)

(** The six columns [get_or_create] looks a row up by. *)
Definition same_key (provider type : Z) (scope_type : NotificationScopeType.t)
           (scope_identifier : Z) (user_id team_id : option Z)
           (r : NotificationSetting.t) : bool :=
  (NotificationSetting.provider r =? provider)
  && (NotificationSetting.type r =? type)
  && bool_decide (NotificationSetting.scope_type r = scope_type)
  && (NotificationSetting.scope_identifier r =? scope_identifier)
  && bool_decide (NotificationSetting.user_id r = user_id)
  && bool_decide (NotificationSetting.team_id r = team_id).

(** Django's [get_or_create]: the row and whether it was created;
    [get] raises when several rows match. *)
Definition get_or_create (provider type : Z) (scope_type : NotificationScopeType.t)
           (scope_identifier : Z) (user_id team_id : option Z)
           (value : NotificationSettingOptionValues.t)
  : Db (NotificationSetting.t * bool) :=
  fun s =>
    match List.filter
            (same_key provider type scope_type scope_identifier user_id team_id)
            (settings s) with
    | [] =>
        let r := NotificationSetting.Build (next_pk s) provider type scope_type
                   scope_identifier user_id team_id value in
        (inr (r, true),
         {| settings := settings s ++ [r]; next_pk := next_pk s + 1;
            options := options s; providers := providers s;
            analytics := analytics s |})
    | [r] => (inr (r, false), s)
    | _ :: _ :: _ => (inl MultipleObjectsReturned, s)
    end.

(** [setting.update(value=...)]: an update of the row with that
    primary key. *)
Definition update_value (setting : NotificationSetting.t)
           (value : NotificationSettingOptionValues.t) : Db unit :=
  db_write (fun s =>
    set_settings
      (map (fun r => if NotificationSetting.id r =? NotificationSetting.id setting
                     then NotificationSetting.with_value value r else r)
           (settings s)) s).

(** The tags set on the SDK scope before the overwrite are diagnostics
    outside the store; they are not part of the state. *)
Definition _update_settings (provider : ExternalProviders.t)
           (type : NotificationSettingTypes.t)
           (value : NotificationSettingOptionValues.t)
           (scope_type : NotificationScopeType.t) (scope_identifier : Z)
           (user_id team_id : option Z) : Db unit :=
  (got <~
     get_or_create (ExternalProviders.value provider)
       (NotificationSettingTypes.value type) scope_type scope_identifier
       user_id team_id value ;;
   let '(setting, created) := got in
   if negb created
      && negb (bool_decide (NotificationSetting.value setting = value))
   then update_value setting value
   else db_ret tt)%db.

(** *** The double write to [NotificationSettingOption] *)

Definition option_key (type scope_type : string) (scope_identifier : Z)
           (user_id team_id : option Z) (r : NotificationSettingOption.t) : bool :=
  bool_decide (NotificationSettingOption.type r = type)
  && bool_decide (NotificationSettingOption.scope_type r = scope_type)
  && (NotificationSettingOption.scope_identifier r =? scope_identifier)
  && bool_decide (NotificationSettingOption.user_id r = user_id)
  && bool_decide (NotificationSettingOption.team_id r = team_id).

Definition option_delete (type scope_type : string) (scope_identifier : Z)
           (user_id team_id : option Z) : Db unit :=
  db_write (fun s =>
    set_options
      (List.filter
         (fun r => negb (option_key type scope_type scope_identifier
                                    user_id team_id r))
         (options s)) s).

(** Modelled from the spec: [create_or_update] is a method of the base
    manager in sentry/db/models, which is not among the sources.  The
    specification calls it an upsert: the rows with the key get the
    value; when there is none, a row with the key and the value is
    inserted. *)
Definition option_create_or_update (type scope_type : string)
           (scope_identifier : Z) (user_id team_id : option Z) (value : string)
  : Db unit :=
  db_write (fun s =>
    let hit := option_key type scope_type scope_identifier user_id team_id in
    if existsb hit (options s)
    then set_options
           (map (fun r => if hit r
                          then NotificationSettingOption.with_value value r
                          else r) (options s)) s
    else set_options
           (options s ++
              [NotificationSettingOption.Build type scope_type scope_identifier
                 user_id team_id value]) s).

(** *** The provider projection *)

(** The [base_query] dictionary of [update_provider_settings]. *)
Record base_query := {
  bq_provider : string;
  bq_user_id : option Z;
  bq_team_id : option Z;
  bq_scope_type : NotificationScopeEnum.t;
  bq_scope_identifier : Z
}.

Definition base_match (b : base_query) (r : NotificationSettingProvider.t) : bool :=
  bool_decide (NotificationSettingProvider.provider r = bq_provider b)
  && bool_decide (NotificationSettingProvider.user_id r = bq_user_id b)
  && bool_decide (NotificationSettingProvider.team_id r = bq_team_id b)
  && bool_decide (NotificationSettingProvider.scope_type r = bq_scope_type b)
  && (NotificationSettingProvider.scope_identifier r =? bq_scope_identifier b).

(** [query_args]: the base query and a type name. *)
Definition args_match (b : base_query) (type : string)
           (r : NotificationSettingProvider.t) : bool :=
  base_match b r && bool_decide (NotificationSettingProvider.type r = type).

(** Modelled from the spec: [create_or_update] of the base manager (not
    among the sources), the upsert of Section 4.4. *)
Definition provider_create_or_update (b : base_query) (type : string)
           (value : NotificationSettingsOptionEnum.t) : Db unit :=
  db_write (fun s =>
    if existsb (args_match b type) (providers s)
    then set_providers
           (map (fun r => if args_match b type r
                          then NotificationSettingProvider.with_value value r
                          else r) (providers s)) s
    else set_providers
           (providers s ++
              [NotificationSettingProvider.Build (bq_provider b) type
                 (bq_scope_type b) (bq_scope_identifier b)
                 (bq_user_id b) (bq_team_id b) value]) s).

(** The bulk delete that ends each round of the provider loop: the rows
    of the base query whose type is one of [types]. *)
Definition provider_delete (b : base_query) (types : list string) : Db unit :=
  db_write (fun s =>
    set_providers
      (List.filter
         (fun r => negb (base_match b r
                         && bool_decide (NotificationSettingProvider.type r ∈ types)))
         (providers s)) s).

(** The first loop of [update_provider_settings]: the stored rows are
    sorted into the enabled and the disabled providers of their type. *)
Fixpoint classify (rows : list NotificationSetting.t)
         (enabled disabled : gmap Z (gset string))
  : exn + (gmap Z (gset string) * gmap Z (gset string)) :=
  match rows with
  | [] => inr (enabled, disabled)
  | setting :: rows' =>
      match subscript "EXTERNAL_PROVIDERS" EXTERNAL_PROVIDERS
              (ExternalProviders.Member (NotificationSetting.provider setting)) with
      | inl e => inl e
      | inr provider =>
          let type := NotificationSetting.type setting in
          if bool_decide (NotificationSetting.value setting
                          = NotificationSettingOptionValues.NEVER)
          then classify rows' enabled (dd_add disabled type provider)
          else classify rows' (dd_add enabled type provider) disabled
      end
  end.

(** The loop over the alert types for one provider; it returns
    [types_to_delete]. *)
Fixpoint project_types (b : base_query)
         (enabled disabled : gmap Z (gset string))
         (types : list NotificationSettingTypes.t)
         (types_to_delete : list NotificationSettingTypes.t)
  : Db (list NotificationSettingTypes.t) :=
  match types with
  | [] => db_ret types_to_delete
  | type :: types' =>
      (name <~ db_lift (subscript "NOTIFICATION_SETTING_TYPES"
                          NOTIFICATION_SETTING_TYPES type) ;;
       if bool_decide (bq_provider b
                       ∈ dd_get enabled (NotificationSettingTypes.value type))
       then provider_create_or_update b name NotificationSettingsOptionEnum.ALWAYS ;;;
            project_types b enabled disabled types' types_to_delete
       else if bool_decide (bq_provider b
                            ∈ dd_get disabled (NotificationSettingTypes.value type))
       then provider_create_or_update b name NotificationSettingsOptionEnum.NEVER ;;;
            project_types b enabled disabled types' types_to_delete
       else project_types b enabled disabled types' (types_to_delete ++ [type]))%db
  end.

(** [[NOTIFICATION_SETTING_TYPES[type] for type in types]]. *)
Fixpoint type_names (types : list NotificationSettingTypes.t) : exn + list string :=
  match types with
  | [] => inr []
  | type :: types' =>
      match subscript "NOTIFICATION_SETTING_TYPES" NOTIFICATION_SETTING_TYPES type with
      | inl e => inl e
      | inr name =>
          match type_names types' with
          | inl e => inl e
          | inr names => inr (name :: names)
          end
      end
  end.

(** The body of the loop over the providers: the loop over the alert
    types, then the delete of the types left without a value. *)
Definition provider_round (enabled disabled : gmap Z (gset string))
           (b : base_query) : Db unit :=
  (types_to_delete <~
     project_types b enabled disabled (keys VALID_VALUES_FOR_KEY_V2) [] ;;
   names <~ db_lift (type_names types_to_delete) ;;
   provider_delete b names)%db.

Definition update_provider_settings (user_id team_id : option Z) : Db unit :=
  if negb (truthy team_id || truthy user_id)
  then db_raise (AssertionError
                   "Cannot update settings if user or team is not passed")
  else
    let parent_scope_type :=
      match team_id with
      | Some _ => NotificationScopeEnum.TEAM
      | None => NotificationScopeEnum.USER
      end in
    (* past the assertion one of the two ids is set *)
    let parent_scope_identifier :=
      match team_id with
      | Some t => t
      | None => default 0 user_id
      end in
    (notification_settings <~
       qs_list (Q_and (Q_and (Q_user_id user_id) (Q_team_id team_id))
                      (Q_scope_type__in [NotificationScopeType.USER;
                                         NotificationScopeType.TEAM])) ;;
     by_type <~ db_lift (classify notification_settings ∅ ∅) ;;
     let '(enabled_providers_by_type, disabled_providers_by_type) := by_type in
     db_for PERSONAL_NOTIFICATION_PROVIDERS (fun provider =>
       let base_query :=
         {| bq_provider := provider; bq_user_id := user_id;
            bq_team_id := team_id; bq_scope_type := parent_scope_type;
            bq_scope_identifier := parent_scope_identifier |} in
       provider_round enabled_providers_by_type disabled_providers_by_type
         base_query))%db.

(** *** [remove_settings] and [update_settings] *)

(** A [user] or [project] object is given by its id; the argument
    [organization_id_for_team] of [remove_settings] is not used by the
    method and is left out. *)

Definition remove_settings (provider : ExternalProviders.t)
           (type : NotificationSettingTypes.t)
           (user : option Z) (user_id team_id project organization : option Z)
  : Db unit :=
  let user_id := match user with Some u => Some u | None => user_id end in
  (scope <~ db_lift (get_scope team_id user_id project organization) ;;
   let '(scope_type, scope_identifier) := scope in
   scope_type_str <~
     db_lift (subscript "NOTIFICATION_SCOPE_TYPE" NOTIFICATION_SCOPE_TYPE scope_type) ;;
   option_delete (str_of_type type) scope_type_str scope_identifier user_id team_id ;;;
   q <~ db_lift (find_settings provider type user_id team_id project organization) ;;
   qs_delete q)%db.

Definition record_event (e : AnalyticsEvent) : Db unit :=
  db_write (fun s =>
    {| settings := settings s; next_pk := next_pk s; options := options s;
       providers := providers s; analytics := analytics s ++ [e] |}).

Definition update_settings (provider : ExternalProviders.t)
           (type : NotificationSettingTypes.t)
           (value : NotificationSettingOptionValues.t)
           (user : option Z) (user_id team_id project organization : option Z)
           (actor : option RpcActor.t) (skip_provider_updates : bool) : Db unit :=
  let '(user_id, team_id) :=
    match user, actor with
    | Some u, _ => (Some u, team_id)
    | None, Some a =>
        if bool_decide (RpcActor.actor_type a = ActorType.USER)
        then (Some (RpcActor.id a), team_id)
        else (user_id, Some (RpcActor.id a))
    | None, None => (user_id, team_id)
    end in
  (* [actor_type] and [actor_id]: the team overrides the user; with
     neither the name [actor_type] is unbound at the assertion. *)
  match (match team_id, user_id with
         | Some t, _ => Some (ActorType.TEAM, t)
         | None, Some u => Some (ActorType.USER, u)
         | None, None => None
         end) with
  | None => db_raise (UnboundLocalError "actor_type")
  | Some (actor_type, actor_id) =>
      (record_event
         {| event := "notifications.settings_updated";
            target_type := if bool_decide (actor_type = ActorType.USER)
                           then "user" else "team";
            event_actor_id := None;
            event_id := actor_id |} ;;;
       scope <~ db_lift (get_scope team_id user_id project organization) ;;
       let '(scope_type, scope_identifier) := scope in
       (if bool_decide (value = NotificationSettingOptionValues.DEFAULT)
        then remove_settings provider type None user_id team_id project organization
        else
          if negb (validate type value)
          then db_raise (Exception_ "value '{value}' is not valid for type '{type}'")
          else
            if bool_decide (actor_type = ActorType.USER)
            then _update_settings provider type value scope_type scope_identifier
                   (Some actor_id) None
            else _update_settings provider type value scope_type scope_identifier
                   None (Some actor_id)) ;;;
       type_name <~
         db_lift (subscript "NOTIFICATION_SETTING_TYPES"
                    NOTIFICATION_SETTING_TYPES type) ;;
       scope_name <~
         db_lift (subscript "NOTIFICATION_SCOPE_TYPE"
                    NOTIFICATION_SCOPE_TYPE scope_type) ;;
       (if bool_decide (value = NotificationSettingOptionValues.DEFAULT)
        then option_delete type_name scope_name scope_identifier user_id team_id
        else
          value_name <~
            db_lift (subscript "NOTIFICATION_SETTING_OPTION_VALUES"
                       NOTIFICATION_SETTING_OPTION_VALUES value) ;;
          option_create_or_update type_name scope_name scope_identifier
            user_id team_id value_name) ;;;
       if skip_provider_updates then db_ret tt
       else update_provider_settings user_id team_id)%db
  end.

(** *** Batch resolution *)

(** The default opt-in policy, an external table: what [DEFAULT] means
    for an alert type and a provider. *)
Variable default_policy :
  string -> ExternalProviders.t -> NotificationSettingOptionValues.t.
(** [NotificationSettingEnum.ISSUE_ALERTS], the name of the default
    alert type. *)
Variable ISSUE_ALERTS : string.

(** [NotificationController(recipients, project_ids, organization_id,
    type)]. *)
Record NotificationController := {
  nc_recipients : list RpcActor.t;
  nc_project_ids : option (list Z);
  nc_organization_id : Z;
  nc_type : string
}.

Definition owned_by (a : RpcActor.t) (r : NotificationSetting.t) : bool :=
  match RpcActor.actor_type a with
  | ActorType.USER =>
      bool_decide (NotificationSetting.user_id r = Some (RpcActor.id a))
  | ActorType.TEAM =>
      bool_decide (NotificationSetting.team_id r = Some (RpcActor.id a))
  end.

Definition own_scope (a : RpcActor.t) (r : NotificationSetting.t) : bool :=
  bool_decide (NotificationSetting.scope_type r
               = match RpcActor.actor_type a with
                 | ActorType.USER => NotificationScopeType.USER
                 | ActorType.TEAM => NotificationScopeType.TEAM
                 end)
  && (NotificationSetting.scope_identifier r =? RpcActor.id a).

(** The scope of the parent: the project when project ids are given,
    the organization otherwise. *)
Definition parent_scope (c : NotificationController)
           (r : NotificationSetting.t) : bool :=
  match nc_project_ids c with
  | Some ids =>
      bool_decide (NotificationSetting.scope_type r = NotificationScopeType.PROJECT)
      && bool_decide (NotificationSetting.scope_identifier r ∈ ids)
  | None =>
      bool_decide (NotificationSetting.scope_type r
                   = NotificationScopeType.ORGANIZATION)
      && (NotificationSetting.scope_identifier r =? nc_organization_id c)
  end.

Definition of_type (name : string) (r : NotificationSetting.t) : bool :=
  bool_decide (dict_get NOTIFICATION_SETTING_TYPES
                 (NotificationSettingTypes.Member (NotificationSetting.type r))
               = Some name).

(** The value a recipient has for a provider: the record at the
    parent's scope if there is one, else the recipient's own record,
    else [DEFAULT]. *)
Definition effective_value (c : NotificationController)
           (rows : list NotificationSetting.t)
           (provider : ExternalProviders.t) (a : RpcActor.t)
  : NotificationSettingOptionValues.t :=
  let mine :=
    List.filter
      (fun r => owned_by a r
                && (NotificationSetting.provider r =? ExternalProviders.value provider))
      rows in
  match List.filter (parent_scope c) mine with
  | r :: _ => NotificationSetting.value r
  | [] =>
      match List.filter (own_scope a) mine with
      | r :: _ => NotificationSetting.value r
      | [] => NotificationSettingOptionValues.DEFAULT
      end
  end.

Definition resolve_default (type : string) (provider : ExternalProviders.t)
           (v : NotificationSettingOptionValues.t)
  : NotificationSettingOptionValues.t :=
  if bool_decide (v = NotificationSettingOptionValues.DEFAULT)
  then default_policy type provider else v.

(** Modelled from the spec: [NotificationController] and its
    [get_notification_recipients] are defined in
    sentry/notifications/notificationcontroller.py, which is not among
    the sources.  Section 4.3, the batch operation: the records of the
    alert type at the parent's scope or at the own scope of a recipient
    are fetched; for each recipient the record at the parent's scope, if
    present, wins over the recipient's own record, and with neither the
    value is [DEFAULT], which the default policy resolves; a recipient
    is grouped under a provider when the resolved value is not
    [NEVER]. *)
Definition get_notification_recipients (c : NotificationController)
           (type : string) : Db (dict ExternalProviders.t (list RpcActor.t)) :=
  db_read (fun s =>
    let rows := List.filter (of_type type) (settings s) in
    map (fun provider =>
           (provider,
            List.filter
              (fun a =>
                 negb (bool_decide
                         (resolve_default type provider
                            (effective_value c rows provider a)
                          = NotificationSettingOptionValues.NEVER)))
              (nc_recipients c)))
        (keys EXTERNAL_PROVIDERS)).

Definition filter_to_accepting_recipients (parent : Parent.t)
           (recipients : list RpcActor.t)
           (type : option NotificationSettingTypes.t)
  : Db (dict ExternalProviders.t (list RpcActor.t)) :=
  let recipient_actors := recipients in
  let '(organization_id, project_ids) :=
    match parent with
    | Parent.Project id organization_id => (organization_id, Some [id])
    | Parent.Organization id => (id, None)
    end in
  (setting_type <~
     match type with
     | Some t => db_lift (subscript "NOTIFICATION_SETTING_TYPES"
                            NOTIFICATION_SETTING_TYPES t)
     | None => db_ret ISSUE_ALERTS
     end ;;
   let controller :=
     {| nc_recipients := recipient_actors; nc_project_ids := project_ids;
        nc_organization_id := organization_id; nc_type := setting_type |} in
   get_notification_recipients controller setting_type)%db.

(** ** Properties *)

(** The imported helpers are functions, which a propositional solver
    would take for implications: they are set aside before it runs. *)
Ltac taut :=
  try clear default_policy; try clear get_scope_type; try clear str_of_type;
  tauto.

(** *** Reading a run of the monad *)

Lemma db_bind_inr {A B} (m : Db A) (k : A -> Db B) s a s' :
  m s = (inr a, s') -> db_bind m k s = k a s'.
Proof. intros H. unfold db_bind. now rewrite H. Qed.

Lemma db_bind_inl {A B} (m : Db A) (k : A -> Db B) s e s' :
  m s = (inl e, s') -> db_bind m k s = (inl e, s').
Proof. intros H. unfold db_bind. now rewrite H. Qed.

(** *** What a built filter matches *)

(** The rows a call of [_filter] selects, column by column: an argument
    that is [None], zero or an empty set puts no condition on its
    column. *)
Definition selected (provider : option ExternalProviders.t)
           (type : option NotificationSettingTypes.t)
           (scope_type : option NotificationScopeType.t)
           (scope_identifier : option Z)
           (user_ids team_ids : gset Z) (r : NotificationSetting.t) : bool :=
  match provider with
  | Some p => NotificationSetting.provider r =? ExternalProviders.value p
  | None => true
  end
  && match type with
     | Some t => NotificationSetting.type r =? NotificationSettingTypes.value t
     | None => true
     end
  && match scope_type with
     | Some st => bool_decide (NotificationSetting.scope_type r = st)
     | None => true
     end
  && match scope_identifier with
     | Some i => (i =? 0) || (NotificationSetting.scope_identifier r =? i)
     | None => true
     end
  && (if nonempty team_ids || nonempty user_ids
      then in_ids (NotificationSetting.team_id r) team_ids
           || in_ids (NotificationSetting.user_id r) user_ids
      else true).

Lemma in_ids_empty c : in_ids c ∅ = false.
Proof.
  destruct c; simpl; [|reflexivity]. apply bool_decide_eq_false.
  apply not_elem_of_empty.
Qed.

Lemma nonempty_empty : nonempty ∅ = false.
Proof. unfold nonempty. now rewrite bool_decide_eq_true_2. Qed.

Lemma nonempty_singleton (i : Z) : nonempty ({[i]} ∪ ∅) = true.
Proof.
  unfold nonempty. rewrite bool_decide_eq_false_2; [reflexivity|].
  intros H. apply (not_elem_of_empty (C := gset Z) i). rewrite <- H.
  apply elem_of_union_l. now apply elem_of_singleton.
Qed.

Lemma nonempty_false s : nonempty s = false -> s = ∅.
Proof.
  unfold nonempty. intros H. apply negb_false_iff in H.
  now apply bool_decide_eq_true in H.
Qed.

Lemma matches_filter provider type scope_type scope_identifier user_ids team_ids r :
  matches (_filter provider type scope_type scope_identifier
                   (Some user_ids) (Some team_ids)) r
  = selected provider type scope_type scope_identifier user_ids team_ids r.
Proof.
  unfold _filter, selected.
  destruct (nonempty team_ids) eqn:Ht, (nonempty user_ids) eqn:Hu;
    try (apply nonempty_false in Ht; subst team_ids);
    try (apply nonempty_false in Hu; subst user_ids);
    destruct provider, type, scope_type, scope_identifier as [i|];
    try destruct (i =? 0); simpl;
    rewrite ?andb_true_r; reflexivity.
Qed.

Lemma matches_filter_no_ids provider type scope_type scope_identifier r :
  matches (_filter provider type scope_type scope_identifier None None) r
  = selected provider type scope_type scope_identifier ∅ ∅ r.
Proof.
  unfold _filter, selected. rewrite nonempty_empty.
  destruct provider, type, scope_type, scope_identifier as [i|];
    try destruct (i =? 0); simpl; rewrite ?andb_true_r; reflexivity.
Qed.

(** *** Bulk deletes by scope *)

Definition of_alert_type (type : option NotificationSettingTypes.t)
           (r : NotificationSetting.t) : bool :=
  match type with
  | Some t => NotificationSetting.type r =? NotificationSettingTypes.value t
  | None => true
  end.

(** The records of one scope: that scope type and that identifier, of the
    alert type when one is given. *)
Definition scoped_to (scope_type : NotificationScopeType.t) (scope_identifier : Z)
           (type : option NotificationSettingTypes.t)
           (r : NotificationSetting.t) : bool :=
  bool_decide (NotificationSetting.scope_type r = scope_type)
  && (NotificationSetting.scope_identifier r =? scope_identifier)
  && of_alert_type type r.

(** The records of one scope type whatever their identifier. *)
Definition of_scope_type (scope_type : NotificationScopeType.t)
           (type : option NotificationSettingTypes.t)
           (r : NotificationSetting.t) : bool :=
  bool_decide (NotificationSetting.scope_type r = scope_type)
  && of_alert_type type r.

Lemma filter_ext_eq {A} (f g : A -> bool) (l : list A) :
  (forall x, f x = g x) -> List.filter f l = List.filter g l.
Proof. intros H. apply List.filter_ext. exact H. Qed.

Lemma scoped_delete_nonzero scope_type scope_identifier type r :
  scope_identifier <> 0 ->
  matches (_filter None type (Some scope_type) (Some scope_identifier) None None) r
  = scoped_to scope_type scope_identifier type r.
Proof.
  intros Hnz. rewrite matches_filter_no_ids.
  unfold selected, scoped_to, of_alert_type. rewrite nonempty_empty. simpl.
  apply Z.eqb_neq in Hnz. rewrite Hnz. simpl.
  generalize (bool_decide (NotificationSetting.scope_type r = scope_type)).
  generalize (NotificationSetting.scope_identifier r =? scope_identifier).
  destruct type as [t|]; simpl;
    [generalize (NotificationSetting.type r =? NotificationSettingTypes.value t);
     intros [] [] []; reflexivity
    | intros [] []; reflexivity].
Qed.

Lemma scoped_delete_zero scope_type type r :
  matches (_filter None type (Some scope_type) (Some 0) None None) r
  = of_scope_type scope_type type r.
Proof.
  rewrite matches_filter_no_ids.
  unfold selected, of_scope_type, of_alert_type. rewrite nonempty_empty. simpl.
  generalize (bool_decide (NotificationSetting.scope_type r = scope_type)).
  destruct type as [t|]; simpl;
    [generalize (NotificationSetting.type r =? NotificationSettingTypes.value t);
     intros [] []; reflexivity
    | intros []; reflexivity].
Qed.

(** C8. For a project id other than zero [remove_for_project] deletes
    exactly the records of scope type PROJECT with that scope identifier
    (of the given type when a type is given).  Every other record stays as
    it is: those of another scope type, of another scope identifier, or of
    another type when a type is given; the other tables are not
    touched. *)
Theorem remove_for_project_exact (project_id : Z)
        (type : option NotificationSettingTypes.t) (s : Store) :
  project_id <> 0 ->
  exists s',
    remove_for_project project_id type s = (inr tt, s')
    /\ settings s'
       = List.filter
           (fun r => negb (scoped_to NotificationScopeType.PROJECT project_id type r))
           (settings s)
    /\ (forall r, In r (settings s') ->
          In r (settings s)
          /\ ~ (NotificationSetting.scope_type r = NotificationScopeType.PROJECT
                /\ NotificationSetting.scope_identifier r = project_id
                /\ forall t, type = Some t ->
                     NotificationSetting.type r = NotificationSettingTypes.value t))
    /\ (forall r, In r (settings s) ->
          NotificationSetting.scope_type r <> NotificationScopeType.PROJECT
          \/ NotificationSetting.scope_identifier r <> project_id
          \/ (exists t, type = Some t
                /\ NotificationSetting.type r <> NotificationSettingTypes.value t) ->
          In r (settings s'))
    /\ options s' = options s
    /\ providers s' = providers s.
Proof.
  intros Hnz. eexists. split; [reflexivity|]. simpl.
  assert (Heq : List.filter
                  (fun r => negb (matches (_filter None type
                                   (Some NotificationScopeType.PROJECT)
                                   (Some project_id) None None) r)) (settings s)
                = List.filter
                    (fun r => negb (scoped_to NotificationScopeType.PROJECT
                                      project_id type r)) (settings s)).
  { apply filter_ext_eq. intros r. now rewrite scoped_delete_nonzero. }
  rewrite Heq. split; [reflexivity|]. split; [|split; [|split; reflexivity]].
  - intros r Hin. apply List.filter_In in Hin as [Hin Hkeep].
    split; [exact Hin|]. intros (Hst & Hid & Hty).
    apply negb_true_iff in Hkeep. unfold scoped_to, of_alert_type in Hkeep.
    rewrite bool_decide_eq_true_2 in Hkeep by exact Hst.
    rewrite (proj2 (Z.eqb_eq _ _) Hid) in Hkeep. simpl in Hkeep.
    destruct type as [t|]; [|discriminate].
    rewrite (proj2 (Z.eqb_eq _ _) (Hty t eq_refl)) in Hkeep. discriminate.
  - intros r Hin Hother. apply List.filter_In. split; [exact Hin|].
    apply negb_true_iff. unfold scoped_to, of_alert_type.
    destruct Hother as [Hst | [Hid | (t & -> & Hty)]].
    + now rewrite bool_decide_eq_false_2.
    + apply Z.eqb_neq in Hid. rewrite Hid. now rewrite andb_false_r.
    + apply Z.eqb_neq in Hty. rewrite Hty. now rewrite andb_false_r.
Qed.

(** C10. A filter argument that is false in a Python condition ([None],
    zero, an empty set) puts no condition on the query.  So
    [remove_for_project(0)] keeps no condition on the scope identifier and
    deletes every record of scope type PROJECT (of the given type when a
    type is given), whatever its project, and [remove_for_organization(0)]
    does the same to the ORGANIZATION records: a record whose scope
    identifier is not zero is deleted as well. *)
Theorem remove_for_scope_zero (type : option NotificationSettingTypes.t) (s : Store) :
  (forall provider t scope_type user_ids team_ids,
      _filter provider t scope_type (Some 0) user_ids team_ids
      = _filter provider t scope_type None user_ids team_ids)
  /\ (forall provider t scope_type scope_identifier,
         _filter provider t scope_type scope_identifier (Some ∅) (Some ∅)
         = _filter provider t scope_type scope_identifier None None)
  /\ _filter None None None None None None = Q_all
  /\ remove_for_project 0 type s
     = (inr tt,
        set_settings
          (List.filter
             (fun r => negb (of_scope_type NotificationScopeType.PROJECT type r))
             (settings s)) s)
  /\ remove_for_organization 0 type s
     = (inr tt,
        set_settings
          (List.filter
             (fun r => negb (of_scope_type NotificationScopeType.ORGANIZATION type r))
             (settings s)) s)
  /\ (forall r, In r (settings s) ->
        NotificationSetting.scope_type r = NotificationScopeType.PROJECT ->
        of_alert_type type r = true ->
        ~ In r (settings (snd (remove_for_project 0 type s)))).
Proof.
  split; [reflexivity|].
  split; [intros; unfold _filter; now rewrite nonempty_empty|].
  split; [reflexivity|].
  assert (Hp : forall st,
             List.filter
               (fun r => negb (matches (_filter None type (Some st) (Some 0)
                                          None None) r)) (settings s)
             = List.filter (fun r => negb (of_scope_type st type r)) (settings s)).
  { intros st. apply filter_ext_eq. intros r. now rewrite scoped_delete_zero. }
  split; [|split].
  - unfold remove_for_project, qs_delete, db_write. now rewrite Hp.
  - unfold remove_for_organization, qs_delete, db_write. now rewrite Hp.
  - intros r Hin Hst Hty Hin'.
    unfold remove_for_project, qs_delete, db_write in Hin'.
    cbn [snd settings set_settings] in Hin'.
    rewrite Hp in Hin'. apply List.filter_In in Hin' as [_ Hkeep].
    apply negb_true_iff in Hkeep. unfold of_scope_type in Hkeep.
    rewrite bool_decide_eq_true_2, Hty in Hkeep by exact Hst. discriminate.
Qed.

(** *** Single recipients and their keys *)

(** The [user_id] and [team_id] arguments that name one recipient. *)
Definition user_id_of (a : RpcActor.t) : option Z :=
  match RpcActor.actor_type a with
  | ActorType.USER => Some (RpcActor.id a)
  | ActorType.TEAM => None
  end.

Definition team_id_of (a : RpcActor.t) : option Z :=
  match RpcActor.actor_type a with
  | ActorType.USER => None
  | ActorType.TEAM => Some (RpcActor.id a)
  end.

(** The records stored under a key: provider, type, scope and owner. *)
Definition key_record (provider : ExternalProviders.t)
           (type : NotificationSettingTypes.t)
           (scope_type : NotificationScopeType.t) (scope_identifier : Z)
           (a : RpcActor.t) (r : NotificationSetting.t) : bool :=
  (NotificationSetting.provider r =? ExternalProviders.value provider)
  && (NotificationSetting.type r =? NotificationSettingTypes.value type)
  && bool_decide (NotificationSetting.scope_type r = scope_type)
  && (NotificationSetting.scope_identifier r =? scope_identifier)
  && owned_by a r.

Lemma in_ids_singleton c (i : Z) :
  in_ids c ({[i]} ∪ ∅) = bool_decide (c = Some i).
Proof.
  destruct c as [j|]; simpl.
  - apply bool_decide_ext. rewrite union_empty_r_L, elem_of_singleton.
    split; [now intros -> | now intros [= ->]].
  - reflexivity.
Qed.

(** The query [find_settings] builds for one recipient. *)
Definition recipient_query (provider : ExternalProviders.t)
           (type : NotificationSettingTypes.t)
           (scope_type : NotificationScopeType.t) (scope_identifier : Z)
           (a : RpcActor.t) : Q :=
  match RpcActor.actor_type a with
  | ActorType.USER =>
      _filter (Some provider) (Some type) (Some scope_type) (Some scope_identifier)
              (Some ({[RpcActor.id a]} ∪ ∅)) (Some ∅)
  | ActorType.TEAM =>
      _filter (Some provider) (Some type) (Some scope_type) (Some scope_identifier)
              (Some ∅) (Some ({[RpcActor.id a]} ∪ ∅))
  end.

Lemma find_settings_single provider type a project organization
      scope_type scope_identifier :
  RpcActor.id a <> 0 ->
  get_scope (team_id_of a) (user_id_of a) project organization
  = inr (scope_type, scope_identifier) ->
  find_settings provider type (user_id_of a) (team_id_of a) project organization
  = inr (recipient_query provider type scope_type scope_identifier a).
Proof.
  intros Hnz Hscope. unfold find_settings, recipient_query.
  apply Z.eqb_neq in Hnz.
  destruct a as [[] i]; unfold user_id_of, team_id_of in *;
    cbn [RpcActor.actor_type RpcActor.id] in *;
    rewrite Hnz, Hscope, nonempty_singleton, nonempty_empty;
    cbn [negb andb orb];
    rewrite !union_empty_r_L, size_singleton, size_empty; reflexivity.
Qed.

(** Outside scope identifier zero the query selects the records of the
    key and no other. *)
Lemma recipient_query_key provider type scope_type scope_identifier a r :
  scope_identifier <> 0 ->
  matches (recipient_query provider type scope_type scope_identifier a) r
  = key_record provider type scope_type scope_identifier a r.
Proof.
  intros Hnz. apply Z.eqb_neq in Hnz.
  unfold recipient_query, key_record, owned_by.
  destruct (RpcActor.actor_type a); rewrite matches_filter; unfold selected;
    rewrite nonempty_singleton, nonempty_empty, Hnz, in_ids_empty,
      in_ids_singleton; simpl; rewrite ?orb_false_r; reflexivity.
Qed.

(** With scope identifier zero it still selects every record of the key. *)
Lemma recipient_query_covers provider type scope_type scope_identifier a r :
  key_record provider type scope_type scope_identifier a r = true ->
  matches (recipient_query provider type scope_type scope_identifier a) r = true.
Proof.
  unfold recipient_query, key_record, owned_by.
  destruct (RpcActor.actor_type a); rewrite matches_filter; unfold selected;
    rewrite nonempty_singleton, nonempty_empty, in_ids_empty,
      in_ids_singleton; simpl; rewrite ?orb_false_r;
    intros H; repeat (apply andb_true_iff in H as [H ?]);
    repeat (apply andb_true_iff; split); try assumption;
    apply orb_true_iff; now right.
Qed.

(** *** Reading a setting *)

(** C3. For a recipient and a scope with identifiers other than zero,
    [get_settings] returns the value of the record stored under the key
    when there is exactly one and DEFAULT when there is none.  When
    several are stored it raises nothing: it returns the value of the first
    of them in the order of the table, so the answer is a function of the
    store, and the store is left as it was. *)
Theorem get_settings_lookup (provider : ExternalProviders.t)
        (type : NotificationSettingTypes.t) (a : RpcActor.t)
        (project organization : option Z)
        (scope_type : NotificationScopeType.t) (scope_identifier : Z) (s : Store) :
  RpcActor.id a <> 0 ->
  get_scope (team_id_of a) (user_id_of a) project organization
  = inr (scope_type, scope_identifier) ->
  scope_identifier <> 0 ->
  let stored :=
    List.filter (key_record provider type scope_type scope_identifier a)
                (settings s) in
  let answer :=
    get_settings provider type (user_id_of a) (team_id_of a) project organization s in
  (forall r, stored = [r] -> answer = (inr (NotificationSetting.value r), s))
  /\ (stored = [] -> answer = (inr NotificationSettingOptionValues.DEFAULT, s))
  /\ (forall r rest, stored = r :: rest ->
        answer = (inr (NotificationSetting.value r), s)).
Proof.
  intros Hnz Hscope Hsid stored answer.
  assert (Hrun : answer
                 = (inr match stored with
                        | r :: _ => NotificationSetting.value r
                        | [] => NotificationSettingOptionValues.DEFAULT
                        end, s)).
  { subst answer. unfold get_settings.
    rewrite (find_settings_single provider type a project organization
               scope_type scope_identifier Hnz Hscope).
    unfold db_bind, db_lift, qs_list, db_read.
    rewrite (filter_ext_eq
               (matches (recipient_query provider type scope_type
                           scope_identifier a))
               (key_record provider type scope_type scope_identifier a))
      by (intros r; now apply recipient_query_key).
    fold stored. destruct stored; reflexivity. }
  rewrite Hrun. repeat split.
  - now intros r ->.
  - now intros ->.
  - now intros r rest ->.
Qed.

(** *** Failures that leave the tables alone *)

(** The three tables of two stores are the same. *)
Definition same_tables (s s' : Store) : Prop :=
  settings s' = settings s
  /\ options s' = options s
  /\ providers s' = providers s.

(** C7. When the value is not DEFAULT and [validate] rejects it for the
    alert type, [update_settings] raises the exception for an invalid
    value before any write: no setting record, option row or projection
    row is created, updated or deleted. *)
Theorem invalid_value_rejected (provider : ExternalProviders.t)
        (type : NotificationSettingTypes.t)
        (value : NotificationSettingOptionValues.t) (a : RpcActor.t)
        (project organization : option Z) (skip : bool) (s : Store) :
  value <> NotificationSettingOptionValues.DEFAULT ->
  validate type value = false ->
  exists s',
    update_settings provider type value None (user_id_of a) (team_id_of a)
      project organization None skip s
    = (inl (Exception_ "value '{value}' is not valid for type '{type}'"), s')
    /\ same_tables s s'
    /\ next_pk s' = next_pk s.
Proof.
  intros Hnd Hval. unfold update_settings.
  destruct a as [[] i]; unfold user_id_of, team_id_of;
    cbn [RpcActor.actor_type RpcActor.id];
    unfold db_bind, record_event, db_write, db_lift; cbn [get_scope];
    destruct project as [p|], organization as [o|];
    rewrite (bool_decide_eq_false_2 _ Hnd), Hval; cbn [negb];
    unfold db_raise; eexists; (split; [reflexivity|]); now repeat split.
Qed.

(** *** Frames: what a computation leaves alone *)

(** [keeps f m]: a run of [m] does not change the part [f] of the store,
    whether it returns or raises. *)
Definition keeps {X A} (f : Store -> X) (m : Db A) : Prop :=
  forall s, f (snd (m s)) = f s.

Lemma keeps_ret {X A} (f : Store -> X) (a : A) : keeps f (db_ret a).
Proof. now intros s. Qed.

Lemma keeps_raise {X A} (f : Store -> X) e : keeps f (@db_raise A e).
Proof. now intros s. Qed.

Lemma keeps_lift {X A} (f : Store -> X) (r : exn + A) : keeps f (db_lift r).
Proof. now intros s. Qed.

Lemma keeps_read {X A} (f : Store -> X) (g : Store -> A) : keeps f (db_read g).
Proof. now intros s. Qed.

Lemma keeps_bind {X A B} (f : Store -> X) (m : Db A) (k : A -> Db B) :
  keeps f m -> (forall a, keeps f (k a)) -> keeps f (db_bind m k).
Proof.
  intros Hm Hk s. unfold db_bind. specialize (Hm s).
  destruct (m s) as [[e|a] s']; simpl in *; [exact Hm|].
  now rewrite Hk.
Qed.

Lemma keeps_after {X A B} (f : Store -> X) (m : Db A) (k : A -> Db B) s :
  (forall a, keeps f (k a)) -> f (snd (db_bind m k s)) = f (snd (m s)).
Proof.
  intros Hk. unfold db_bind.
  destruct (m s) as [[e|a] s']; simpl; [reflexivity|]. apply Hk.
Qed.

Lemma keeps_for {X A} (f : Store -> X) (l : list A) (body : A -> Db unit) :
  (forall x, keeps f (body x)) -> keeps f (db_for l body).
Proof.
  intros Hb. induction l as [|x l IH]; simpl.
  - apply keeps_ret.
  - apply keeps_bind; [apply Hb | intros _; exact IH].
Qed.

Lemma keeps_write {X} (f : Store -> X) (g : Store -> Store) :
  (forall s, f (g s) = f s) -> keeps f (db_write g).
Proof. intros H s. apply H. Qed.

(** The parts of the store outside the projection table. *)
Definition apart_from_providers (s : Store)
  : list NotificationSetting.t * Z * list NotificationSettingOption.t
    * list AnalyticsEvent :=
  (settings s, next_pk s, options s, analytics s).

Lemma provider_create_or_update_keeps b name v :
  keeps apart_from_providers (provider_create_or_update b name v).
Proof.
  apply keeps_write. intros s.
  destruct (existsb (args_match b name) (providers s)); reflexivity.
Qed.

Lemma provider_delete_keeps b names :
  keeps apart_from_providers (provider_delete b names).
Proof. now apply keeps_write. Qed.

Lemma project_types_keeps b enabled disabled types acc :
  keeps apart_from_providers (project_types b enabled disabled types acc).
Proof.
  revert acc. induction types as [|t types IH]; intros acc; simpl.
  - apply keeps_ret.
  - apply keeps_bind; [apply keeps_lift|]. intros name.
    repeat case_match; auto;
      (apply keeps_bind;
       [apply provider_create_or_update_keeps | intros _; apply IH]).
Qed.

(** The rebuild of the projection writes to the projection table only. *)
Lemma update_provider_settings_keeps user_id team_id :
  keeps apart_from_providers (update_provider_settings user_id team_id).
Proof.
  unfold update_provider_settings. case_match; [apply keeps_raise|].
  apply keeps_bind; [apply keeps_read|]. intros rows.
  apply keeps_bind; [apply keeps_lift|]. intros [enabled disabled].
  apply keeps_for. intros name. unfold provider_round.
  apply keeps_bind; [apply project_types_keeps|]. intros del.
  apply keeps_bind; [apply keeps_lift|]. intros names.
  apply provider_delete_keeps.
Qed.

Lemma update_provider_settings_settings user_id team_id s :
  settings (snd (update_provider_settings user_id team_id s)) = settings s.
Proof.
  pose proof (update_provider_settings_keeps user_id team_id s) as H.
  unfold apart_from_providers in H. now inversion H.
Qed.

(** *** Resetting a setting *)

Lemma filter_out_then_in {A} (f : A -> bool) (l : list A) :
  List.filter f (List.filter (fun x => negb (f x)) l) = [].
Proof.
  induction l as [|x l IH]; simpl; [reflexivity|].
  destruct (f x) eqn:Hx; simpl; [exact IH|]. now rewrite Hx.
Qed.

(** What [remove_settings] does for one recipient: the option rows of the
    key and the records the recipient's query selects are deleted. *)
Lemma remove_settings_single provider type a project organization
      scope_type scope_identifier scope_name s :
  RpcActor.id a <> 0 ->
  get_scope (team_id_of a) (user_id_of a) project organization
  = inr (scope_type, scope_identifier) ->
  dict_get NOTIFICATION_SCOPE_TYPE scope_type = Some scope_name ->
  exists s',
    remove_settings provider type None (user_id_of a) (team_id_of a)
      project organization s = (inr tt, s')
    /\ settings s'
       = List.filter
           (fun r => negb (matches (recipient_query provider type scope_type
                                      scope_identifier a) r))
           (settings s)
    /\ providers s' = providers s
    /\ analytics s' = analytics s
    /\ next_pk s' = next_pk s.
Proof.
  intros Hnz Hscope Hname. unfold remove_settings.
  unfold db_bind at 1. unfold db_lift at 1. rewrite Hscope.
  unfold db_bind at 1. unfold db_lift at 1, subscript. rewrite Hname.
  unfold db_bind at 1. unfold option_delete at 1, db_write at 1.
  unfold db_bind at 1. unfold db_lift at 1.
  rewrite (find_settings_single provider type a project organization
             scope_type scope_identifier Hnz Hscope).
  eexists. split; [reflexivity|]. now repeat split.
Qed.

(** The double write and the rebuild that end [update_settings] do not
    touch the setting records. *)
Lemma update_settings_tail_keeps type value scope_type scope_identifier
      user_id team_id (skip : bool) :
  keeps settings
    (type_name <~
       db_lift (subscript "NOTIFICATION_SETTING_TYPES"
                  NOTIFICATION_SETTING_TYPES type) ;;
     scope_name <~
       db_lift (subscript "NOTIFICATION_SCOPE_TYPE"
                  NOTIFICATION_SCOPE_TYPE scope_type) ;;
     (if bool_decide (value = NotificationSettingOptionValues.DEFAULT)
      then option_delete type_name scope_name scope_identifier user_id team_id
      else
        value_name <~
          db_lift (subscript "NOTIFICATION_SETTING_OPTION_VALUES"
                     NOTIFICATION_SETTING_OPTION_VALUES value) ;;
        option_create_or_update type_name scope_name scope_identifier
          user_id team_id value_name) ;;;
     if skip then db_ret tt
     else update_provider_settings user_id team_id)%db.
Proof.
  apply keeps_bind; [apply keeps_lift|]. intros type_name.
  apply keeps_bind; [apply keeps_lift|]. intros scope_name.
  apply keeps_bind.
  - case_match.
    + now apply keeps_write.
    + apply keeps_bind; [apply keeps_lift|]. intros value_name.
      apply keeps_write. intros s.
      cbv zeta. destruct (existsb _ (options s)); reflexivity.
  - intros _. destruct skip; [apply keeps_ret|].
    intros s. apply update_provider_settings_settings.
Qed.

(** The setting records after [update_settings] with DEFAULT for one
    recipient. *)
Lemma update_settings_default_settings provider type a project organization
      skip scope_type scope_identifier scope_name s :
  RpcActor.id a <> 0 ->
  get_scope (team_id_of a) (user_id_of a) project organization
  = inr (scope_type, scope_identifier) ->
  dict_get NOTIFICATION_SCOPE_TYPE scope_type = Some scope_name ->
  settings
    (snd (update_settings provider type NotificationSettingOptionValues.DEFAULT
            None (user_id_of a) (team_id_of a) project organization None skip s))
  = List.filter
      (fun r => negb (matches (recipient_query provider type scope_type
                                 scope_identifier a) r))
      (settings s).
Proof.
  intros Hnz Hscope Hname. unfold update_settings.
  set (s1 := snd (record_event
                    {| event := "notifications.settings_updated";
                       target_type :=
                         if bool_decide (RpcActor.actor_type a = ActorType.USER)
                         then "user" else "team";
                       event_actor_id := None;
                       event_id := RpcActor.id a |} s)).
  destruct (remove_settings_single provider type a project organization
              scope_type scope_identifier scope_name s1 Hnz Hscope Hname)
    as (s2 & Hrun & Hset & _).
  destruct a as [[] i]; unfold user_id_of, team_id_of in *;
    cbn [RpcActor.actor_type RpcActor.id] in *.
  all: unfold db_bind at 1; unfold record_event at 1, db_write at 1.
  all: unfold db_bind at 1; unfold db_lift at 1; rewrite Hscope.
  all: rewrite keeps_after by (intros; apply update_settings_tail_keeps).
  all: rewrite bool_decide_eq_true_2 by reflexivity.
  all: subst s1; unfold record_event, db_write in Hrun, Hset;
    cbn [snd settings] in Hrun, Hset.
  all: rewrite Hrun; cbn [snd]; exact Hset.
Qed.

(** C2. For a recipient with an id other than zero, [update_settings]
    with the value DEFAULT deletes the records stored under the key: none
    is left in the table, no DEFAULT row is written in their place, no
    record is added, and [get_settings] for the same provider, type,
    recipient and scope then returns DEFAULT. *)
Theorem reset_to_default (provider : ExternalProviders.t)
        (type : NotificationSettingTypes.t) (a : RpcActor.t)
        (project organization : option Z) (skip : bool)
        (scope_type : NotificationScopeType.t) (scope_identifier : Z)
        (scope_name : string) (s : Store) :
  RpcActor.id a <> 0 ->
  get_scope (team_id_of a) (user_id_of a) project organization
  = inr (scope_type, scope_identifier) ->
  dict_get NOTIFICATION_SCOPE_TYPE scope_type = Some scope_name ->
  let s' :=
    snd (update_settings provider type NotificationSettingOptionValues.DEFAULT
           None (user_id_of a) (team_id_of a) project organization None skip s) in
  (forall r, In r (settings s) ->
     key_record provider type scope_type scope_identifier a r = true ->
     ~ In r (settings s'))
  /\ (forall r, In r (settings s') ->
        key_record provider type scope_type scope_identifier a r = false)
  /\ (forall r, In r (settings s') -> In r (settings s))
  /\ get_settings provider type (user_id_of a) (team_id_of a)
       project organization s'
     = (inr NotificationSettingOptionValues.DEFAULT, s').
Proof.
  intros Hnz Hscope Hname s'.
  pose proof (update_settings_default_settings provider type a project
                organization skip scope_type scope_identifier scope_name s
                Hnz Hscope Hname) as Hset.
  fold s' in Hset.
  assert (Hgone : forall r, In r (settings s') ->
            matches (recipient_query provider type scope_type
                       scope_identifier a) r = false).
  { intros r Hin. rewrite Hset in Hin. apply List.filter_In in Hin as [_ H].
    now apply negb_true_iff in H. }
  split; [|split; [|split]].
  - intros r _ Hkey Hin. apply recipient_query_covers in Hkey.
    rewrite (Hgone r Hin) in Hkey. discriminate.
  - intros r Hin.
    destruct (key_record provider type scope_type scope_identifier a r) eqn:Hkey;
      [|reflexivity].
    apply recipient_query_covers in Hkey. rewrite (Hgone r Hin) in Hkey.
    discriminate.
  - intros r Hin. rewrite Hset in Hin. now apply List.filter_In in Hin as [H _].
  - unfold get_settings.
    rewrite (find_settings_single provider type a project organization
               scope_type scope_identifier Hnz Hscope).
    unfold db_bind, db_lift, qs_list, db_read.
    rewrite Hset, filter_out_then_in. reflexivity.
Qed.

(** *** Writing the same value twice *)

Lemma keeps_proj {X Y A} (f : Store -> X) (g : X -> Y) (m : Db A) :
  keeps f m -> keeps (fun s => g (f s)) m.
Proof. intros H s. now rewrite H. Qed.

Lemma filter_map_same {A} (p : A -> bool) (f : A -> A) (l : list A) :
  (forall x, p (f x) = p x) ->
  List.filter p (map f l) = map f (List.filter p l).
Proof.
  intros H. induction l as [|x l IH]; simpl; [reflexivity|].
  rewrite H. destruct (p x); simpl; now rewrite IH.
Qed.

Lemma same_key_with_value provider type scope_type scope_identifier
      user_id team_id v r :
  same_key provider type scope_type scope_identifier user_id team_id
           (NotificationSetting.with_value v r)
  = same_key provider type scope_type scope_identifier user_id team_id r.
Proof. reflexivity. Qed.

Lemma same_key_new pk provider type scope_type scope_identifier user_id team_id v :
  same_key provider type scope_type scope_identifier user_id team_id
    (NotificationSetting.Build pk provider type scope_type scope_identifier
       user_id team_id v) = true.
Proof.
  unfold same_key. cbn. rewrite !Z.eqb_refl.
  now rewrite !bool_decide_eq_true_2.
Qed.

(** The upsert: on a table with at most one record for the six key
    columns it returns, and then there is exactly one record for them,
    with the value; the events are as before. *)
Lemma _update_settings_once provider type value scope_type scope_identifier
      user_id team_id s :
  (length (List.filter
             (same_key (ExternalProviders.value provider)
                (NotificationSettingTypes.value type) scope_type
                scope_identifier user_id team_id) (settings s)) <= 1)%nat ->
  exists s' r,
    _update_settings provider type value scope_type scope_identifier
      user_id team_id s = (inr tt, s')
    /\ List.filter
         (same_key (ExternalProviders.value provider)
            (NotificationSettingTypes.value type) scope_type
            scope_identifier user_id team_id) (settings s') = [r]
    /\ NotificationSetting.value r = value
    /\ analytics s' = analytics s.
Proof.
  intros Hone. unfold _update_settings, db_bind, get_or_create.
  set (key := same_key _ _ scope_type scope_identifier user_id team_id) in *.
  destruct (List.filter key (settings s)) as [|r [|r' rest]] eqn:Hrows.
  - eexists _, _. split; [reflexivity|]. cbn [settings].
    rewrite List.filter_app, Hrows. cbn [List.filter app].
    subst key. rewrite same_key_new. now repeat split.
  - cbn [negb andb].
    destruct (bool_decide (NotificationSetting.value r = value)) eqn:Hv.
    + apply bool_decide_eq_true in Hv. exists s, r. now repeat split.
    + cbn [negb]. unfold update_value, db_write. eexists _, _.
      split; [reflexivity|]. cbn [settings set_settings].
      rewrite filter_map_same.
      * rewrite Hrows. cbn [map]. rewrite Z.eqb_refl. now repeat split.
      * intros x. subst key. now destruct (_ =? _).
  - simpl in Hone. lia.
Qed.

(** On a table where the one record of the key has the value already,
    the upsert changes nothing at all. *)
Lemma _update_settings_again provider type value scope_type scope_identifier
      user_id team_id s r :
  List.filter
    (same_key (ExternalProviders.value provider)
       (NotificationSettingTypes.value type) scope_type
       scope_identifier user_id team_id) (settings s) = [r] ->
  NotificationSetting.value r = value ->
  _update_settings provider type value scope_type scope_identifier
    user_id team_id s = (inr tt, s).
Proof.
  intros Hrows Hv. unfold _update_settings, db_bind, get_or_create.
  rewrite Hrows. cbn [negb andb]. now rewrite (bool_decide_eq_true_2 _ Hv).
Qed.

(** The event [update_settings] records for a recipient. *)
Definition updated_event (a : RpcActor.t) : AnalyticsEvent :=
  {| event := "notifications.settings_updated";
     target_type := if bool_decide (RpcActor.actor_type a = ActorType.USER)
                    then "user" else "team";
     event_actor_id := None;
     event_id := RpcActor.id a |}.

Lemma update_settings_tail_keeps_events type value scope_type scope_identifier
      user_id team_id (skip : bool) :
  keeps (fun s => (settings s, analytics s))
    (type_name <~
       db_lift (subscript "NOTIFICATION_SETTING_TYPES"
                  NOTIFICATION_SETTING_TYPES type) ;;
     scope_name <~
       db_lift (subscript "NOTIFICATION_SCOPE_TYPE"
                  NOTIFICATION_SCOPE_TYPE scope_type) ;;
     (if bool_decide (value = NotificationSettingOptionValues.DEFAULT)
      then option_delete type_name scope_name scope_identifier user_id team_id
      else
        value_name <~
          db_lift (subscript "NOTIFICATION_SETTING_OPTION_VALUES"
                     NOTIFICATION_SETTING_OPTION_VALUES value) ;;
        option_create_or_update type_name scope_name scope_identifier
          user_id team_id value_name) ;;;
     if skip then db_ret tt
     else update_provider_settings user_id team_id)%db.
Proof.
  apply keeps_bind; [apply keeps_lift|]. intros type_name.
  apply keeps_bind; [apply keeps_lift|]. intros scope_name.
  apply keeps_bind.
  - case_match.
    + now apply keeps_write.
    + apply keeps_bind; [apply keeps_lift|]. intros value_name.
      apply keeps_write. intros s.
      cbv zeta. destruct (existsb _ (options s)); reflexivity.
  - intros _. destruct skip; [apply keeps_ret|].
    apply (keeps_proj apart_from_providers
             (fun '(st, _, _, ev) => (st, ev))).
    apply update_provider_settings_keeps.
Qed.

(** One call of [update_settings] for a recipient, with a value that is
    not DEFAULT and is valid: the event is recorded, then the upsert
    runs, and what follows changes neither the records nor the events. *)
Lemma update_settings_write provider type value a project organization skip
      scope_type scope_identifier s :
  value <> NotificationSettingOptionValues.DEFAULT ->
  validate type value = true ->
  get_scope (team_id_of a) (user_id_of a) project organization
  = inr (scope_type, scope_identifier) ->
  let s0 :=
    {| settings := settings s; next_pk := next_pk s; options := options s;
       providers := providers s;
       analytics := analytics s ++ [updated_event a] |} in
  let s1 :=
    snd (_update_settings provider type value scope_type scope_identifier
           (user_id_of a) (team_id_of a) s0) in
  let s' :=
    snd (update_settings provider type value None (user_id_of a) (team_id_of a)
           project organization None skip s) in
  settings s' = settings s1 /\ analytics s' = analytics s1.
Proof.
  intros Hnd Hval Hscope s0 s1 s'.
  assert (H : (settings s', analytics s') = (settings s1, analytics s1));
    [|now inversion H].
  subst s' s1 s0. unfold update_settings, updated_event.
  destruct a as [[] i]; unfold user_id_of, team_id_of in *;
    cbn [RpcActor.actor_type RpcActor.id] in *.
  all: unfold db_bind at 1; unfold record_event at 1, db_write at 1.
  all: unfold db_bind at 1; unfold db_lift at 1; rewrite Hscope.
  all: lazymatch goal with
       | |- (settings (snd (db_bind ?m ?k ?s0)), _) = _ =>
           let H := fresh in
           assert (H : forall x, keeps (fun s => (settings s, analytics s)) (k x))
             by (intros; apply update_settings_tail_keeps_events);
           transitivity (settings (snd (m s0)), analytics (snd (m s0)));
           [exact (keeps_after (fun s => (settings s, analytics s)) m k s0 H)|]
       end.
  all: rewrite (bool_decide_eq_false_2 _ Hnd), Hval; cbn [negb].
  all: reflexivity.
Qed.

(** C4, as amended.  Writing the same valid value twice for a recipient,
    on a table with at most one record for the key: after the second call
    exactly one record is stored under the key, with that value, and the
    second call leaves the setting records as the first left them (no
    overwrite).  The upsert [_update_settings] itself records no event and
    its second run changes nothing in the store; [update_settings] records
    the "notifications.settings_updated" event on every call, the second
    one included. *)
Theorem update_settings_twice (provider : ExternalProviders.t)
        (type : NotificationSettingTypes.t)
        (value : NotificationSettingOptionValues.t) (a : RpcActor.t)
        (project organization : option Z) (skip : bool)
        (scope_type : NotificationScopeType.t) (scope_identifier : Z)
        (s : Store) :
  value <> NotificationSettingOptionValues.DEFAULT ->
  validate type value = true ->
  get_scope (team_id_of a) (user_id_of a) project organization
  = inr (scope_type, scope_identifier) ->
  let key :=
    same_key (ExternalProviders.value provider)
      (NotificationSettingTypes.value type) scope_type scope_identifier
      (user_id_of a) (team_id_of a) in
  (length (List.filter key (settings s)) <= 1)%nat ->
  let run :=
    update_settings provider type value None (user_id_of a) (team_id_of a)
      project organization None skip in
  let upsert :=
    _update_settings provider type value scope_type scope_identifier
      (user_id_of a) (team_id_of a) in
  let s1 := snd (run s) in
  let s2 := snd (run s1) in
  (exists r, List.filter key (settings s2) = [r]
             /\ NotificationSetting.value r = value)
  /\ settings s2 = settings s1
  /\ analytics s1 = (analytics s ++ [updated_event a])%list
  /\ analytics s2 = (analytics s1 ++ [updated_event a])%list
  /\ (exists u1, upsert s = (inr tt, u1)
                 /\ upsert u1 = (inr tt, u1)
                 /\ analytics u1 = analytics s).
Proof.
  intros Hnd Hval Hscope key Hone run upsert s1 s2.
  destruct (update_settings_write provider type value a project organization
              skip scope_type scope_identifier s Hnd Hval Hscope)
    as [Hs1 Ha1].
  fold run in Hs1, Ha1. fold s1 in Hs1, Ha1.
  match type of Hs1 with
  | _ = settings (snd (_ ?s0)) =>
      destruct (_update_settings_once provider type value scope_type
                  scope_identifier (user_id_of a) (team_id_of a) s0 Hone)
        as (w1 & r & Hw1 & Hrows & Hv & Hev)
  end.
  rewrite Hw1 in Hs1, Ha1. cbn [snd] in Hs1, Ha1.
  cbn [analytics] in Hev. rewrite Hev in Ha1.
  destruct (update_settings_write provider type value a project organization
              skip scope_type scope_identifier s1 Hnd Hval Hscope)
    as [Hs2 Ha2].
  fold run in Hs2, Ha2. fold s2 in Hs2, Ha2.
  match type of Hs2 with
  | _ = settings (snd (_ ?s0)) =>
      assert (Hagain : upsert s0 = (inr tt, s0))
        by (apply (_update_settings_again _ _ _ _ _ _ _ _ r);
            [cbn [settings]; fold key; now rewrite Hs1 | exact Hv])
  end.
  unfold upsert in Hagain. rewrite Hagain in Hs2, Ha2.
  cbn [snd settings analytics] in Hs2, Ha2.
  split; [|split; [|split; [|split]]].
  - exists r. now rewrite Hs2, Hs1.
  - exact Hs2.
  - exact Ha1.
  - exact Ha2.
  - destruct (_update_settings_once provider type value scope_type
                scope_identifier (user_id_of a) (team_id_of a) s Hone)
      as (u1 & r' & Hu1 & Hrows' & Hv' & Hev').
    exists u1. split; [exact Hu1|]. split; [|exact Hev'].
    now apply (_update_settings_again _ _ _ _ _ _ _ _ r').
Qed.

(** *** Records of a parent and a list of recipients *)

Lemma add_recipients_ids recipients user_ids team_ids :
  forall i,
    (i ∈ (fold_left add_recipient recipients (user_ids, team_ids)).1
     <-> i ∈ user_ids \/ In (RpcActor.Build ActorType.USER i) recipients)
    /\ (i ∈ (fold_left add_recipient recipients (user_ids, team_ids)).2
        <-> i ∈ team_ids \/ In (RpcActor.Build ActorType.TEAM i) recipients).
Proof.
  revert user_ids team_ids.
  induction recipients as [|[[] j] l IH]; intros user_ids team_ids i.
  - simpl. taut.
  - cbn [fold_left add_recipient RpcActor.actor_type RpcActor.id].
    rewrite (bool_decide_eq_true_2 (ActorType.USER = ActorType.USER)),
      (bool_decide_eq_false_2 (ActorType.USER = ActorType.TEAM)) by done.
    destruct (IH ({[j]} ∪ user_ids) team_ids i) as [-> ->].
    rewrite elem_of_union, elem_of_singleton. simpl.
    split; split; intros H; try taut.
    + destruct H as [[-> | H] | H]; auto.
    + destruct H as [H | [[= ->] | H]]; auto.
    + destruct H as [H | [[=] | H]]; auto.
  - cbn [fold_left add_recipient RpcActor.actor_type RpcActor.id].
    rewrite (bool_decide_eq_true_2 (ActorType.TEAM = ActorType.TEAM)),
      (bool_decide_eq_false_2 (ActorType.TEAM = ActorType.USER)) by done.
    destruct (IH user_ids ({[j]} ∪ team_ids) i) as [-> ->].
    rewrite elem_of_union, elem_of_singleton. simpl.
    split; split; intros H; try taut.
    + destruct H as [H | [[=] | H]]; auto.
    + destruct H as [[-> | H] | H]; auto.
    + destruct H as [H | [[= ->] | H]]; auto.
Qed.

Lemma add_recipients_nonempty recipients :
  recipients <> [] ->
  let ids := fold_left add_recipient recipients (∅, ∅) in
  nonempty ids.2 || nonempty ids.1 = true.
Proof.
  intros Hne ids. destruct recipients as [|[k j] l]; [congruence|].
  destruct (nonempty ids.2) eqn:Ht, (nonempty ids.1) eqn:Hu; try reflexivity.
  apply nonempty_false in Ht, Hu. exfalso.
  destruct (add_recipients_ids (RpcActor.Build k j :: l) ∅ ∅ j) as [Hu' Ht'].
  fold ids in Hu', Ht'. rewrite Hu in Hu'. rewrite Ht in Ht'.
  destruct k.
  - apply (not_elem_of_empty (C := gset Z) j). apply Hu'. right. now left.
  - apply (not_elem_of_empty (C := gset Z) j). apply Ht'. right. now left.
Qed.

(** The records the batch lookup is about, for a scope tier of the
    parent: of the alert type, owned by one of the recipients (in either
    id column), and scoped to the parent at that tier or to one of the
    recipients themselves. *)
Definition record_of_batch (tier : NotificationScopeType.t)
           (type_ : NotificationSettingTypes.t) (parent : Parent.t)
           (recipients : list RpcActor.t) (r : NotificationSetting.t) : Prop :=
  NotificationSetting.type r = NotificationSettingTypes.value type_
  /\ ((exists i, NotificationSetting.team_id r = Some i
                 /\ In (RpcActor.Build ActorType.TEAM i) recipients)
      \/ (exists i, NotificationSetting.user_id r = Some i
                    /\ In (RpcActor.Build ActorType.USER i) recipients))
  /\ ((NotificationSetting.scope_type r = tier
       /\ NotificationSetting.scope_identifier r = Parent.id parent)
      \/ (NotificationSetting.scope_type r = NotificationScopeType.USER
          /\ In (RpcActor.Build ActorType.USER
                   (NotificationSetting.scope_identifier r)) recipients)
      \/ (NotificationSetting.scope_type r = NotificationScopeType.TEAM
          /\ In (RpcActor.Build ActorType.TEAM
                   (NotificationSetting.scope_identifier r)) recipients)).

(** The scope tier that goes with the kind of the parent. *)
Definition natural_tier (parent : Parent.t) : NotificationScopeType.t :=
  match parent with
  | Parent.Project _ _ => NotificationScopeType.PROJECT
  | Parent.Organization _ => NotificationScopeType.ORGANIZATION
  end.

Lemma in_ids_spec c (vs : gset Z) :
  in_ids c vs = true <-> exists i, c = Some i /\ i ∈ vs.
Proof.
  destruct c as [j|]; simpl.
  - rewrite bool_decide_eq_true. split; [eauto | now intros (i & [= ->] & H)].
  - split; [discriminate | now intros (i & [=] & _)].
Qed.

(** C9, as amended.  With an empty list of recipients
    [get_for_recipient_by_parent] returns the empty query set, which
    selects no row of any store, before anything else is looked at.
    Otherwise the tier of the parent's scope is the one [get_scope_type]
    gives for the alert type, whatever the kind of the parent, and the
    rows are exactly the stored records of that alert type that are owned
    by one of the recipients (the team column or the user column) and
    scoped to (that tier, the parent's id), to USER scope with the id of a
    given user, or to TEAM scope with the id of a given team. *)
Theorem get_for_recipient_by_parent_rows (type_ : NotificationSettingTypes.t)
        (parent : Parent.t) (recipients : list RpcActor.t)
        (tier : NotificationScopeType.t) (s : Store) :
  get_scope_type type_ = inr tier ->
  get_for_recipient_by_parent type_ parent [] = inr Q_none
  /\ (forall s0, qs_list Q_none s0 = (inr [], s0))
  /\ exists q,
      get_for_recipient_by_parent type_ parent recipients = inr q
      /\ forall r,
          In r (List.filter (matches q) (settings s))
          <-> In r (settings s)
              /\ record_of_batch tier type_ parent recipients r.
Proof.
  intros Htier. split; [|split].
  - unfold get_for_recipient_by_parent. cbn [fold_left].
    now rewrite nonempty_empty.
  - intros s0. unfold qs_list, db_read. f_equal. f_equal.
    induction (settings s0); simpl; auto.
  - destruct recipients as [|a0 l] eqn:Hrec.
    + exists Q_none. split.
      * unfold get_for_recipient_by_parent. cbn [fold_left].
        now rewrite nonempty_empty.
      * intros r. split.
        -- intros Hin. apply List.filter_In in Hin as [_ Hm]. discriminate.
        -- intros (_ & _ & [(i & _ & []) | (i & _ & [])] & _).
    + rewrite <- Hrec.
      assert (Hne : recipients <> []) by (subst; discriminate).
      clear Hrec a0 l.
      pose proof (add_recipients_nonempty recipients Hne) as Hids.
      pose proof (add_recipients_ids recipients ∅ ∅) as Hmem.
      unfold get_for_recipient_by_parent.
      destruct (fold_left add_recipient recipients (∅, ∅))
        as [user_ids team_ids].
      cbn [fst snd] in Hids, Hmem. rewrite Hids, Htier. cbn [negb].
      eexists. split; [reflexivity|].
      intros r. rewrite List.filter_In. apply and_iff_compat_l.
      cbn [matches]. unfold record_of_batch.
      rewrite !andb_true_iff, !orb_true_iff, !andb_true_iff.
      rewrite !bool_decide_eq_true, !Z.eqb_eq, !in_ids_spec.
      split.
      * intros [[Hscope Hown] Hty]. split; [exact Hty|]. split.
        -- destruct Hown as [(i & Hc & Hi) | (i & Hc & Hi)]; [left | right];
             exists i; (split; [exact Hc|]).
           ++ apply (Hmem i) in Hi as [Hi | Hi];
                [now apply not_elem_of_empty in Hi | exact Hi].
           ++ apply (Hmem i) in Hi as [Hi | Hi];
                [now apply not_elem_of_empty in Hi | exact Hi].
        -- destruct Hscope as [[[Hst Hid] | [Hst Hid]] | [Hst Hid]].
           ++ left. now split.
           ++ right. left. split; [exact Hst|].
              apply (Hmem _) in Hid as [Hid | Hid];
                [now apply not_elem_of_empty in Hid | exact Hid].
           ++ right. right. split; [exact Hst|].
              apply (Hmem _) in Hid as [Hid | Hid];
                [now apply not_elem_of_empty in Hid | exact Hid].
      * intros (Hty & Hown & Hscope). split; [split|exact Hty].
        -- destruct Hscope as [[Hst Hid] | [[Hst Hid] | [Hst Hid]]].
           ++ left. left. now split.
           ++ left. right. split; [exact Hst|]. apply (Hmem _). now right.
           ++ right. split; [exact Hst|]. apply (Hmem _). now right.
        -- destruct Hown as [(i & Hc & Hi) | (i & Hc & Hi)]; [left | right];
             exists i; (split; [exact Hc|]); apply (Hmem i); now right.
Qed.

(** *** Batch resolution: the parent's scope comes first *)

(** The records of a recipient for a provider and an alert type name at
    the scope of the parent. *)
Definition parent_record (parent : Parent.t) (name : string)
           (provider : ExternalProviders.t) (a : RpcActor.t)
           (r : NotificationSetting.t) : bool :=
  of_type name r
  && owned_by a r
  && (NotificationSetting.provider r =? ExternalProviders.value provider)
  && bool_decide (NotificationSetting.scope_type r = natural_tier parent)
  && (NotificationSetting.scope_identifier r =? Parent.id parent).

(** The controller [filter_to_accepting_recipients] builds. *)
Definition controller_of (parent : Parent.t) (recipients : list RpcActor.t)
           (name : string) : NotificationController :=
  match parent with
  | Parent.Project id organization_id =>
      {| nc_recipients := recipients; nc_project_ids := Some [id];
         nc_organization_id := organization_id; nc_type := name |}
  | Parent.Organization id =>
      {| nc_recipients := recipients; nc_project_ids := None;
         nc_organization_id := id; nc_type := name |}
  end.

Lemma filter_filter_andb {A} (p q : A -> bool) (l : list A) :
  List.filter p (List.filter q l) = List.filter (fun x => q x && p x) l.
Proof.
  induction l as [|x l IH]; simpl; [reflexivity|].
  destruct (q x); simpl; [destruct (p x)|]; now rewrite IH.
Qed.

Lemma parent_scope_controller parent recipients name r :
  parent_scope (controller_of parent recipients name) r
  = bool_decide (NotificationSetting.scope_type r = natural_tier parent)
    && (NotificationSetting.scope_identifier r =? Parent.id parent).
Proof.
  destruct parent as [i o|i]; unfold parent_scope; cbn; [|reflexivity].
  f_equal. apply eq_true_iff_eq.
  rewrite bool_decide_eq_true, Z.eqb_eq, list_elem_of_singleton. taut.
Qed.

Lemma parent_rows_of_controller parent recipients name provider a rows :
  List.filter (parent_scope (controller_of parent recipients name))
    (List.filter
       (fun r => owned_by a r
                 && (NotificationSetting.provider r
                     =? ExternalProviders.value provider))
       (List.filter (of_type name) rows))
  = List.filter (parent_record parent name provider a) rows.
Proof.
  rewrite !filter_filter_andb. apply filter_ext_eq. intros r.
  rewrite parent_scope_controller. unfold parent_record.
  now rewrite !andb_assoc.
Qed.

(** C5.  In the batch resolution a record at the parent's scope decides
    for its recipient and provider, whatever the recipient's own record
    says: when records of the recipient exist at the scope of the parent
    and carry the value [v], the recipient is listed under the provider
    exactly when [v], with DEFAULT resolved by the default policy, is not
    NEVER.  So with NEVER at the project and ALWAYS as the recipient's
    global value the recipient is not listed under the provider. *)
Theorem parent_scope_wins (parent : Parent.t) (recipients : list RpcActor.t)
        (type : option NotificationSettingTypes.t) (name : string)
        (provider : ExternalProviders.t) (a : RpcActor.t)
        (v : NotificationSettingOptionValues.t) (s : Store) :
  match type with
  | Some t => dict_get NOTIFICATION_SETTING_TYPES t = Some name
  | None => name = ISSUE_ALERTS
  end ->
  In a recipients ->
  List.filter (parent_record parent name provider a) (settings s) <> [] ->
  (forall r, In r (List.filter (parent_record parent name provider a)
                     (settings s)) ->
             NotificationSetting.value r = v) ->
  exists groups,
    filter_to_accepting_recipients parent recipients type s = (inr groups, s)
    /\ (forall rs, In (provider, rs) groups ->
          (In a rs <-> resolve_default name provider v
                       <> NotificationSettingOptionValues.NEVER))
    /\ (v = NotificationSettingOptionValues.NEVER ->
        forall rs, In (provider, rs) groups -> ~ In a rs)
    /\ (In provider (keys EXTERNAL_PROVIDERS) ->
        exists rs, In (provider, rs) groups).
Proof.
  intros Hname Hin Hsome Hall.
  assert (Hrun : filter_to_accepting_recipients parent recipients type s
                 = get_notification_recipients
                     (controller_of parent recipients name) name s).
  { unfold filter_to_accepting_recipients, controller_of.
    destruct parent as [i o|i], type as [t|];
      unfold db_bind, db_lift, db_ret, subscript;
      rewrite ?Hname; subst; reflexivity. }
  rewrite Hrun. unfold get_notification_recipients, db_read.
  eexists. split; [reflexivity|].
  assert (Hgroup : forall rs,
            In (provider, rs)
               (map (fun provider0 =>
                       (provider0,
                        List.filter
                          (fun a0 =>
                             negb (bool_decide
                                     (resolve_default name provider0
                                        (effective_value
                                           (controller_of parent recipients name)
                                           (List.filter (of_type name) (settings s))
                                           provider0 a0)
                                      = NotificationSettingOptionValues.NEVER)))
                          (nc_recipients (controller_of parent recipients name))))
                    (keys EXTERNAL_PROVIDERS)) ->
            (In a rs <-> resolve_default name provider v
                         <> NotificationSettingOptionValues.NEVER)).
  { intros rs Hrs. apply in_map_iff in Hrs as (p0 & [= -> <-] & _).
    rewrite List.filter_In.
    assert (Hrec : nc_recipients (controller_of parent recipients name)
                   = recipients) by now destruct parent.
    rewrite Hrec.
    assert (Hv : effective_value (controller_of parent recipients name)
                   (List.filter (of_type name) (settings s)) provider a = v).
    { unfold effective_value. rewrite parent_rows_of_controller.
      destruct (List.filter (parent_record parent name provider a) (settings s))
        as [|r rest]; [congruence|].
      apply Hall. now left. }
    rewrite Hv, negb_true_iff, bool_decide_eq_false. taut. }
  split; [exact Hgroup|]. split.
  - intros -> rs Hrs Ha. apply (Hgroup rs Hrs) in Ha. apply Ha.
    unfold resolve_default. now rewrite bool_decide_eq_false_2.
  - intros Hcat. eexists. apply in_map_iff. exists provider.
    split; [reflexivity | exact Hcat].
Qed.

(** *** The projection table under an upsert and a bulk delete *)

(** The rows with a key hold the value [v], and there is one. *)
Definition settled (v : NotificationSettingsOptionEnum.t)
           (rows : list NotificationSettingProvider.t) : Prop :=
  rows <> [] /\ forall row, In row rows -> NotificationSettingProvider.value row = v.

Lemma args_match_with_value b name v row :
  args_match b name (NotificationSettingProvider.with_value v row)
  = args_match b name row.
Proof. reflexivity. Qed.

Lemma args_match_new b name v :
  args_match b name
    (NotificationSettingProvider.Build (bq_provider b) name (bq_scope_type b)
       (bq_scope_identifier b) (bq_user_id b) (bq_team_id b) v) = true.
Proof.
  unfold args_match, base_match. cbn.
  now rewrite !bool_decide_eq_true_2, Z.eqb_refl.
Qed.

(** Two keys that differ in the provider or in the type name have no row
    in common. *)
Lemma args_match_apart b name b' name' row :
  bq_provider b' <> bq_provider b \/ name' <> name ->
  args_match b name row = true -> args_match b' name' row = false.
Proof.
  intros Hne H. unfold args_match, base_match in *.
  repeat (apply andb_true_iff in H as [H ?]).
  apply bool_decide_eq_true in H.
  match goal with Hty : bool_decide (_ = name) = true |- _ =>
    apply bool_decide_eq_true in Hty; rename Hty into Hname end.
  destruct Hne as [Hp | Hn].
  - rewrite (bool_decide_eq_false_2 (_ = bq_provider b')); [reflexivity|].
    congruence.
  - rewrite (bool_decide_eq_false_2 (_ = name')); [apply andb_false_r|].
    congruence.
Qed.

Lemma upsert_settles b name v s :
  settled v (List.filter (args_match b name)
               (providers (snd (provider_create_or_update b name v s)))).
Proof.
  unfold provider_create_or_update, db_write. cbn [snd].
  destruct (existsb (args_match b name) (providers s)) eqn:Hex;
    cbn [providers set_providers].
  - apply existsb_exists in Hex as (row & Hin & Hrow). split.
    + intros Hnil.
      assert (Hin' : In (NotificationSettingProvider.with_value v row)
                        (List.filter (args_match b name)
                           (map (fun r => if args_match b name r
                                          then NotificationSettingProvider.with_value v r
                                          else r) (providers s)))).
      { apply List.filter_In. split.
        - apply in_map_iff. exists row. now rewrite Hrow.
        - now rewrite args_match_with_value. }
      now rewrite Hnil in Hin'.
    + intros row' Hin'. apply List.filter_In in Hin' as [Hin' Hm].
      apply in_map_iff in Hin' as (r0 & Heq & _).
      destruct (args_match b name r0) eqn:H0; subst row'; [reflexivity|].
      congruence.
  - rewrite List.filter_app. cbn [List.filter]. rewrite args_match_new.
    assert (Hnone : List.filter (args_match b name) (providers s) = []).
    { destruct (List.filter (args_match b name) (providers s)) as [|r0 l] eqn:Hf;
        [reflexivity|].
      assert (Hr0 : In r0 (List.filter (args_match b name) (providers s)))
        by (rewrite Hf; now left).
      apply List.filter_In in Hr0 as [Hr0 Hm].
      assert (existsb (args_match b name) (providers s) = true)
        by (apply existsb_exists; eauto).
      congruence. }
    rewrite Hnone. split; [discriminate|].
    intros row' [<- | []]. reflexivity.
Qed.

Lemma upsert_elsewhere b name v b' name' s :
  bq_provider b' <> bq_provider b \/ name' <> name ->
  List.filter (args_match b' name')
    (providers (snd (provider_create_or_update b name v s)))
  = List.filter (args_match b' name') (providers s).
Proof.
  intros Hne. unfold provider_create_or_update, db_write. cbn [snd].
  destruct (existsb (args_match b name) (providers s));
    cbn [providers set_providers].
  - induction (providers s) as [|r l IH]; [reflexivity|]. cbn [map List.filter].
    destruct (args_match b name r) eqn:Hr.
    + rewrite args_match_with_value.
      rewrite (args_match_apart b name b' name' r Hne Hr). exact IH.
    + destruct (args_match b' name' r); now rewrite IH.
  - rewrite List.filter_app. cbn [List.filter].
    rewrite (args_match_apart b name b' name' _ Hne (args_match_new b name v)).
    apply app_nil_r.
Qed.

Lemma delete_clears b names name s :
  In name names ->
  List.filter (args_match b name) (providers (snd (provider_delete b names s)))
  = [].
Proof.
  intros Hin. unfold provider_delete, db_write. cbn [snd providers set_providers].
  rewrite filter_filter_andb.
  induction (providers s) as [|r l IH]; [reflexivity|]. cbn [List.filter].
  destruct (negb _ && args_match b name r) eqn:H; [|exact IH].
  exfalso. apply andb_true_iff in H as [H1 H2]. apply negb_true_iff in H1.
  unfold args_match in H2. apply andb_true_iff in H2 as [Hb Hn].
  apply bool_decide_eq_true in Hn. rewrite Hb in H1.
  rewrite bool_decide_eq_true_2 in H1; [discriminate|].
  rewrite Hn. now apply list_elem_of_In.
Qed.

Lemma delete_elsewhere b names b' name' s :
  bq_provider b' <> bq_provider b \/ ~ In name' names ->
  List.filter (args_match b' name') (providers (snd (provider_delete b names s)))
  = List.filter (args_match b' name') (providers s).
Proof.
  intros Hne. unfold provider_delete, db_write. cbn [snd providers set_providers].
  rewrite filter_filter_andb. apply filter_ext_eq. intros r.
  destruct (args_match b' name' r) eqn:Hm; [|apply andb_false_r].
  rewrite andb_true_r. apply negb_true_iff.
  unfold args_match, base_match in Hm.
  repeat (apply andb_true_iff in Hm as [Hm ?]).
  apply bool_decide_eq_true in Hm.
  match goal with Hty : bool_decide (_ = name') = true |- _ =>
    apply bool_decide_eq_true in Hty; rename Hty into Hname end.
  destruct Hne as [Hp | Hn].
  - unfold base_match.
    rewrite (bool_decide_eq_false_2 (_ = bq_provider b)); [reflexivity|].
    congruence.
  - rewrite (bool_decide_eq_false_2 (_ ∈ names)); [apply andb_false_r|].
    rewrite Hname. now rewrite list_elem_of_In.
Qed.

(** *** One round of the rebuild: a provider, all alert types *)

(** What the classification says of an alert type for the provider of
    the base query: enabled comes before disabled. *)
Definition status (b : base_query) (enabled disabled : gmap Z (gset string))
           (t : NotificationSettingTypes.t)
  : option NotificationSettingsOptionEnum.t :=
  if bool_decide (bq_provider b ∈ dd_get enabled (NotificationSettingTypes.value t))
  then Some NotificationSettingsOptionEnum.ALWAYS
  else if bool_decide (bq_provider b
                       ∈ dd_get disabled (NotificationSettingTypes.value t))
       then Some NotificationSettingsOptionEnum.NEVER
       else None.

Definition unset (b : base_query) (enabled disabled : gmap Z (gset string))
           (t : NotificationSettingTypes.t) : bool :=
  match status b enabled disabled t with Some _ => false | None => true end.

Lemma project_types_cons b enabled disabled t name types acc s :
  dict_get NOTIFICATION_SETTING_TYPES t = Some name ->
  project_types b enabled disabled (t :: types) acc s
  = match status b enabled disabled t with
    | Some v =>
        project_types b enabled disabled types acc
          (snd (provider_create_or_update b name v s))
    | None => project_types b enabled disabled types (acc ++ [t]) s
    end.
Proof.
  intros Hname. cbn [project_types]. unfold db_bind at 1.
  unfold db_lift at 1, subscript. rewrite Hname. unfold status.
  destruct (bool_decide (bq_provider b ∈ dd_get enabled _)); [reflexivity|].
  destruct (bool_decide (bq_provider b ∈ dd_get disabled _)); reflexivity.
Qed.

Lemma project_types_spec b enabled disabled types :
  (forall t, In t types -> is_Some (dict_get NOTIFICATION_SETTING_TYPES t)) ->
  (forall t1 t2, In t1 types -> In t2 types ->
     dict_get NOTIFICATION_SETTING_TYPES t1 = dict_get NOTIFICATION_SETTING_TYPES t2 ->
     t1 = t2) ->
  forall acc s, exists s',
    project_types b enabled disabled types acc s
    = (inr (acc ++ List.filter (unset b enabled disabled) types)%list, s')
    /\ (forall t name v,
          In t types ->
          dict_get NOTIFICATION_SETTING_TYPES t = Some name ->
          status b enabled disabled t = Some v ->
          settled v (List.filter (args_match b name) (providers s')))
    /\ (forall b' name',
          bq_provider b' <> bq_provider b
          \/ (forall t, In t types -> status b enabled disabled t <> None ->
                dict_get NOTIFICATION_SETTING_TYPES t <> Some name') ->
          List.filter (args_match b' name') (providers s')
          = List.filter (args_match b' name') (providers s)).
Proof.
  induction types as [|t rest IH]; intros Hnamed Hinj acc s.
  - exists s. cbn [project_types List.filter]. rewrite app_nil_r.
    split; [reflexivity|]. split; [intros ? ? ? [] | reflexivity].
  - destruct (Hnamed t (or_introl eq_refl)) as [name Hname].
    assert (Hnamed' : forall t0, In t0 rest ->
              is_Some (dict_get NOTIFICATION_SETTING_TYPES t0))
      by (intros; apply Hnamed; now right).
    assert (Hinj' : forall t1 t2, In t1 rest -> In t2 rest ->
              dict_get NOTIFICATION_SETTING_TYPES t1
              = dict_get NOTIFICATION_SETTING_TYPES t2 -> t1 = t2)
      by (intros; apply Hinj; auto; now right).
    rewrite (project_types_cons b enabled disabled t name rest acc s Hname).
    cbn [List.filter]. unfold unset at 1.
    destruct (status b enabled disabled t) as [v|] eqn:Hst.
    + destruct (IH Hnamed' Hinj' acc
                  (snd (provider_create_or_update b name v s)))
        as (s' & Hrun & Hset & Hframe).
      exists s'. split; [exact Hrun|]. split.
      * intros t0 name0 v0 [<- | Hin0] Hname0 Hst0; [|now apply (Hset t0)].
        destruct (in_dec NotificationSettingTypes.eq_dec t rest) as [Hin | Hout];
          [now apply (Hset t)|].
        assert (name0 = name) by congruence. subst name0.
        assert (v0 = v) by congruence. subst v0.
        rewrite Hframe; [apply upsert_settles|].
        right. intros t2 Hin2 _ Hname2. apply Hout.
        rewrite (Hinj t t2); auto; [now left | now right | congruence].
      * intros b' name' Hd. rewrite Hframe.
        -- apply upsert_elsewhere.
           destruct Hd as [Hp | Hn]; [now left | right].
           intros ->. apply (Hn t); [now left | congruence | exact Hname].
        -- destruct Hd as [Hp | Hn]; [now left | right].
           intros t2 Hin2. apply Hn. now right.
    + destruct (IH Hnamed' Hinj' (acc ++ [t])%list s)
        as (s' & Hrun & Hset & Hframe).
      exists s'. split; [|split].
      * rewrite Hrun. now rewrite <- app_assoc.
      * intros t0 name0 v0 [<- | Hin0] Hname0 Hst0; [congruence|].
        now apply (Hset t0).
      * intros b' name' Hd. apply Hframe.
        destruct Hd as [Hp | Hn]; [now left | right].
        intros t2 Hin2. apply Hn. now right.
Qed.

Lemma type_names_spec types :
  (forall t, In t types -> is_Some (dict_get NOTIFICATION_SETTING_TYPES t)) ->
  exists names,
    type_names types = inr names
    /\ forall name, In name names
                    <-> exists t, In t types
                                  /\ dict_get NOTIFICATION_SETTING_TYPES t = Some name.
Proof.
  induction types as [|t rest IH]; intros Hnamed.
  - exists []. split; [reflexivity|]. intros name. split; [intros [] |].
    now intros (t & [] & _).
  - destruct (Hnamed t (or_introl eq_refl)) as [name Hname].
    destruct IH as (names & Hrun & Hmem);
      [intros; apply Hnamed; now right|].
    exists (name :: names). split.
    + cbn [type_names]. unfold subscript. now rewrite Hname, Hrun.
    + intros name0. cbn [In]. rewrite Hmem. split.
      * intros [<- | (t0 & Hin0 & Hname0)]; [exists t | exists t0]; auto.
      * intros (t0 & [<- | Hin0] & Hname0); [left; congruence | right; eauto].
Qed.

(** After the round every alert type of the table has, for the provider
    of the round, the rows its status asks for; the rows of the other
    providers are as before. *)
Lemma provider_round_spec enabled disabled b s :
  (forall t, In t (keys VALID_VALUES_FOR_KEY_V2) ->
     is_Some (dict_get NOTIFICATION_SETTING_TYPES t)) ->
  (forall t1 t2, In t1 (keys VALID_VALUES_FOR_KEY_V2) ->
     In t2 (keys VALID_VALUES_FOR_KEY_V2) ->
     dict_get NOTIFICATION_SETTING_TYPES t1 = dict_get NOTIFICATION_SETTING_TYPES t2 ->
     t1 = t2) ->
  exists s',
    provider_round enabled disabled b s = (inr tt, s')
    /\ (forall t name,
          In t (keys VALID_VALUES_FOR_KEY_V2) ->
          dict_get NOTIFICATION_SETTING_TYPES t = Some name ->
          match status b enabled disabled t with
          | Some v => settled v (List.filter (args_match b name) (providers s'))
          | None => List.filter (args_match b name) (providers s') = []
          end)
    /\ (forall b' name',
          bq_provider b' <> bq_provider b ->
          List.filter (args_match b' name') (providers s')
          = List.filter (args_match b' name') (providers s)).
Proof.
  intros Hnamed Hinj. unfold provider_round.
  destruct (project_types_spec b enabled disabled _ Hnamed Hinj [] s)
    as (s1 & Hrun & Hset & Hframe).
  cbn [app] in Hrun.
  destruct (type_names_spec
              (List.filter (unset b enabled disabled)
                 (keys VALID_VALUES_FOR_KEY_V2)))
    as (names & Hnames & Hmem).
  { intros t Hin. apply List.filter_In in Hin as [Hin _]. now apply Hnamed. }
  exists (snd (provider_delete b names s1)). split.
  { unfold db_bind at 1. rewrite Hrun. unfold db_bind at 1.
    unfold db_lift at 1. rewrite Hnames. reflexivity. }
  split.
  - intros t name Hin Hname.
    destruct (status b enabled disabled t) as [v|] eqn:Hst.
    + rewrite delete_elsewhere; [now apply (Hset t)|].
      right. rewrite Hmem. intros (t2 & Hin2 & Hname2).
      apply List.filter_In in Hin2 as [Hin2 Hun].
      rewrite (Hinj t2 t) in Hun by (auto; congruence).
      unfold unset in Hun. now rewrite Hst in Hun.
    + apply delete_clears. apply Hmem. exists t. split; [|exact Hname].
      apply List.filter_In. split; [exact Hin|]. unfold unset. now rewrite Hst.
  - intros b' name' Hp. rewrite delete_elsewhere by now left.
    apply Hframe. now left.
Qed.

(** *** The classification of the stored rows *)

Lemma dd_get_empty k : dd_get ∅ k = ∅.
Proof. unfold dd_get. now rewrite lookup_empty. Qed.

Lemma dd_get_add m k x k' y :
  y ∈ dd_get (dd_add m k x) k' <-> (k = k' /\ y = x) \/ y ∈ dd_get m k'.
Proof.
  unfold dd_add. destruct (decide (k = k')) as [<- | Hne].
  - unfold dd_get at 1. rewrite lookup_insert_eq. cbn [default from_option id].
    rewrite elem_of_union, elem_of_singleton. taut.
  - unfold dd_get at 1. rewrite lookup_insert_ne by exact Hne.
    fold (dd_get m k'). taut.
Qed.

(** The name of the provider of a stored row. *)
Definition provider_name (r : NotificationSetting.t) : option string :=
  dict_get EXTERNAL_PROVIDERS
    (ExternalProviders.Member (NotificationSetting.provider r)).

Lemma classify_spec rows :
  (forall r, In r rows -> is_Some (provider_name r)) ->
  forall enabled0 disabled0, exists enabled disabled,
    classify rows enabled0 disabled0 = inr (enabled, disabled)
    /\ forall k x,
        (x ∈ dd_get enabled k
         <-> x ∈ dd_get enabled0 k
             \/ exists r, In r rows /\ NotificationSetting.type r = k
                          /\ provider_name r = Some x
                          /\ NotificationSetting.value r
                             <> NotificationSettingOptionValues.NEVER)
        /\ (x ∈ dd_get disabled k
            <-> x ∈ dd_get disabled0 k
                \/ exists r, In r rows /\ NotificationSetting.type r = k
                             /\ provider_name r = Some x
                             /\ NotificationSetting.value r
                                = NotificationSettingOptionValues.NEVER).
Proof.
  induction rows as [|r0 rows IH]; intros Hknown enabled0 disabled0.
  - exists enabled0, disabled0. split; [reflexivity|].
    intros k x. split; (split; [taut | intros [H | (r & [] & _)]; exact H]).
  - destruct (Hknown r0 (or_introl eq_refl)) as [pn Hpn].
    assert (Hknown' : forall r, In r rows -> is_Some (provider_name r))
      by (intros; apply Hknown; now right).
    cbn [classify]. unfold subscript. unfold provider_name in Hpn. rewrite Hpn.
    destruct (bool_decide (NotificationSetting.value r0
                           = NotificationSettingOptionValues.NEVER)) eqn:Hv.
    + apply bool_decide_eq_true in Hv.
      destruct (IH Hknown' enabled0
                  (dd_add disabled0 (NotificationSetting.type r0) pn))
        as (enabled & disabled & Hrun & Hmem).
      exists enabled, disabled. split; [exact Hrun|].
      intros k x. destruct (Hmem k x) as [He Hd]. split.
      * rewrite He. split.
        -- intros [H | (r & Hin & H)]; [now left | right; exists r].
           split; [now right | exact H].
        -- intros [H | (r & [<- | Hin] & Hk & Hn & Hnv)];
             [now left | congruence | right; exists r; auto].
      * rewrite Hd, dd_get_add. split.
        -- intros [[[<- ->] | H] | (r & Hin & H)].
           ++ right. exists r0. unfold provider_name. auto using in_eq.
           ++ now left.
           ++ right. exists r. split; [now right | exact H].
        -- intros [H | (r & [<- | Hin] & Hk & Hn & Hnv)].
           ++ left. now right.
           ++ left. left. unfold provider_name in Hn. split; congruence.
           ++ right. exists r. auto.
    + apply bool_decide_eq_false in Hv.
      destruct (IH Hknown' (dd_add enabled0 (NotificationSetting.type r0) pn)
                  disabled0)
        as (enabled & disabled & Hrun & Hmem).
      exists enabled, disabled. split; [exact Hrun|].
      intros k x. destruct (Hmem k x) as [He Hd]. split.
      * rewrite He, dd_get_add. split.
        -- intros [[[<- ->] | H] | (r & Hin & H)].
           ++ right. exists r0. unfold provider_name. auto using in_eq.
           ++ now left.
           ++ right. exists r. split; [now right | exact H].
        -- intros [H | (r & [<- | Hin] & Hk & Hn & Hnv)].
           ++ left. now right.
           ++ left. left. unfold provider_name in Hn. split; congruence.
           ++ right. exists r. auto.
      * rewrite Hd. split.
        -- intros [H | (r & Hin & H)]; [now left | right; exists r].
           split; [now right | exact H].
        -- intros [H | (r & [<- | Hin] & Hk & Hn & Hnv)];
             [now left | congruence | right; exists r; auto].
Qed.

(** *** The loop over the providers *)

Definition base_for (user_id team_id : option Z)
           (scope_type : NotificationScopeEnum.t) (scope_identifier : Z)
           (provider : string) : base_query :=
  {| bq_provider := provider; bq_user_id := user_id; bq_team_id := team_id;
     bq_scope_type := scope_type; bq_scope_identifier := scope_identifier |}.

Lemma provider_loop_spec enabled disabled user_id team_id scope_type
      scope_identifier names :
  (forall t, In t (keys VALID_VALUES_FOR_KEY_V2) ->
     is_Some (dict_get NOTIFICATION_SETTING_TYPES t)) ->
  (forall t1 t2, In t1 (keys VALID_VALUES_FOR_KEY_V2) ->
     In t2 (keys VALID_VALUES_FOR_KEY_V2) ->
     dict_get NOTIFICATION_SETTING_TYPES t1 = dict_get NOTIFICATION_SETTING_TYPES t2 ->
     t1 = t2) ->
  forall s, exists s',
    db_for names
      (fun provider =>
         provider_round enabled disabled
           (base_for user_id team_id scope_type scope_identifier provider)) s
    = (inr tt, s')
    /\ (forall provider t name,
          In provider names ->
          In t (keys VALID_VALUES_FOR_KEY_V2) ->
          dict_get NOTIFICATION_SETTING_TYPES t = Some name ->
          let b := base_for user_id team_id scope_type scope_identifier provider in
          match status b enabled disabled t with
          | Some v => settled v (List.filter (args_match b name) (providers s'))
          | None => List.filter (args_match b name) (providers s') = []
          end)
    /\ (forall b' name',
          ~ In (bq_provider b') names ->
          List.filter (args_match b' name') (providers s')
          = List.filter (args_match b' name') (providers s)).
Proof.
  intros Hnamed Hinj.
  induction names as [|pn rest IH]; intros s.
  - exists s. split; [reflexivity|]. split; [intros ? ? ? [] | reflexivity].
  - destruct (provider_round_spec enabled disabled
                (base_for user_id team_id scope_type scope_identifier pn) s
                Hnamed Hinj) as (s1 & Hrun1 & Hset1 & Hframe1).
    destruct (IH s1) as (s' & Hrun & Hset & Hframe).
    exists s'. split; [|split].
    + cbn [db_for]. unfold db_bind at 1. now rewrite Hrun1.
    + intros provider t name [<- | Hin] Ht Hname b; [|now apply Hset].
      destruct (in_dec String.string_dec pn rest) as [Hin | Hout];
        [now apply Hset|].
      rewrite Hframe by exact Hout. now apply Hset1.
    + intros b' name' Hout. rewrite Hframe by (intros H; apply Hout; now right).
      apply Hframe1. cbn. intros Heq. apply Hout. left. congruence.
Qed.

(** *** Computations that do not look at the setting records *)

(** [settings_blind m]: [m] neither reads nor writes the setting records,
    so it runs the same way whatever they are. *)
Definition settings_blind {A} (m : Db A) : Prop :=
  forall l s, m (set_settings l s) = (fst (m s), set_settings l (snd (m s))).

Lemma blind_ret {A} (a : A) : settings_blind (db_ret a).
Proof. now intros l s. Qed.

Lemma blind_lift {A} (r : exn + A) : settings_blind (db_lift r).
Proof. now intros l s. Qed.

Lemma blind_bind {A B} (m : Db A) (k : A -> Db B) :
  settings_blind m -> (forall a, settings_blind (k a)) ->
  settings_blind (db_bind m k).
Proof.
  intros Hm Hk l s. unfold db_bind. rewrite Hm.
  destruct (m s) as [[e|a] s1]; cbn [fst snd]; [reflexivity|]. apply Hk.
Qed.

Lemma blind_for {A} (l : list A) (body : A -> Db unit) :
  (forall x, settings_blind (body x)) -> settings_blind (db_for l body).
Proof.
  intros Hb. induction l as [|x l IH]; cbn [db_for].
  - apply blind_ret.
  - apply blind_bind; [apply Hb | intros _; exact IH].
Qed.

Lemma blind_create_or_update b name v :
  settings_blind (provider_create_or_update b name v).
Proof.
  intros l s. unfold provider_create_or_update, db_write.
  cbn [fst snd providers set_settings].
  destruct (existsb (args_match b name) (providers s)); reflexivity.
Qed.

Lemma blind_delete b names : settings_blind (provider_delete b names).
Proof. now intros l s. Qed.

Lemma blind_project_types b enabled disabled types acc :
  settings_blind (project_types b enabled disabled types acc).
Proof.
  revert acc. induction types as [|t types IH]; intros acc; cbn [project_types].
  - apply blind_ret.
  - apply blind_bind; [apply blind_lift|]. intros name.
    repeat case_match; auto;
      (apply blind_bind; [apply blind_create_or_update | intros _; apply IH]).
Qed.

Lemma blind_provider_round enabled disabled b :
  settings_blind (provider_round enabled disabled b).
Proof.
  unfold provider_round.
  apply blind_bind; [apply blind_project_types|]. intros del.
  apply blind_bind; [apply blind_lift|]. intros names. apply blind_delete.
Qed.

(** *** Dictionaries with distinct values *)

Lemma NoDup_map_inj {A B} (f : A -> B) (l : list A) x y :
  NoDup (map f l) -> In x l -> In y l -> f x = f y -> x = y.
Proof.
  induction l as [|z l IH]; intros Hnd Hx Hy Hf; [destruct Hx|].
  cbn [map] in Hnd. apply NoDup_cons in Hnd as [Hz Hnd].
  rewrite list_elem_of_In in Hz.
  destruct Hx as [-> | Hx], Hy as [-> | Hy]; auto.
  - exfalso. apply Hz. rewrite Hf. now apply in_map.
  - exfalso. apply Hz. rewrite <- Hf. now apply in_map.
Qed.

Lemma dict_get_In {K V} `{EqDecision K} (d : dict K V) k v :
  dict_get d k = Some v -> In (k, v) d.
Proof.
  induction d as [|[k' v'] d IH]; cbn [dict_get]; [discriminate|].
  destruct (decide (k' = k)) as [-> | Hne].
  - intros [= ->]. now left.
  - intros H. right. now apply IH.
Qed.

Lemma dict_get_inj {K V} `{EqDecision K} (d : dict K V) k1 k2 v :
  NoDup (map snd d) -> dict_get d k1 = Some v -> dict_get d k2 = Some v ->
  k1 = k2.
Proof.
  intros Hnd H1 H2. apply dict_get_In in H1, H2.
  assert (H : (k1, v) = (k2, v))
    by now apply (NoDup_map_inj snd d (k1, v) (k2, v) Hnd H1 H2).
  congruence.
Qed.

(** *** The projection after a rebuild *)

(** The invariants of the setting table in the data model: no row stores
    DEFAULT; a row at USER or TEAM scope is the owner's own, scoped to the
    owner's id; the six key columns identify a row. *)
Definition explicit_values (l : list NotificationSetting.t) : bool :=
  forallb (fun r => negb (bool_decide (NotificationSetting.value r
                                      = NotificationSettingOptionValues.DEFAULT))) l.

Definition own_scope_ok (r : NotificationSetting.t) : bool :=
  match NotificationSetting.scope_type r with
  | NotificationScopeType.USER =>
      bool_decide (NotificationSetting.user_id r
                   = Some (NotificationSetting.scope_identifier r))
      && bool_decide (NotificationSetting.team_id r = None)
  | NotificationScopeType.TEAM =>
      bool_decide (NotificationSetting.team_id r
                   = Some (NotificationSetting.scope_identifier r))
      && bool_decide (NotificationSetting.user_id r = None)
  | _ => true
  end.

Definition own_scopes (l : list NotificationSetting.t) : bool :=
  forallb own_scope_ok l.

Definition key_columns (r : NotificationSetting.t)
  : Z * Z * NotificationScopeType.t * Z * option Z * option Z :=
  (NotificationSetting.provider r, NotificationSetting.type r,
   NotificationSetting.scope_type r, NotificationSetting.scope_identifier r,
   NotificationSetting.user_id r, NotificationSetting.team_id r).

Definition unique_keys (l : list NotificationSetting.t) : bool :=
  bool_decide (NoDup (map key_columns l)).

(** What the rebuild asks of the tables: every alert type of the
    compatibility table has a name, the names differ, and so do the names
    of the providers. *)
Definition types_named : bool :=
  forallb (fun t => bool_decide (is_Some (dict_get NOTIFICATION_SETTING_TYPES t)))
          (keys VALID_VALUES_FOR_KEY_V2).

Definition type_names_distinct : bool :=
  bool_decide (NoDup (map (dict_get NOTIFICATION_SETTING_TYPES)
                          (keys VALID_VALUES_FOR_KEY_V2))).

Definition provider_names_distinct : bool :=
  bool_decide (NoDup (map snd EXTERNAL_PROVIDERS)).

Definition providers_known (l : list NotificationSetting.t) : bool :=
  forallb (fun r => bool_decide (is_Some (provider_name r))) l.

(** The rows of a recipient at USER or TEAM scope: what the rebuild
    reads. *)
Definition own_scoped (a : RpcActor.t) (r : NotificationSetting.t) : bool :=
  bool_decide (NotificationSetting.user_id r = user_id_of a)
  && bool_decide (NotificationSetting.team_id r = team_id_of a)
  && bool_decide (NotificationSetting.scope_type r
                  ∈ [NotificationScopeType.USER; NotificationScopeType.TEAM]).

(** The recipient's own-scope record for a provider and an alert type:
    owned by the recipient, at USER or TEAM scope, scoped to the
    recipient's id. *)
Definition own_setting (a : RpcActor.t) (provider : ExternalProviders.t)
           (type : NotificationSettingTypes.t) (r : NotificationSetting.t) : bool :=
  own_scoped a r
  && (NotificationSetting.scope_identifier r =? RpcActor.id a)
  && (NotificationSetting.provider r =? ExternalProviders.value provider)
  && (NotificationSetting.type r =? NotificationSettingTypes.value type).

Definition own_scope_enum (a : RpcActor.t) : NotificationScopeEnum.t :=
  match RpcActor.actor_type a with
  | ActorType.USER => NotificationScopeEnum.USER
  | ActorType.TEAM => NotificationScopeEnum.TEAM
  end.

(** The projection rows of a recipient for a provider name and a type
    name, at the recipient's own scope. *)
Definition projection_row (a : RpcActor.t) (provider type : string)
           (row : NotificationSettingProvider.t) : bool :=
  args_match
    (base_for (user_id_of a) (team_id_of a) (own_scope_enum a) (RpcActor.id a)
       provider) type row.

Lemma set_settings_id s : set_settings (settings s) s = s.
Proof. now destruct s. Qed.

(** The rebuild is the loop over the providers, run on the
    classification of the own-scoped rows. *)
Lemma rebuild_unfold a enabled disabled s :
  RpcActor.id a <> 0 ->
  classify (List.filter (own_scoped a) (settings s)) ∅ ∅
  = inr (enabled, disabled) ->
  update_provider_settings (user_id_of a) (team_id_of a) s
  = db_for PERSONAL_NOTIFICATION_PROVIDERS
      (fun provider =>
         provider_round enabled disabled
           (base_for (user_id_of a) (team_id_of a) (own_scope_enum a)
              (RpcActor.id a) provider)) s.
Proof.
  intros Hid Hcl. apply Z.eqb_neq in Hid.
  unfold update_provider_settings.
  assert (Htruthy : truthy (team_id_of a) || truthy (user_id_of a) = true).
  { destruct a as [[] i]; cbn in *; rewrite Hid; reflexivity. }
  rewrite Htruthy. cbn [negb].
  unfold db_bind at 1. unfold qs_list, db_read.
  rewrite (filter_ext_eq
             (matches (Q_and (Q_and (Q_user_id (user_id_of a))
                                    (Q_team_id (team_id_of a)))
                             (Q_scope_type__in [NotificationScopeType.USER;
                                                NotificationScopeType.TEAM])))
             (own_scoped a)) by reflexivity.
  unfold db_bind at 1. unfold db_lift at 1. rewrite Hcl.
  destruct a as [[] i]; reflexivity.
Qed.

Lemma own_scoped_scope a r :
  own_scoped a r = true -> own_scope_ok r = true ->
  NotificationSetting.scope_type r
  = match RpcActor.actor_type a with
    | ActorType.USER => NotificationScopeType.USER
    | ActorType.TEAM => NotificationScopeType.TEAM
    end
  /\ NotificationSetting.scope_identifier r = RpcActor.id a.
Proof.
  unfold own_scoped, own_scope_ok. intros H Hok.
  apply andb_true_iff in H as [H Hst]. apply andb_true_iff in H as [Hu Ht].
  apply bool_decide_eq_true in Hu, Ht, Hst.
  rewrite list_elem_of_In in Hst. cbn [In] in Hst.
  destruct Hst as [Hst | [Hst | []]]; rewrite <- Hst in Hok |- *;
    apply andb_true_iff in Hok as [H1 H2];
    apply bool_decide_eq_true in H1, H2;
    destruct a as [[] i]; unfold user_id_of, team_id_of in *;
    cbn [RpcActor.actor_type RpcActor.id] in *;
    split; congruence.
Qed.

Lemma member_value (p : ExternalProviders.t) :
  ExternalProviders.Member (ExternalProviders.value p) = p.
Proof. now destruct p. Qed.

(** Under the invariants the rows the rebuild reads for a provider name
    and an alert type are the recipient's own-scope records for them. *)
Lemma own_rows_records a p t pn s r :
  own_scopes (settings s) = true ->
  provider_names_distinct = true ->
  dict_get EXTERNAL_PROVIDERS p = Some pn ->
  (In r (List.filter (own_scoped a) (settings s))
   /\ NotificationSetting.type r = NotificationSettingTypes.value t
   /\ provider_name r = Some pn)
  <-> In r (List.filter (own_setting a p t) (settings s)).
Proof.
  intros Hown Hdist Hpn. unfold provider_names_distinct in Hdist.
  apply bool_decide_eq_true in Hdist.
  rewrite !List.filter_In. unfold own_setting. split.
  - intros ((Hin & Hsc) & Hty & Hname). split; [exact Hin|].
    unfold own_scopes in Hown. rewrite forallb_forall in Hown.
    destruct (own_scoped_scope a r Hsc (Hown r Hin)) as [_ Hsid].
    rewrite Hsc, Hsid, Hty, !Z.eqb_refl. cbn [andb]. rewrite andb_true_r.
    apply Z.eqb_eq. unfold provider_name in Hname.
    pose proof (dict_get_inj EXTERNAL_PROVIDERS _ _ pn Hdist Hname Hpn) as Hp.
    rewrite <- Hp. reflexivity.
  - intros (Hin & H).
    apply andb_true_iff in H as [H Hty]. apply andb_true_iff in H as [H Hp].
    apply andb_true_iff in H as [Hsc Hsid].
    apply Z.eqb_eq in Hty, Hp.
    split; [now split|]. split; [exact Hty|].
    unfold provider_name. rewrite Hp. now rewrite member_value.
Qed.

(** Under the invariants a recipient has at most one own-scope record for
    a provider and an alert type. *)
Lemma own_setting_unique a p t s r1 r2 :
  own_scopes (settings s) = true ->
  unique_keys (settings s) = true ->
  In r1 (List.filter (own_setting a p t) (settings s)) ->
  In r2 (List.filter (own_setting a p t) (settings s)) ->
  r1 = r2.
Proof.
  intros Hown Huniq H1 H2. unfold unique_keys in Huniq.
  apply bool_decide_eq_true in Huniq.
  unfold own_scopes in Hown. rewrite forallb_forall in Hown.
  apply List.filter_In in H1 as [Hin1 H1], H2 as [Hin2 H2].
  apply (NoDup_map_inj key_columns (settings s) r1 r2 Huniq Hin1 Hin2).
  unfold own_setting in H1, H2.
  apply andb_true_iff in H1 as [H1 Hty1]. apply andb_true_iff in H1 as [H1 Hp1].
  apply andb_true_iff in H1 as [Hsc1 Hsid1].
  apply andb_true_iff in H2 as [H2 Hty2]. apply andb_true_iff in H2 as [H2 Hp2].
  apply andb_true_iff in H2 as [Hsc2 Hsid2].
  apply Z.eqb_eq in Hty1, Hp1, Hsid1, Hty2, Hp2, Hsid2.
  destruct (own_scoped_scope a r1 Hsc1 (Hown r1 Hin1)) as [Hst1 _].
  destruct (own_scoped_scope a r2 Hsc2 (Hown r2 Hin2)) as [Hst2 _].
  unfold own_scoped in Hsc1, Hsc2.
  apply andb_true_iff in Hsc1 as [Hsc1 _]. apply andb_true_iff in Hsc1 as [Hu1 Ht1].
  apply andb_true_iff in Hsc2 as [Hsc2 _]. apply andb_true_iff in Hsc2 as [Hu2 Ht2].
  apply bool_decide_eq_true in Hu1, Ht1, Hu2, Ht2.
  unfold key_columns.
  now rewrite Hp1, Hp2, Hty1, Hty2, Hst1, Hst2, Hsid1, Hsid2, Hu1, Hu2, Ht1, Ht2.
Qed.

(** C1. After [update_provider_settings] for one recipient (an id other
    than zero, on a table that keeps the invariants of the data model and
    names the stored providers and the alert types apart), for every alert
    type of the compatibility table and every provider of the catalog: a
    projection row of the recipient at its own USER or TEAM scope exists
    exactly when the recipient has an own-scope record for the provider
    and the type with a value other than DEFAULT; the row holds ALWAYS
    exactly when that record's value is not NEVER and NEVER exactly when it
    is NEVER.  The rebuild reads the own-scoped rows only: replacing the
    other records (those at project or organization scope) by any others
    leaves the run and the projection table the same. *)
Theorem projection_after_rebuild (a : RpcActor.t) (s : Store) :
  RpcActor.id a <> 0 ->
  types_named = true ->
  type_names_distinct = true ->
  provider_names_distinct = true ->
  providers_known (List.filter (own_scoped a) (settings s)) = true ->
  explicit_values (settings s) = true ->
  own_scopes (settings s) = true ->
  unique_keys (settings s) = true ->
  exists s',
    update_provider_settings (user_id_of a) (team_id_of a) s = (inr tt, s')
    /\ settings s' = settings s
    /\ (forall t p pn tn,
          In t (keys VALID_VALUES_FOR_KEY_V2) ->
          dict_get EXTERNAL_PROVIDERS p = Some pn ->
          In pn PERSONAL_NOTIFICATION_PROVIDERS ->
          dict_get NOTIFICATION_SETTING_TYPES t = Some tn ->
          let rows := List.filter (projection_row a pn tn) (providers s') in
          let records := List.filter (own_setting a p t) (settings s) in
          (rows <> []
           <-> exists r, In r records
                         /\ NotificationSetting.value r
                            <> NotificationSettingOptionValues.DEFAULT)
          /\ (forall row r, In row rows -> In r records ->
                (NotificationSettingProvider.value row
                 = NotificationSettingsOptionEnum.ALWAYS
                 <-> NotificationSetting.value r
                     <> NotificationSettingOptionValues.NEVER)
                /\ (NotificationSettingProvider.value row
                    = NotificationSettingsOptionEnum.NEVER
                    <-> NotificationSetting.value r
                        = NotificationSettingOptionValues.NEVER)))
    /\ (forall l,
          List.filter (own_scoped a) l = List.filter (own_scoped a) (settings s) ->
          update_provider_settings (user_id_of a) (team_id_of a) (set_settings l s)
          = (inr tt, set_settings l s')).
Proof.
  intros Hid Hnamed Hdist Hpdist Hknown Hexp Hown Huniq.
  assert (Hnamed' : forall t, In t (keys VALID_VALUES_FOR_KEY_V2) ->
            is_Some (dict_get NOTIFICATION_SETTING_TYPES t)).
  { unfold types_named in Hnamed. rewrite forallb_forall in Hnamed.
    intros t Hin. specialize (Hnamed t Hin).
    now apply bool_decide_eq_true in Hnamed. }
  assert (Hinj : forall t1 t2, In t1 (keys VALID_VALUES_FOR_KEY_V2) ->
            In t2 (keys VALID_VALUES_FOR_KEY_V2) ->
            dict_get NOTIFICATION_SETTING_TYPES t1
            = dict_get NOTIFICATION_SETTING_TYPES t2 -> t1 = t2).
  { unfold type_names_distinct in Hdist. apply bool_decide_eq_true in Hdist.
    intros t1 t2 H1 H2 Heq.
    exact (NoDup_map_inj _ _ t1 t2 Hdist H1 H2 Heq). }
  assert (Hknown' : forall r, In r (List.filter (own_scoped a) (settings s)) ->
            is_Some (provider_name r)).
  { unfold providers_known in Hknown. rewrite forallb_forall in Hknown.
    intros r Hin. specialize (Hknown r Hin).
    now apply bool_decide_eq_true in Hknown. }
  destruct (classify_spec _ Hknown' ∅ ∅) as (enabled & disabled & Hcl & Hmem).
  destruct (provider_loop_spec enabled disabled (user_id_of a) (team_id_of a)
              (own_scope_enum a) (RpcActor.id a)
              PERSONAL_NOTIFICATION_PROVIDERS Hnamed' Hinj s)
    as (s' & Hloop & Hset & _).
  assert (Hkeep : settings s' = settings s).
  { pose proof (update_provider_settings_settings
                  (user_id_of a) (team_id_of a) s) as H.
    rewrite (rebuild_unfold a enabled disabled s Hid Hcl), Hloop in H.
    exact H. }
  exists s'. split; [|split; [exact Hkeep|split]].
  - now rewrite (rebuild_unfold a enabled disabled s Hid Hcl).
  - intros t p pn tn Ht Hpn Hpers Htn rows records.
    (* the classification, in terms of the own-scope records *)
    assert (Hen : pn ∈ dd_get enabled (NotificationSettingTypes.value t)
                  <-> exists r, In r records
                                /\ NotificationSetting.value r
                                   <> NotificationSettingOptionValues.NEVER).
    { destruct (Hmem (NotificationSettingTypes.value t) pn) as [-> _].
      rewrite dd_get_empty. split.
      - intros [H | (r & Hin & Hty & Hname & Hv)];
          [now apply not_elem_of_empty in H|].
        exists r. split; [|exact Hv].
        now apply (own_rows_records a p t pn s r Hown Hpdist Hpn).
      - intros (r & Hin & Hv). right. exists r.
        apply (own_rows_records a p t pn s r Hown Hpdist Hpn) in Hin.
        taut. }
    assert (Hdis : pn ∈ dd_get disabled (NotificationSettingTypes.value t)
                   <-> exists r, In r records
                                 /\ NotificationSetting.value r
                                    = NotificationSettingOptionValues.NEVER).
    { destruct (Hmem (NotificationSettingTypes.value t) pn) as [_ ->].
      rewrite dd_get_empty. split.
      - intros [H | (r & Hin & Hty & Hname & Hv)];
          [now apply not_elem_of_empty in H|].
        exists r. split; [|exact Hv].
        now apply (own_rows_records a p t pn s r Hown Hpdist Hpn).
      - intros (r & Hin & Hv). right. exists r.
        apply (own_rows_records a p t pn s r Hown Hpdist Hpn) in Hin.
        taut. }
    pose proof (Hset pn t tn Hpers Ht Htn) as Hfinal. cbv zeta in Hfinal.
    fold (projection_row a pn tn) in Hfinal. fold rows in Hfinal.
    unfold status in Hfinal. cbn [bq_provider base_for] in Hfinal.
    split.
    + split.
      * intros Hrows.
        assert (Hsome : exists r, In r records).
        { destruct (bool_decide (pn ∈ dd_get enabled _)) eqn:He.
          - apply bool_decide_eq_true, Hen in He as (r & Hin & _).
            now exists r.
          - destruct (bool_decide (pn ∈ dd_get disabled _)) eqn:Hd;
              [|contradiction].
            apply bool_decide_eq_true, Hdis in Hd as (r & Hin & _).
            now exists r. }
        destruct Hsome as (r & Hin). exists r. split; [exact Hin|].
        unfold explicit_values in Hexp. rewrite forallb_forall in Hexp.
        apply List.filter_In in Hin as [Hin _].
        specialize (Hexp r Hin). apply negb_true_iff in Hexp.
        now apply bool_decide_eq_false in Hexp.
      * intros (r & Hin & _).
        destruct (decide (NotificationSetting.value r
                          = NotificationSettingOptionValues.NEVER)) as [Hv | Hv].
        -- destruct (bool_decide (pn ∈ dd_get enabled _)); [apply Hfinal|].
           rewrite bool_decide_eq_true_2 in Hfinal by (apply Hdis; eauto).
           apply Hfinal.
        -- rewrite bool_decide_eq_true_2 in Hfinal by (apply Hen; eauto).
           apply Hfinal.
    + intros row r Hrow Hin.
      assert (Hone : forall r', In r' records -> r' = r)
        by (intros r' Hin';
            exact (own_setting_unique a p t s r' r Hown Huniq Hin' Hin)).
      destruct (decide (NotificationSetting.value r
                        = NotificationSettingOptionValues.NEVER)) as [Hv | Hv].
      * rewrite bool_decide_eq_false_2 in Hfinal.
        2:{ rewrite Hen. intros (r' & Hin' & Hv').
            rewrite (Hone r' Hin') in Hv'. contradiction. }
        rewrite bool_decide_eq_true_2 in Hfinal by (apply Hdis; eauto).
        destruct Hfinal as [_ Hval]. rewrite (Hval row Hrow).
        split; split; intros H; try congruence; try contradiction.
      * rewrite bool_decide_eq_true_2 in Hfinal by (apply Hen; eauto).
        destruct Hfinal as [_ Hval]. rewrite (Hval row Hrow).
        split; split; intros H; try congruence; try contradiction.
  - intros l Hl.
    rewrite (rebuild_unfold a enabled disabled (set_settings l s) Hid)
      by (cbn [settings set_settings]; now rewrite Hl).
    rewrite blind_for by (intros; apply blind_provider_round).
    now rewrite Hloop.
Qed.

(** *** The invariants are kept by the writes *)

(** The three invariants of the setting table together. *)
Definition table_ok (l : list NotificationSetting.t) : bool :=
  explicit_values l && own_scopes l && unique_keys l.

(** [keeps_ok m]: a run of [m] on a table that has the invariants leaves a
    table that has them, whether it returns or raises. *)
Definition keeps_ok {A} (m : Db A) : Prop :=
  forall s, table_ok (settings s) = true ->
            table_ok (settings (snd (m s))) = true.

Lemma keeps_ok_of_keeps {A} (m : Db A) : keeps settings m -> keeps_ok m.
Proof. intros H s Hok. now rewrite H. Qed.

Lemma keeps_ok_bind {A B} (m : Db A) (k : A -> Db B) :
  keeps_ok m -> (forall x, keeps_ok (k x)) -> keeps_ok (db_bind m k).
Proof.
  intros Hm Hk s Hok. unfold db_bind. specialize (Hm s Hok).
  destruct (m s) as [[e|x] s1]; cbn [snd] in *; [exact Hm|]. now apply Hk.
Qed.

Lemma table_ok_filter (f : NotificationSetting.t -> bool) l :
  table_ok l = true -> table_ok (List.filter f l) = true.
Proof.
  unfold table_ok, explicit_values, own_scopes, unique_keys.
  intros H. apply andb_true_iff in H as [H Hu]. apply andb_true_iff in H as [He Ho].
  rewrite forallb_forall in He, Ho. apply bool_decide_eq_true in Hu.
  repeat (apply andb_true_iff; split).
  - apply forallb_forall. intros r Hin. apply List.filter_In in Hin as [Hin _].
    now apply He.
  - apply forallb_forall. intros r Hin. apply List.filter_In in Hin as [Hin _].
    now apply Ho.
  - apply bool_decide_eq_true. clear He Ho.
    induction l as [|r l IH]; cbn [List.filter map]; [constructor|].
    cbn [map] in Hu. apply NoDup_cons in Hu as [Hr Hu].
    destruct (f r); cbn [map]; [|now apply IH].
    apply NoDup_cons. split; [|now apply IH].
    rewrite list_elem_of_In in *. intros Hin. apply Hr.
    apply in_map_iff in Hin as (r' & Hk & Hin').
    apply List.filter_In in Hin' as [Hin' _].
    apply in_map_iff. now exists r'.
Qed.

Lemma qs_delete_keeps_ok q : keeps_ok (qs_delete q).
Proof. intros s Hok. now apply table_ok_filter. Qed.

Lemma same_key_columns provider type scope_type scope_identifier user_id team_id r :
  same_key provider type scope_type scope_identifier user_id team_id r = true
  <-> key_columns r
      = (provider, type, scope_type, scope_identifier, user_id, team_id).
Proof.
  unfold same_key, key_columns.
  rewrite !andb_true_iff, !Z.eqb_eq, !bool_decide_eq_true. split.
  - intros [[[[[-> ->] ->] ->] ->] ->]. reflexivity.
  - intros [= -> -> -> -> -> ->]. now repeat split.
Qed.

(** The upsert keeps the invariants when the value is not DEFAULT and the
    owner columns fit the scope. *)
Lemma _update_settings_keeps_ok provider type value scope_type scope_identifier
      user_id team_id :
  value <> NotificationSettingOptionValues.DEFAULT ->
  own_scope_ok (NotificationSetting.Build 0 (ExternalProviders.value provider)
                  (NotificationSettingTypes.value type) scope_type
                  scope_identifier user_id team_id value) = true ->
  keeps_ok (_update_settings provider type value scope_type scope_identifier
              user_id team_id).
Proof.
  intros Hnd Hscope s Hok. unfold _update_settings, db_bind, get_or_create.
  set (key := same_key _ _ scope_type scope_identifier user_id team_id).
  destruct (List.filter key (settings s)) as [|r [|r' rest]] eqn:Hrows;
    [| |exact Hok].
  - cbn [negb andb snd settings db_ret].
    unfold table_ok, explicit_values, own_scopes, unique_keys in *.
    apply andb_true_iff in Hok as [H Hu]. apply andb_true_iff in H as [He Ho].
    apply bool_decide_eq_true in Hu.
    rewrite !forallb_app, He, Ho. cbn [forallb andb].
    rewrite (bool_decide_eq_false_2 _ Hnd). cbn [negb andb].
    change (own_scope_ok _) with
      (own_scope_ok (NotificationSetting.Build 0 (ExternalProviders.value provider)
                       (NotificationSettingTypes.value type) scope_type
                       scope_identifier user_id team_id value)).
    rewrite Hscope. cbn [andb].
    apply bool_decide_eq_true. rewrite map_app. cbn [map].
    apply NoDup_app. split; [exact Hu|]. split; [|apply NoDup_singleton].
    intros k Hk Hk'. apply list_elem_of_singleton in Hk'. subst k.
    rewrite list_elem_of_In in Hk. apply in_map_iff in Hk as (r & Hkr & Hin).
    assert (Hr : In r (List.filter key (settings s))).
    { apply List.filter_In. split; [exact Hin|]. subst key.
      now apply same_key_columns. }
    now rewrite Hrows in Hr.
  - cbn [negb andb].
    destruct (bool_decide (NotificationSetting.value r = value));
      cbn [negb snd db_ret]; [exact Hok|].
    unfold update_value, db_write. cbn [snd settings set_settings].
    unfold table_ok, explicit_values, own_scopes, unique_keys in *.
    apply andb_true_iff in Hok as [H Hu]. apply andb_true_iff in H as [He Ho].
    rewrite forallb_forall in He, Ho.
    repeat (apply andb_true_iff; split).
    + apply forallb_forall. intros x Hin. apply in_map_iff in Hin as (y & <- & Hy).
      destruct (_ =? _); [|apply He; exact Hy].
      cbn. now rewrite (bool_decide_eq_false_2 _ Hnd).
    + apply forallb_forall. intros x Hin. apply in_map_iff in Hin as (y & <- & Hy).
      destruct (_ =? _); apply (Ho y Hy).
    + rewrite map_map.
      rewrite (map_ext _ key_columns); [exact Hu|].
      intros x. now destruct (_ =? _).
Qed.

Lemma get_scope_fits a project organization scope_type scope_identifier v :
  get_scope (team_id_of a) (user_id_of a) project organization
  = inr (scope_type, scope_identifier) ->
  forall provider type,
    own_scope_ok (NotificationSetting.Build 0 provider type scope_type
                    scope_identifier (user_id_of a) (team_id_of a) v) = true.
Proof.
  intros H provider type. unfold own_scope_ok.
  destruct a as [[] i], project as [p|], organization as [o|];
    cbn in H; injection H as <- <-; cbn;
    rewrite ?bool_decide_eq_true_2 by reflexivity; reflexivity.
Qed.

(** Every call of [update_settings] for one recipient keeps the
    invariants of the setting table, so a table that is only written
    through it has them. *)
Lemma update_settings_keeps_ok provider type value a project organization skip :
  keeps_ok (update_settings provider type value None (user_id_of a)
              (team_id_of a) project organization None skip).
Proof.
  unfold update_settings.
  assert (Htail : forall st sid,
            keeps_ok
              (type_name <~
                 db_lift (subscript "NOTIFICATION_SETTING_TYPES"
                            NOTIFICATION_SETTING_TYPES type) ;;
               scope_name <~
                 db_lift (subscript "NOTIFICATION_SCOPE_TYPE"
                            NOTIFICATION_SCOPE_TYPE st) ;;
               (if bool_decide (value = NotificationSettingOptionValues.DEFAULT)
                then option_delete type_name scope_name sid
                       (user_id_of a) (team_id_of a)
                else
                  value_name <~
                    db_lift (subscript "NOTIFICATION_SETTING_OPTION_VALUES"
                               NOTIFICATION_SETTING_OPTION_VALUES value) ;;
                  option_create_or_update type_name scope_name sid
                    (user_id_of a) (team_id_of a) value_name) ;;;
               if skip then db_ret tt
               else update_provider_settings (user_id_of a) (team_id_of a))%db)
    by (intros; apply keeps_ok_of_keeps, update_settings_tail_keeps).
  assert (Hremove : keeps_ok
            (remove_settings provider type None (user_id_of a) (team_id_of a)
               project organization)).
  { unfold remove_settings.
    apply keeps_ok_bind; [now apply keeps_ok_of_keeps, keeps_lift|].
    intros [st sid].
    apply keeps_ok_bind; [now apply keeps_ok_of_keeps, keeps_lift|]. intros name.
    apply keeps_ok_bind; [now apply keeps_ok_of_keeps, keeps_write|]. intros _.
    apply keeps_ok_bind; [now apply keeps_ok_of_keeps, keeps_lift|]. intros q.
    apply qs_delete_keeps_ok. }
  destruct a as [[] i]; unfold user_id_of, team_id_of in *;
    cbn [RpcActor.actor_type RpcActor.id] in *.
  all: apply keeps_ok_bind; [now apply keeps_ok_of_keeps, keeps_write|]; intros _.
  all: intros s Hok; unfold db_bind at 1; unfold db_lift at 1.
  all: destruct (get_scope _ _ project organization) as [e|[st sid]] eqn:Hscope;
    [exact Hok|].
  all: revert s Hok; apply keeps_ok_bind; [|intros _; apply Htail].
  all: destruct (bool_decide (value = NotificationSettingOptionValues.DEFAULT))
    eqn:Hv; [exact Hremove|].
  all: apply bool_decide_eq_false in Hv.
  all: destruct (validate type value); cbn [negb];
    [|now apply keeps_ok_of_keeps, keeps_raise].
  - rewrite (bool_decide_eq_true_2 (ActorType.USER = ActorType.USER)) by reflexivity.
    apply _update_settings_keeps_ok; [exact Hv|].
    exact (get_scope_fits (RpcActor.Build ActorType.USER i) project organization
             st sid value Hscope _ _).
  - rewrite (bool_decide_eq_false_2 (ActorType.TEAM = ActorType.USER)) by discriminate.
    apply _update_settings_keeps_ok; [exact Hv|].
    exact (get_scope_fits (RpcActor.Build ActorType.TEAM i) project organization
             st sid value Hscope _ _).
Qed.

(** ** Further properties of the manager *)

(** *** Bulk deletes by owner and by organization *)

(** The records of a user: the user column holds the id, and the alert
    type is the given one when one is given. *)
Definition of_user (user : Z) (type : option NotificationSettingTypes.t)
           (r : NotificationSetting.t) : bool :=
  bool_decide (NotificationSetting.user_id r = Some user) && of_alert_type type r.

Lemma nonempty_single (i : Z) : nonempty {[i]} = true.
Proof. rewrite <- (union_empty_r_L {[i]}). apply nonempty_singleton. Qed.

Lemma in_ids_single c (i : Z) : in_ids c {[i]} = bool_decide (c = Some i).
Proof. rewrite <- (union_empty_r_L {[i]}). apply in_ids_singleton. Qed.

Lemma user_delete user type r :
  matches (_filter None type None None (Some {[user]}) None) r
  = of_user user type r.
Proof.
  unfold _filter, of_user, of_alert_type. rewrite nonempty_single.
  cbn [orb default from_option id].
  destruct type as [t|]; cbn [matches];
    rewrite in_ids_empty, in_ids_single; cbn [andb orb];
    [apply andb_comm | now rewrite andb_true_r].
Qed.

(** X1. [remove_for_user] deletes exactly the records whose user column
    holds the user's id (of the given alert type when one is given),
    at whatever scope they are; the records of teams and of other users
    stay, in their order, and the other tables are not touched.  The list
    of ids the method passes is never empty, so this holds for every id,
    zero included. *)
Theorem remove_for_user_exact (user : Z)
        (type : option NotificationSettingTypes.t) (s : Store) :
  let s' := snd (remove_for_user user type s) in
  remove_for_user user type s = (inr tt, s')
  /\ settings s'
     = List.filter (fun r => negb (of_user user type r)) (settings s)
  /\ (forall r, In r (settings s') ->
        ~ (NotificationSetting.user_id r = Some user
           /\ forall t, type = Some t ->
                NotificationSetting.type r = NotificationSettingTypes.value t))
  /\ (forall r, In r (settings s) ->
        NotificationSetting.user_id r <> Some user -> In r (settings s'))
  /\ options s' = options s
  /\ providers s' = providers s
  /\ analytics s' = analytics s.
Proof.
  intros s'. split; [reflexivity|].
  assert (Heq : settings s'
                = List.filter (fun r => negb (of_user user type r)) (settings s)).
  { subst s'. unfold remove_for_user, qs_delete, db_write.
    cbn [snd settings set_settings].
    apply filter_ext_eq. intros r. now rewrite user_delete. }
  split; [exact Heq|]. split; [|split; [|now repeat split]].
  - intros r Hin [Hu Hty]. rewrite Heq in Hin.
    apply List.filter_In in Hin as [_ Hkeep]. apply negb_true_iff in Hkeep.
    unfold of_user, of_alert_type in Hkeep.
    rewrite (bool_decide_eq_true_2 _ Hu) in Hkeep. cbn [andb] in Hkeep.
    destruct type as [t|]; [|discriminate].
    rewrite (proj2 (Z.eqb_eq _ _) (Hty t eq_refl)) in Hkeep. discriminate.
  - intros r Hin Hu. rewrite Heq. apply List.filter_In. split; [exact Hin|].
    unfold of_user. now rewrite (bool_decide_eq_false_2 _ Hu).
Qed.

(** X2. For an organization id other than zero [remove_for_organization]
    deletes exactly the records of scope type ORGANIZATION with that scope
    identifier (of the given alert type when one is given): the records
    at the projects of the organization, being of scope type PROJECT,
    stay, like every record of another scope, and the other tables are
    not touched. *)
Theorem remove_for_organization_exact (organization_id : Z)
        (type : option NotificationSettingTypes.t) (s : Store) :
  organization_id <> 0 ->
  let s' := snd (remove_for_organization organization_id type s) in
  remove_for_organization organization_id type s = (inr tt, s')
  /\ settings s'
     = List.filter
         (fun r => negb (scoped_to NotificationScopeType.ORGANIZATION
                           organization_id type r))
         (settings s)
  /\ (forall r, In r (settings s) ->
        NotificationSetting.scope_type r <> NotificationScopeType.ORGANIZATION ->
        In r (settings s'))
  /\ (forall r, In r (settings s') ->
        ~ (NotificationSetting.scope_type r = NotificationScopeType.ORGANIZATION
           /\ NotificationSetting.scope_identifier r = organization_id
           /\ forall t, type = Some t ->
                NotificationSetting.type r = NotificationSettingTypes.value t))
  /\ options s' = options s
  /\ providers s' = providers s
  /\ analytics s' = analytics s.
Proof.
  intros Hnz s'. split; [reflexivity|].
  assert (Heq : settings s'
                = List.filter
                    (fun r => negb (scoped_to NotificationScopeType.ORGANIZATION
                                      organization_id type r)) (settings s)).
  { subst s'. unfold remove_for_organization, qs_delete, db_write.
    cbn [snd settings set_settings].
    apply filter_ext_eq. intros r. now rewrite scoped_delete_nonzero. }
  split; [exact Heq|]. split; [|split; [|now repeat split]].
  - intros r Hin Hst. rewrite Heq. apply List.filter_In. split; [exact Hin|].
    unfold scoped_to. now rewrite (bool_decide_eq_false_2 _ Hst).
  - intros r Hin (Hst & Hid & Hty). rewrite Heq in Hin.
    apply List.filter_In in Hin as [_ Hkeep]. apply negb_true_iff in Hkeep.
    unfold scoped_to, of_alert_type in Hkeep.
    rewrite (bool_decide_eq_true_2 _ Hst), (proj2 (Z.eqb_eq _ _) Hid) in Hkeep.
    cbn [andb] in Hkeep. destruct type as [t|]; [|discriminate].
    rewrite (proj2 (Z.eqb_eq _ _) (Hty t eq_refl)) in Hkeep. discriminate.
Qed.

Lemma filter_comm {A} (f g : A -> bool) (l : list A) :
  List.filter f (List.filter g l) = List.filter g (List.filter f l).
Proof.
  rewrite !filter_filter_andb. apply filter_ext_eq. intros x. apply andb_comm.
Qed.

Lemma filter_twice {A} (f : A -> bool) (l : list A) :
  List.filter f (List.filter f l) = List.filter f l.
Proof.
  rewrite filter_filter_andb. apply filter_ext_eq. intros x. now destruct (f x).
Qed.

Lemma qs_delete_comm q1 q2 s :
  snd (qs_delete q1 (snd (qs_delete q2 s)))
  = snd (qs_delete q2 (snd (qs_delete q1 s))).
Proof.
  unfold qs_delete, db_write. cbn [snd settings set_settings].
  unfold set_settings. cbn. f_equal. apply filter_comm.
Qed.

Lemma qs_delete_twice q s :
  qs_delete q (snd (qs_delete q s)) = (inr tt, snd (qs_delete q s)).
Proof.
  unfold qs_delete, db_write. cbn [snd settings set_settings].
  unfold set_settings. cbn. f_equal. f_equal. apply filter_twice.
Qed.

(** X3. The bulk deletes compose freely: [remove_for_user],
    [remove_for_project] and [remove_for_organization] leave the same
    store in whatever order two of them run, and a second run of one of
    them right after the first deletes nothing more. *)
Theorem bulk_deletes_compose (user project_id organization_id : Z)
        (tu tp to : option NotificationSettingTypes.t) (s : Store) :
  let u := remove_for_user user tu in
  let p := remove_for_project project_id tp in
  let o := remove_for_organization organization_id to in
  snd (u (snd (p s))) = snd (p (snd (u s)))
  /\ snd (u (snd (o s))) = snd (o (snd (u s)))
  /\ snd (p (snd (o s))) = snd (o (snd (p s)))
  /\ u (snd (u s)) = (inr tt, snd (u s))
  /\ p (snd (p s)) = (inr tt, snd (p s))
  /\ o (snd (o s)) = (inr tt, snd (o s)).
Proof.
  intros u p o. subst u p o.
  unfold remove_for_user, remove_for_project, remove_for_organization.
  repeat split; first [apply qs_delete_comm | apply qs_delete_twice].
Qed.

(** *** The recipient of a read *)

(** X4. What [find_settings] returns, for any arguments.  It stops at its
    first assertion unless exactly one of [user_id] and [team_id] is
    true in a condition, and an id of zero is false like [None]; past
    it the outcome is the resolver's, an error or the query on the scope
    it gives and the one id.  The second assertion never fails. *)
Theorem find_settings_outcome (provider : ExternalProviders.t)
        (type : NotificationSettingTypes.t)
        (user_id team_id project organization : option Z) :
  find_settings provider type user_id team_id project organization
  = if xorb (truthy user_id) (truthy team_id)
    then match get_scope team_id user_id project organization with
         | inl e => inl e
         | inr (scope_type, scope_identifier) =>
             inr (_filter (Some provider) (Some type) (Some scope_type)
                    (Some scope_identifier)
                    (Some (if truthy user_id then {[default 0 user_id]} else ∅))
                    (Some (if truthy team_id then {[default 0 team_id]} else ∅)))
         end
    else inl (AssertionError "Can only get settings for team or user").
Proof.
  unfold find_settings, truthy.
  destruct user_id as [u|], team_id as [t|];
    try destruct (u =? 0) eqn:Hu; try destruct (t =? 0) eqn:Ht;
    cbn [negb xorb default from_option id];
    rewrite ?nonempty_singleton, ?nonempty_empty; cbn [negb andb orb];
    try reflexivity;
    destruct (get_scope _ _ project organization) as [e|[st sid]];
    try reflexivity;
    rewrite !union_empty_r_L, ?size_singleton, ?size_empty; reflexivity.
Qed.

(** *** The steps of [update_settings] *)

(** The ids [update_settings] goes on with, after a [user] object or an
    [actor] has been looked at. *)
Definition recipient_ids (user user_id team_id : option Z)
           (actor : option RpcActor.t) : option Z * option Z :=
  match user, actor with
  | Some u, _ => (Some u, team_id)
  | None, Some a =>
      if bool_decide (RpcActor.actor_type a = ActorType.USER)
      then (Some (RpcActor.id a), team_id)
      else (user_id, Some (RpcActor.id a))
  | None, None => (user_id, team_id)
  end.

Lemma update_settings_ids provider type value user user_id team_id
      project organization actor skip :
  update_settings provider type value user user_id team_id project organization
    actor skip
  = update_settings provider type value None
      (recipient_ids user user_id team_id actor).1
      (recipient_ids user user_id team_id actor).2
      project organization None skip.
Proof.
  unfold update_settings, recipient_ids.
  destruct user as [u|], actor as [a|];
    try destruct (bool_decide (RpcActor.actor_type a = ActorType.USER));
    reflexivity.
Qed.

Lemma user_id_of_user i : user_id_of (RpcActor.Build ActorType.USER i) = Some i.
Proof. reflexivity. Qed.

Lemma team_id_of_user i : team_id_of (RpcActor.Build ActorType.USER i) = None.
Proof. reflexivity. Qed.

Lemma user_id_of_team i : user_id_of (RpcActor.Build ActorType.TEAM i) = None.
Proof. reflexivity. Qed.

Lemma team_id_of_team i : team_id_of (RpcActor.Build ActorType.TEAM i) = Some i.
Proof. reflexivity. Qed.

(** The write to the setting records in the middle of [update_settings]:
    the delete for DEFAULT, the check of the value and the upsert
    otherwise. *)
Definition write_step (provider : ExternalProviders.t)
           (type : NotificationSettingTypes.t)
           (value : NotificationSettingOptionValues.t) (a : RpcActor.t)
           (project organization : option Z)
           (scope_type : NotificationScopeType.t) (scope_identifier : Z)
  : Db unit :=
  if bool_decide (value = NotificationSettingOptionValues.DEFAULT)
  then remove_settings provider type None (user_id_of a) (team_id_of a)
         project organization
  else
    if negb (validate type value)
    then db_raise (Exception_ "value '{value}' is not valid for type '{type}'")
    else _update_settings provider type value scope_type scope_identifier
           (user_id_of a) (team_id_of a).

(** The double write to the option table and the rebuild of the
    projection that end [update_settings]. *)
Definition double_write (type : NotificationSettingTypes.t)
           (value : NotificationSettingOptionValues.t)
           (scope_type : NotificationScopeType.t) (scope_identifier : Z)
           (user_id team_id : option Z) (skip : bool) : Db unit :=
  (type_name <~
     db_lift (subscript "NOTIFICATION_SETTING_TYPES"
                NOTIFICATION_SETTING_TYPES type) ;;
   scope_name <~
     db_lift (subscript "NOTIFICATION_SCOPE_TYPE"
                NOTIFICATION_SCOPE_TYPE scope_type) ;;
   (if bool_decide (value = NotificationSettingOptionValues.DEFAULT)
    then option_delete type_name scope_name scope_identifier user_id team_id
    else
      value_name <~
        db_lift (subscript "NOTIFICATION_SETTING_OPTION_VALUES"
                   NOTIFICATION_SETTING_OPTION_VALUES value) ;;
      option_create_or_update type_name scope_name scope_identifier
        user_id team_id value_name) ;;;
   if skip then db_ret tt
   else update_provider_settings user_id team_id)%db.

(** For one recipient whose scope the resolver gives, [update_settings]
    is: the event, the write to the setting records, the double write. *)
Lemma update_settings_steps provider type value a project organization skip
      scope_type scope_identifier s :
  get_scope (team_id_of a) (user_id_of a) project organization
  = inr (scope_type, scope_identifier) ->
  update_settings provider type value None (user_id_of a) (team_id_of a)
    project organization None skip s
  = (write_step provider type value a project organization
       scope_type scope_identifier ;;;
     double_write type value scope_type scope_identifier
       (user_id_of a) (team_id_of a) skip)%db
      (snd (record_event (updated_event a) s)).
Proof.
  intros Hscope. unfold update_settings, write_step, double_write, updated_event.
  destruct a as [[] i]; unfold user_id_of, team_id_of in *;
    cbn [RpcActor.actor_type RpcActor.id] in *.
  all: unfold db_bind at 1; unfold record_event at 1, db_write at 1.
  all: unfold db_bind at 1; unfold db_lift at 1; rewrite Hscope.
  all: reflexivity.
Qed.

(** The parts of the store each step leaves alone. *)

Lemma remove_settings_keeps provider type user user_id team_id
      project organization :
  keeps (fun s => (providers s, analytics s, next_pk s))
    (remove_settings provider type user user_id team_id project organization).
Proof.
  unfold remove_settings.
  apply keeps_bind; [apply keeps_lift|]. intros [st sid].
  apply keeps_bind; [apply keeps_lift|]. intros name.
  apply keeps_bind; [now apply keeps_write|]. intros _.
  apply keeps_bind; [apply keeps_lift|]. intros q.
  now apply keeps_write.
Qed.

Lemma _update_settings_keeps provider type value scope_type scope_identifier
      user_id team_id :
  keeps (fun s => (options s, providers s, analytics s))
    (_update_settings provider type value scope_type scope_identifier
       user_id team_id).
Proof.
  intros s. unfold _update_settings, db_bind, get_or_create.
  destruct (List.filter _ (settings s)) as [|r [|r' rest]]; try reflexivity.
  cbn [negb andb].
  destruct (bool_decide (NotificationSetting.value r = value)); reflexivity.
Qed.

Lemma write_step_keeps provider type value a project organization
      scope_type scope_identifier :
  keeps (fun s => (providers s, analytics s))
    (write_step provider type value a project organization
       scope_type scope_identifier).
Proof.
  unfold write_step. repeat case_match.
  - apply (keeps_proj (fun s => (providers s, analytics s, next_pk s))
             (fun '(p, e, _) => (p, e))).
    apply remove_settings_keeps.
  - apply keeps_raise.
  - apply (keeps_proj (fun s => (options s, providers s, analytics s))
             (fun '(_, p, e) => (p, e))).
    apply _update_settings_keeps.
Qed.

Lemma option_delete_keeps type_name scope_name scope_identifier user_id team_id :
  keeps (fun s => (settings s, next_pk s, providers s, analytics s))
    (option_delete type_name scope_name scope_identifier user_id team_id).
Proof. now apply keeps_write. Qed.

Lemma option_create_or_update_keeps type_name scope_name scope_identifier
      user_id team_id value_name :
  keeps (fun s => (settings s, next_pk s, providers s, analytics s))
    (option_create_or_update type_name scope_name scope_identifier
       user_id team_id value_name).
Proof.
  apply keeps_write. intros s. cbv zeta.
  destruct (existsb _ (options s)); reflexivity.
Qed.

Lemma double_write_keeps type value scope_type scope_identifier
      user_id team_id skip :
  keeps (fun s => (settings s, next_pk s, analytics s))
    (double_write type value scope_type scope_identifier user_id team_id skip).
Proof.
  unfold double_write.
  apply keeps_bind; [apply keeps_lift|]. intros type_name.
  apply keeps_bind; [apply keeps_lift|]. intros scope_name.
  apply keeps_bind.
  - case_match.
    + apply (keeps_proj (fun s => (settings s, next_pk s, providers s, analytics s))
               (fun '(st, pk, _, ev) => (st, pk, ev))).
      apply option_delete_keeps.
    + apply keeps_bind; [apply keeps_lift|]. intros value_name.
      apply (keeps_proj (fun s => (settings s, next_pk s, providers s, analytics s))
               (fun '(st, pk, _, ev) => (st, pk, ev))).
      apply option_create_or_update_keeps.
  - intros _. destruct skip; [apply keeps_ret|].
    apply (keeps_proj apart_from_providers
             (fun '(st, pk, _, ev) => (st, pk, ev))).
    apply update_provider_settings_keeps.
Qed.

(** *** The flag [skip_provider_updates] *)

(** Two computations leave the part [f] of the store the same. *)
Definition agree {X A B} (f : Store -> X) (m1 : Db A) (m2 : Db B) : Prop :=
  forall s, f (snd (m1 s)) = f (snd (m2 s)).

Lemma agree_bind {X A B C} (f : Store -> X) (m : Db A)
      (k1 : A -> Db B) (k2 : A -> Db C) :
  (forall a, agree f (k1 a) (k2 a)) -> agree f (db_bind m k1) (db_bind m k2).
Proof.
  intros Hk s. unfold db_bind. destruct (m s) as [[e|a] s1]; [reflexivity|].
  apply Hk.
Qed.

Lemma agree_refl {X A} (f : Store -> X) (m : Db A) : agree f m m.
Proof. now intros s. Qed.

Lemma double_write_skip type value scope_type scope_identifier user_id team_id :
  agree apart_from_providers
    (double_write type value scope_type scope_identifier user_id team_id true)
    (double_write type value scope_type scope_identifier user_id team_id false).
Proof.
  unfold double_write.
  apply agree_bind. intros type_name.
  apply agree_bind. intros scope_name.
  apply agree_bind. intros _. intros s.
  now rewrite update_provider_settings_keeps.
Qed.

Lemma double_write_skip_providers type value scope_type scope_identifier
      user_id team_id :
  keeps providers
    (double_write type value scope_type scope_identifier user_id team_id true).
Proof.
  unfold double_write.
  apply keeps_bind; [apply keeps_lift|]. intros type_name.
  apply keeps_bind; [apply keeps_lift|]. intros scope_name.
  apply keeps_bind; [|intros _; apply keeps_ret].
  case_match.
  - apply (keeps_proj (fun s => (settings s, next_pk s, providers s, analytics s))
             (fun '(_, _, p, _) => p)).
    apply option_delete_keeps.
  - apply keeps_bind; [apply keeps_lift|]. intros value_name.
    apply (keeps_proj (fun s => (settings s, next_pk s, providers s, analytics s))
             (fun '(_, _, p, _) => p)).
    apply option_create_or_update_keeps.
Qed.

(** [update_settings] from the write to the setting records on, for any
    ids: what follows the event and the resolver. *)
Definition after_scope (provider : ExternalProviders.t)
           (type : NotificationSettingTypes.t)
           (value : NotificationSettingOptionValues.t)
           (user_id team_id project organization : option Z)
           (actor_type : ActorType.t) (actor_id : Z)
           (scope_type : NotificationScopeType.t) (scope_identifier : Z)
           (skip : bool) : Db unit :=
  ((if bool_decide (value = NotificationSettingOptionValues.DEFAULT)
    then remove_settings provider type None user_id team_id project organization
    else
      if negb (validate type value)
      then db_raise (Exception_ "value '{value}' is not valid for type '{type}'")
      else
        if bool_decide (actor_type = ActorType.USER)
        then _update_settings provider type value scope_type scope_identifier
               (Some actor_id) None
        else _update_settings provider type value scope_type scope_identifier
               None (Some actor_id)) ;;;
   double_write type value scope_type scope_identifier user_id team_id skip)%db.

(** The actor [update_settings] settles on: the team when a team id is
    there, else the user. *)
Definition chosen_actor (user_id team_id : option Z) : option RpcActor.t :=
  match team_id, user_id with
  | Some t, _ => Some (RpcActor.Build ActorType.TEAM t)
  | None, Some u => Some (RpcActor.Build ActorType.USER u)
  | None, None => None
  end.

Lemma update_settings_unfold provider type value user_id team_id
      project organization skip :
  update_settings provider type value None user_id team_id project organization
    None skip
  = match chosen_actor user_id team_id with
    | None => db_raise (UnboundLocalError "actor_type")
    | Some a =>
        (record_event (updated_event a) ;;;
         scope <~ db_lift (get_scope team_id user_id project organization) ;;
         let '(scope_type, scope_identifier) := scope in
         after_scope provider type value user_id team_id project organization
           (RpcActor.actor_type a) (RpcActor.id a) scope_type scope_identifier
           skip)%db
    end.
Proof.
  unfold update_settings, chosen_actor, after_scope, double_write, updated_event.
  destruct team_id as [t|], user_id as [u|]; cbn [RpcActor.actor_type RpcActor.id];
    reflexivity.
Qed.

(** X5. The flag [skip_provider_updates] bears on the projection table
    and on nothing else.  Whatever the arguments and whether the call
    returns or raises: with the flag set [update_settings] leaves the
    projection table as it was, and the setting records, the option rows,
    the events and the next primary key come out the same with the flag
    set and without. *)
Theorem skip_provider_updates_only_projection (provider : ExternalProviders.t)
        (type : NotificationSettingTypes.t)
        (value : NotificationSettingOptionValues.t)
        (user user_id team_id project organization : option Z)
        (actor : option RpcActor.t) (s : Store) :
  let run skip :=
    snd (update_settings provider type value user user_id team_id
           project organization actor skip s) in
  providers (run true) = providers s
  /\ settings (run true) = settings (run false)
  /\ options (run true) = options (run false)
  /\ analytics (run true) = analytics (run false)
  /\ next_pk (run true) = next_pk (run false).
Proof.
  intros run. subst run. cbv beta.
  rewrite (update_settings_ids provider type value user user_id team_id
             project organization actor true),
    (update_settings_ids provider type value user user_id team_id
       project organization actor false).
  destruct (recipient_ids user user_id team_id actor) as [uid tid]. cbn [fst snd].
  rewrite !update_settings_unfold.
  destruct (chosen_actor uid tid) as [a|]; [|now repeat split].
  split.
  - apply (keeps_bind providers); [now apply keeps_write|]. intros _.
    apply keeps_bind; [apply keeps_lift|]. intros [st sid].
    unfold after_scope. apply keeps_bind; [|intros _; apply double_write_skip_providers].
    repeat case_match.
    + apply (keeps_proj (fun s => (providers s, analytics s, next_pk s))
               (fun '(p, _, _) => p)).
      apply remove_settings_keeps.
    + apply keeps_raise.
    + apply (keeps_proj (fun s => (options s, providers s, analytics s))
               (fun '(_, p, _) => p)).
      apply _update_settings_keeps.
    + apply (keeps_proj (fun s => (options s, providers s, analytics s))
               (fun '(_, p, _) => p)).
      apply _update_settings_keeps.
  - assert (H : agree apart_from_providers
                  (record_event (updated_event a) ;;;
                   scope <~ db_lift (get_scope tid uid project organization) ;;
                   let '(scope_type, scope_identifier) := scope in
                   after_scope provider type value uid tid project organization
                     (RpcActor.actor_type a) (RpcActor.id a)
                     scope_type scope_identifier true)%db
                  (record_event (updated_event a) ;;;
                   scope <~ db_lift (get_scope tid uid project organization) ;;
                   let '(scope_type, scope_identifier) := scope in
                   after_scope provider type value uid tid project organization
                     (RpcActor.actor_type a) (RpcActor.id a)
                     scope_type scope_identifier false)%db).
    { apply agree_bind. intros _. apply agree_bind. intros [st sid].
      unfold after_scope. apply agree_bind. intros _. apply double_write_skip. }
    specialize (H s). unfold apart_from_providers in H.
    injection H as H1 H2 H3 H4. now repeat split.
Qed.

(** The recipient a call of [update_settings] is about: [user] comes
    before [actor], either of them before the ids, and a team id before
    a user id. *)
Definition recipient (user user_id team_id : option Z)
           (actor : option RpcActor.t) : option RpcActor.t :=
  chosen_actor (recipient_ids user user_id team_id actor).1
               (recipient_ids user user_id team_id actor).2.

(** X6. [update_settings] records its event first.  For any arguments
    that name a recipient, the events after the call are those before
    and the one event "notifications.settings_updated" for the recipient
    it has settled on, whether the call then returns or raises: a call
    that is rejected by the resolver or for an invalid value, or that
    fails on a missing table entry, has recorded the event as well.
    With no recipient at all it raises before anything is recorded. *)
Theorem update_settings_records_first (provider : ExternalProviders.t)
        (type : NotificationSettingTypes.t)
        (value : NotificationSettingOptionValues.t)
        (user user_id team_id project organization : option Z)
        (actor : option RpcActor.t) (skip : bool) (s : Store) :
  let run :=
    update_settings provider type value user user_id team_id
      project organization actor skip s in
  match recipient user user_id team_id actor with
  | Some a => analytics (snd run) = (analytics s ++ [updated_event a])%list
  | None => run = (inl (UnboundLocalError "actor_type"), s)
  end.
Proof.
  intros run. subst run. unfold recipient.
  rewrite update_settings_ids.
  destruct (recipient_ids user user_id team_id actor) as [uid tid]. cbn [fst snd].
  rewrite update_settings_unfold.
  destruct (chosen_actor uid tid) as [a|]; [|reflexivity].
  rewrite keeps_after; [reflexivity|]. intros _.
  apply keeps_bind; [apply keeps_lift|]. intros [st sid].
  unfold after_scope. apply keeps_bind.
  - repeat case_match.
    + apply (keeps_proj (fun s => (providers s, analytics s, next_pk s))
               (fun '(_, e, _) => e)).
      apply remove_settings_keeps.
    + apply keeps_raise.
    + apply (keeps_proj (fun s => (options s, providers s, analytics s))
               (fun '(_, _, e) => e)).
      apply _update_settings_keeps.
    + apply (keeps_proj (fun s => (options s, providers s, analytics s))
               (fun '(_, _, e) => e)).
      apply _update_settings_keeps.
  - intros _.
    apply (keeps_proj (fun s => (settings s, next_pk s, analytics s))
             (fun '(_, _, e) => e)).
    apply double_write_keeps.
Qed.

(** *** The invariants under every write of the manager *)

Lemma remove_settings_keeps_ok provider type user user_id team_id
      project organization :
  keeps_ok (remove_settings provider type user user_id team_id
              project organization).
Proof.
  unfold remove_settings.
  apply keeps_ok_bind; [now apply keeps_ok_of_keeps, keeps_lift|].
  intros [st sid].
  apply keeps_ok_bind; [now apply keeps_ok_of_keeps, keeps_lift|]. intros name.
  apply keeps_ok_bind; [now apply keeps_ok_of_keeps, keeps_write|]. intros _.
  apply keeps_ok_bind; [now apply keeps_ok_of_keeps, keeps_lift|]. intros q.
  apply qs_delete_keeps_ok.
Qed.

Lemma update_settings_keeps_ok_any provider type value user user_id team_id
      project organization actor skip :
  keeps_ok (update_settings provider type value user user_id team_id
              project organization actor skip).
Proof.
  rewrite update_settings_ids.
  destruct (recipient_ids user user_id team_id actor) as [[u|] [t|]];
    cbn [fst snd].
  - intros s Hok. exact Hok.
  - exact (update_settings_keeps_ok provider type value
             (RpcActor.Build ActorType.USER u) project organization skip).
  - exact (update_settings_keeps_ok provider type value
             (RpcActor.Build ActorType.TEAM t) project organization skip).
  - intros s Hok. exact Hok.
Qed.


(** *** Deleting the setting of one recipient *)

Lemma remove_settings_no_scope_name provider type a project organization
      scope_type scope_identifier s :
  get_scope (team_id_of a) (user_id_of a) project organization
  = inr (scope_type, scope_identifier) ->
  dict_get NOTIFICATION_SCOPE_TYPE scope_type = None ->
  remove_settings provider type None (user_id_of a) (team_id_of a)
    project organization s
  = (inl (KeyError "NOTIFICATION_SCOPE_TYPE"), s).
Proof.
  intros Hscope Hname. unfold remove_settings, db_bind, db_lift, subscript.
  now rewrite Hscope, Hname.
Qed.

(** X8. [remove_settings] for a recipient with an id other than zero, at
    a scope with an identifier other than zero whose type has a name:
    it returns, the setting records under the key (provider, alert type,
    scope, recipient) are deleted and no other, the option rows of the
    scope and the recipient stored under the type as the lookup writes it
    are deleted and no other, and the projection table, the events and
    the next primary key are as before: the projection is not rebuilt
    here. *)
Theorem remove_settings_exact (provider : ExternalProviders.t)
        (type : NotificationSettingTypes.t) (a : RpcActor.t)
        (project organization : option Z)
        (scope_type : NotificationScopeType.t) (scope_identifier : Z)
        (scope_name : string) (s : Store) :
  RpcActor.id a <> 0 ->
  get_scope (team_id_of a) (user_id_of a) project organization
  = inr (scope_type, scope_identifier) ->
  scope_identifier <> 0 ->
  dict_get NOTIFICATION_SCOPE_TYPE scope_type = Some scope_name ->
  let s' :=
    snd (remove_settings provider type None (user_id_of a) (team_id_of a)
           project organization s) in
  remove_settings provider type None (user_id_of a) (team_id_of a)
    project organization s = (inr tt, s')
  /\ settings s'
     = List.filter
         (fun r => negb (key_record provider type scope_type scope_identifier a r))
         (settings s)
  /\ options s'
     = List.filter
         (fun r => negb (option_key (str_of_type type) scope_name
                           scope_identifier (user_id_of a) (team_id_of a) r))
         (options s)
  /\ providers s' = providers s
  /\ analytics s' = analytics s
  /\ next_pk s' = next_pk s.
Proof.
  intros Hnz Hscope Hsid Hname s'.
  assert (Hrun :
    remove_settings provider type None (user_id_of a) (team_id_of a)
      project organization s
    = (inr tt,
       set_settings
         (List.filter
            (fun r => negb (matches (recipient_query provider type scope_type
                                       scope_identifier a) r))
            (settings s))
         (set_options
            (List.filter
               (fun r => negb (option_key (str_of_type type) scope_name
                                 scope_identifier (user_id_of a)
                                 (team_id_of a) r))
               (options s)) s))).
  { unfold remove_settings.
    unfold db_bind at 1. unfold db_lift at 1. rewrite Hscope.
    unfold db_bind at 1. unfold db_lift at 1, subscript. rewrite Hname.
    unfold db_bind at 1. unfold option_delete at 1, db_write at 1.
    unfold db_bind at 1. unfold db_lift at 1.
    rewrite (find_settings_single provider type a project organization
               scope_type scope_identifier Hnz Hscope).
    reflexivity. }
  subst s'. rewrite Hrun. cbn [snd settings options set_settings set_options
                                 providers analytics next_pk].
  split; [reflexivity|]. split; [|now repeat split].
  apply filter_ext_eq. intros r. now rewrite recipient_query_key.
Qed.

(** *** The upsert and the other records *)

Lemma key_record_with_value provider type scope_type scope_identifier a v r :
  key_record provider type scope_type scope_identifier a
    (NotificationSetting.with_value v r)
  = key_record provider type scope_type scope_identifier a r.
Proof. unfold key_record, owned_by. now destruct (RpcActor.actor_type a). Qed.

(** A record of the six key columns is a record of the key. *)
Lemma same_key_key_record provider type scope_type scope_identifier a r :
  same_key (ExternalProviders.value provider) (NotificationSettingTypes.value type)
    scope_type scope_identifier (user_id_of a) (team_id_of a) r = true ->
  key_record provider type scope_type scope_identifier a r = true.
Proof.
  unfold same_key, key_record, owned_by, user_id_of, team_id_of.
  rewrite !andb_true_iff. intros [[[[[Hp Ht] Hst] Hsid] Hu] Hteam].
  repeat split; try assumption. now destruct (RpcActor.actor_type a).
Qed.

Lemma filter_none {A} (f : A -> bool) (l : list A) :
  (forall x, In x l -> f x = false) -> List.filter f l = [].
Proof.
  induction l as [|x l IH]; intros H; [reflexivity|]. cbn [List.filter].
  rewrite (H x (or_introl eq_refl)). apply IH. intros y Hy. apply H. now right.
Qed.

Lemma map_id_in {A} (f : A -> A) (l : list A) :
  (forall x, In x l -> f x = x) -> map f l = l.
Proof.
  induction l as [|x l IH]; intros H; [reflexivity|]. cbn [map].
  rewrite (H x (or_introl eq_refl)). f_equal. apply IH. intros y Hy.
  apply H. now right.
Qed.

(** The upsert leaves the records outside the six key columns as they
    are, when the primary keys of the table differ.  [G] is a property
    of the rows of the table that the row the upsert may insert has as
    well. *)
Lemma _update_settings_elsewhere provider type value scope_type scope_identifier
      user_id team_id (G : NotificationSetting.t -> Prop)
      (p : NotificationSetting.t -> bool) s :
  (forall x, In x (settings s) -> G x) ->
  (forall pk v, G (NotificationSetting.Build pk (ExternalProviders.value provider)
                     (NotificationSettingTypes.value type) scope_type
                     scope_identifier user_id team_id v)) ->
  (forall x v, p (NotificationSetting.with_value v x) = p x) ->
  (forall x, G x ->
             same_key (ExternalProviders.value provider)
               (NotificationSettingTypes.value type) scope_type scope_identifier
               user_id team_id x = true -> p x = false) ->
  NoDup (map NotificationSetting.id (settings s)) ->
  List.filter p
    (settings (snd (_update_settings provider type value scope_type
                      scope_identifier user_id team_id s)))
  = List.filter p (settings s).
Proof.
  intros HG Hnew Hval Hapart Hpk. unfold _update_settings, db_bind, get_or_create.
  set (key := same_key _ _ scope_type scope_identifier user_id team_id) in *.
  destruct (List.filter key (settings s)) as [|r [|r' rest]] eqn:Hrows;
    [| |reflexivity].
  - cbn [negb andb snd settings db_ret]. rewrite List.filter_app.
    cbn [List.filter].
    rewrite Hapart by (try apply Hnew; subst key; apply same_key_new).
    apply app_nil_r.
  - cbn [negb andb].
    destruct (bool_decide (NotificationSetting.value r = value));
      cbn [negb snd db_ret]; [reflexivity|].
    unfold update_value, db_write. cbn [snd settings set_settings].
    assert (Hr : In r (settings s) /\ key r = true).
    { apply List.filter_In. rewrite Hrows. now left. }
    destruct Hr as [Hin Hkey].
    rewrite filter_map_same by (intros x; now destruct (_ =? _)).
    apply map_id_in. intros x Hx. apply List.filter_In in Hx as [Hx Hpx].
    destruct (NotificationSetting.id x =? NotificationSetting.id r) eqn:Hid;
      [|reflexivity].
    apply Z.eqb_eq in Hid.
    assert (x = r)
      by exact (NoDup_map_inj NotificationSetting.id (settings s) x r
                  Hpk Hx Hin Hid).
    subst x. rewrite (Hapart r (HG r Hin) Hkey) in Hpx. discriminate.
Qed.

Lemma filter_after_delete {A} (p k : A -> bool) (l : list A) :
  (forall x, In x l -> k x = true -> p x = false) ->
  List.filter p (List.filter (fun x => negb (k x)) l) = List.filter p l.
Proof.
  intros H. rewrite filter_filter_andb. apply List.filter_ext_in. intros x Hx.
  destruct (k x) eqn:Hk; [|reflexivity]. cbn [negb andb].
  symmetry. now apply H.
Qed.

(** The write to the setting records of [update_settings] leaves the
    records outside the key as they are. *)
Lemma write_step_elsewhere provider type value a project organization
      scope_type scope_identifier (G : NotificationSetting.t -> Prop)
      (p : NotificationSetting.t -> bool) s :
  RpcActor.id a <> 0 ->
  get_scope (team_id_of a) (user_id_of a) project organization
  = inr (scope_type, scope_identifier) ->
  scope_identifier <> 0 ->
  NoDup (map NotificationSetting.id (settings s)) ->
  (forall x, In x (settings s) -> G x) ->
  (forall pk v, G (NotificationSetting.Build pk (ExternalProviders.value provider)
                     (NotificationSettingTypes.value type) scope_type
                     scope_identifier (user_id_of a) (team_id_of a) v)) ->
  (forall x v, p (NotificationSetting.with_value v x) = p x) ->
  (forall x, G x ->
             key_record provider type scope_type scope_identifier a x = true ->
             p x = false) ->
  List.filter p
    (settings (snd (write_step provider type value a project organization
                      scope_type scope_identifier s)))
  = List.filter p (settings s).
Proof.
  intros Hnz Hscope Hsid Hpk HG Hnew Hval Hapart. unfold write_step.
  destruct (bool_decide (value = NotificationSettingOptionValues.DEFAULT)).
  - destruct (dict_get NOTIFICATION_SCOPE_TYPE scope_type) as [name|] eqn:Hname.
    + destruct (remove_settings_single provider type a project organization
                  scope_type scope_identifier name s Hnz Hscope Hname)
        as (s1 & Hrun & Hset & _).
      rewrite Hrun. cbn [snd]. rewrite Hset.
      apply filter_after_delete. intros x Hin Hx. apply Hapart; [now apply HG|].
      now rewrite <- recipient_query_key.
    + now rewrite (remove_settings_no_scope_name provider type a project
                     organization scope_type scope_identifier s Hscope Hname).
  - destruct (validate type value); cbn [negb]; [|reflexivity].
    apply (_update_settings_elsewhere provider type value scope_type
             scope_identifier (user_id_of a) (team_id_of a) G p s HG Hnew Hval);
      [|exact Hpk].
    intros x Hg Hx. apply Hapart; [exact Hg|]. now apply same_key_key_record.
Qed.

(** The setting records after [update_settings] are those its write
    step leaves. *)
Lemma update_settings_settings provider type value a project organization skip
      scope_type scope_identifier s :
  get_scope (team_id_of a) (user_id_of a) project organization
  = inr (scope_type, scope_identifier) ->
  settings (snd (update_settings provider type value None (user_id_of a)
                   (team_id_of a) project organization None skip s))
  = settings (snd (write_step provider type value a project organization
                     scope_type scope_identifier
                     (snd (record_event (updated_event a) s)))).
Proof.
  intros Hscope.
  rewrite (update_settings_steps provider type value a project organization
             skip scope_type scope_identifier s Hscope).
  apply (keeps_after settings). intros _.
  apply (keeps_proj (fun s => (settings s, next_pk s, analytics s))
           (fun '(st, _, _) => st)).
  apply double_write_keeps.
Qed.

(** X9. [update_settings] for one recipient writes under its key only.
    On a table whose primary keys differ, for a recipient with an id
    other than zero and a scope identifier other than zero, the setting
    records outside the key (another provider, alert type, scope or
    recipient) are after the call what they were before, each with its
    value, in the same order, whatever the value written and whether the
    call returns or raises. *)
Theorem update_settings_other_records (provider : ExternalProviders.t)
        (type : NotificationSettingTypes.t)
        (value : NotificationSettingOptionValues.t) (a : RpcActor.t)
        (project organization : option Z) (skip : bool)
        (scope_type : NotificationScopeType.t) (scope_identifier : Z)
        (s : Store) :
  RpcActor.id a <> 0 ->
  get_scope (team_id_of a) (user_id_of a) project organization
  = inr (scope_type, scope_identifier) ->
  scope_identifier <> 0 ->
  NoDup (map NotificationSetting.id (settings s)) ->
  let s' :=
    snd (update_settings provider type value None (user_id_of a) (team_id_of a)
           project organization None skip s) in
  List.filter
    (fun r => negb (key_record provider type scope_type scope_identifier a r))
    (settings s')
  = List.filter
      (fun r => negb (key_record provider type scope_type scope_identifier a r))
      (settings s).
Proof.
  intros Hnz Hscope Hsid Hpk s'. subst s'.
  rewrite (update_settings_settings provider type value a project organization
             skip scope_type scope_identifier s Hscope).
  apply (write_step_elsewhere provider type value a project organization
           scope_type scope_identifier (fun _ => True)
           (fun r => negb (key_record provider type scope_type
                             scope_identifier a r))
           (snd (record_event (updated_event a) s)) Hnz Hscope Hsid Hpk).
  - trivial.
  - trivial.
  - intros x v. now rewrite key_record_with_value.
  - intros x _ Hx. now rewrite Hx.
Qed.

(** *** Reading back what was written *)

(** Every record has at most one owner column set: the records the
    manager writes are a user's or a team's. *)
Definition one_owner (l : list NotificationSetting.t) : bool :=
  forallb (fun r => bool_decide (NotificationSetting.user_id r = None)
                    || bool_decide (NotificationSetting.team_id r = None)) l.

Lemma one_owner_row l r :
  one_owner l = true -> In r l ->
  NotificationSetting.user_id r = None \/ NotificationSetting.team_id r = None.
Proof.
  unfold one_owner. rewrite forallb_forall. intros H Hin.
  specialize (H r Hin). apply orb_true_iff in H.
  rewrite !bool_decide_eq_true in H. exact H.
Qed.

(** On a record with one owner the key of the read and the six key
    columns of the upsert are the same thing. *)
Lemma key_record_same_key provider type scope_type scope_identifier a r :
  NotificationSetting.user_id r = None \/ NotificationSetting.team_id r = None ->
  key_record provider type scope_type scope_identifier a r
  = same_key (ExternalProviders.value provider)
      (NotificationSettingTypes.value type) scope_type scope_identifier
      (user_id_of a) (team_id_of a) r.
Proof.
  intros Hone. apply eq_true_iff_eq.
  unfold key_record, same_key, owned_by, user_id_of, team_id_of.
  rewrite !andb_true_iff.
  destruct (RpcActor.actor_type a); rewrite !bool_decide_eq_true; split.
  - intros [H Hu]. repeat split; try apply H; try exact Hu.
    destruct Hone as [Hn | Hn]; [congruence | exact Hn].
  - intros [[H Hu] Ht]. split; [exact H | exact Hu].
  - intros [H Ht]. repeat split; try apply H; try exact Ht.
    destruct Hone as [Hn | Hn]; [exact Hn | congruence].
  - intros [[H Hu] Ht]. split; [exact H | exact Ht].
Qed.

Lemma unique_keys_one provider type scope_type scope_identifier user_id team_id l :
  unique_keys l = true ->
  (length (List.filter
             (same_key provider type scope_type scope_identifier user_id team_id)
             l) <= 1)%nat.
Proof.
  unfold unique_keys. intros H. apply bool_decide_eq_true in H.
  induction l as [|x l IH]; cbn [List.filter]; [simpl; lia|].
  cbn [map] in H. apply NoDup_cons in H as [Hx Hl].
  destruct (same_key provider type scope_type scope_identifier user_id team_id x)
    eqn:Hk; [|now apply IH].
  rewrite filter_none; [simpl; lia|]. intros y Hy.
  destruct (same_key provider type scope_type scope_identifier user_id team_id y)
    eqn:Hky; [|reflexivity].
  exfalso. apply Hx. apply same_key_columns in Hk, Hky.
  rewrite list_elem_of_In. apply in_map_iff. exists y.
  split; [congruence | exact Hy].
Qed.

Lemma _update_settings_one_owner provider type value scope_type scope_identifier
      user_id team_id s :
  user_id = None \/ team_id = None ->
  one_owner (settings s) = true ->
  one_owner (settings (snd (_update_settings provider type value scope_type
                              scope_identifier user_id team_id s))) = true.
Proof.
  intros Hone Hs. unfold _update_settings, db_bind, get_or_create.
  destruct (List.filter _ (settings s)) as [|r [|r' rest]]; [| |exact Hs].
  - cbn [negb andb snd settings db_ret]. unfold one_owner in *.
    rewrite forallb_app, Hs.
    cbn [forallb andb NotificationSetting.user_id NotificationSetting.team_id].
    rewrite andb_true_r.
    destruct Hone as [-> | ->].
    + now rewrite (bool_decide_eq_true_2 (None = None)).
    + rewrite (bool_decide_eq_true_2 (None = None)) by reflexivity.
      apply orb_true_r.
  - cbn [negb andb].
    destruct (bool_decide (NotificationSetting.value r = value));
      cbn [negb snd db_ret]; [exact Hs|].
    unfold update_value, db_write. cbn [snd settings set_settings].
    unfold one_owner in *. rewrite forallb_forall in *.
    intros x Hx. apply in_map_iff in Hx as (y & <- & Hy).
    destruct (_ =? _); apply (Hs y Hy).
Qed.

Lemma one_owner_of a : user_id_of a = None \/ team_id_of a = None.
Proof. destruct a as [[] i]; [now right | now left]. Qed.

(** X10. What [update_settings] writes, [get_settings] reads back.  On
    a table with unique keys and one owner per record, for a recipient
    with an id other than zero, a scope identifier other than zero and a
    valid value other than DEFAULT: after [update_settings], whether its
    double write and its rebuild return or raise, [get_settings] for the
    same provider, alert type, recipient and scope returns the value
    written. *)
Theorem update_then_get (provider : ExternalProviders.t)
        (type : NotificationSettingTypes.t)
        (value : NotificationSettingOptionValues.t) (a : RpcActor.t)
        (project organization : option Z) (skip : bool)
        (scope_type : NotificationScopeType.t) (scope_identifier : Z)
        (s : Store) :
  RpcActor.id a <> 0 ->
  get_scope (team_id_of a) (user_id_of a) project organization
  = inr (scope_type, scope_identifier) ->
  scope_identifier <> 0 ->
  value <> NotificationSettingOptionValues.DEFAULT ->
  validate type value = true ->
  unique_keys (settings s) = true ->
  one_owner (settings s) = true ->
  let s' :=
    snd (update_settings provider type value None (user_id_of a) (team_id_of a)
           project organization None skip s) in
  get_settings provider type (user_id_of a) (team_id_of a) project organization s'
  = (inr value, s').
Proof.
  intros Hnz Hscope Hsid Hnd Hval Huniq Hown s'.
  assert (Hset : settings s'
                 = settings (snd (_update_settings provider type value scope_type
                                    scope_identifier (user_id_of a) (team_id_of a)
                                    (snd (record_event (updated_event a) s))))).
  { subst s'.
    rewrite (update_settings_settings provider type value a project organization
               skip scope_type scope_identifier s Hscope).
    unfold write_step. rewrite (bool_decide_eq_false_2 _ Hnd), Hval.
    reflexivity. }
  set (s0 := snd (record_event (updated_event a) s)) in *.
  assert (Hone : (length (List.filter
                            (same_key (ExternalProviders.value provider)
                               (NotificationSettingTypes.value type) scope_type
                               scope_identifier (user_id_of a) (team_id_of a))
                            (settings s0)) <= 1)%nat)
    by (apply unique_keys_one; exact Huniq).
  pose proof (_update_settings_one_owner provider type value scope_type
                scope_identifier (user_id_of a) (team_id_of a) s0
                (one_owner_of a) Hown) as Hown1.
  destruct (_update_settings_once provider type value scope_type scope_identifier
              (user_id_of a) (team_id_of a) s0 Hone)
    as (s1 & r & Hrun & Hrows & Hv & _).
  rewrite Hrun in Hset, Hown1. cbn [snd] in Hset, Hown1.
  unfold get_settings.
  rewrite (find_settings_single provider type a project organization
             scope_type scope_identifier Hnz Hscope).
  unfold db_bind, db_lift, qs_list, db_read.
  rewrite (filter_ext_eq
             (matches (recipient_query provider type scope_type
                         scope_identifier a))
             (key_record provider type scope_type scope_identifier a))
    by (intros x; now apply recipient_query_key).
  rewrite Hset.
  rewrite (List.filter_ext_in
             (key_record provider type scope_type scope_identifier a)
             (same_key (ExternalProviders.value provider)
                (NotificationSettingTypes.value type) scope_type
                scope_identifier (user_id_of a) (team_id_of a)))
    by (intros x Hx; apply key_record_same_key;
        exact (one_owner_row _ x Hown1 Hx)).
  rewrite Hrows. cbn [firstn]. now rewrite Hv.
Qed.

Lemma provider_value_inj (p q : ExternalProviders.t) :
  ExternalProviders.value p = ExternalProviders.value q -> p = q.
Proof. destruct p, q. cbn. now intros ->. Qed.

Lemma type_value_inj (p q : NotificationSettingTypes.t) :
  NotificationSettingTypes.value p = NotificationSettingTypes.value q -> p = q.
Proof. destruct p, q. cbn. now intros ->. Qed.

(** A record with one owner is under one key at most. *)
Lemma key_record_apart provider type scope_type scope_identifier a
      provider' type' scope_type' scope_identifier' a' r :
  NotificationSetting.user_id r = None \/ NotificationSetting.team_id r = None ->
  (provider', type', scope_type', scope_identifier', a')
  <> (provider, type, scope_type, scope_identifier, a) ->
  key_record provider type scope_type scope_identifier a r = true ->
  key_record provider' type' scope_type' scope_identifier' a' r = false.
Proof.
  intros Hone Hne H.
  destruct (key_record provider' type' scope_type' scope_identifier' a' r)
    eqn:H'; [|reflexivity].
  exfalso. apply Hne. unfold key_record, owned_by in H, H'.
  rewrite !andb_true_iff in H, H'.
  destruct H as [[[[Hp Ht] Hst] Hsid] Ho], H' as [[[[Hp' Ht'] Hst'] Hsid'] Ho'].
  apply Z.eqb_eq in Hp, Ht, Hsid, Hp', Ht', Hsid'.
  apply bool_decide_eq_true in Hst, Hst'.
  assert (provider' = provider) by (apply provider_value_inj; congruence).
  assert (type' = type) by (apply type_value_inj; congruence).
  assert (a' = a).
  { destruct a as [[] i], a' as [[] i'];
      cbn [RpcActor.actor_type RpcActor.id] in Ho, Ho';
      apply bool_decide_eq_true in Ho, Ho';
      try (f_equal; congruence);
      destruct Hone; congruence. }
  subst. repeat f_equal; congruence.
Qed.

(** X11. An update under one key does not change what is read under
    another.  On a table whose primary keys differ and whose records have
    one owner each, for two recipients with ids other than zero and two
    scope identifiers other than zero: when the two keys (provider, alert
    type, scope, recipient) differ in some part, [get_settings] under the
    second key returns after [update_settings] under the first what it
    returned before, whatever the value written, DEFAULT included, and
    whether the update returns or raises. *)
Theorem update_leaves_other_keys (provider : ExternalProviders.t)
        (type : NotificationSettingTypes.t)
        (value : NotificationSettingOptionValues.t) (a : RpcActor.t)
        (project organization : option Z) (skip : bool)
        (scope_type : NotificationScopeType.t) (scope_identifier : Z)
        (provider' : ExternalProviders.t) (type' : NotificationSettingTypes.t)
        (a' : RpcActor.t) (project' organization' : option Z)
        (scope_type' : NotificationScopeType.t) (scope_identifier' : Z)
        (s : Store) :
  RpcActor.id a <> 0 ->
  get_scope (team_id_of a) (user_id_of a) project organization
  = inr (scope_type, scope_identifier) ->
  scope_identifier <> 0 ->
  RpcActor.id a' <> 0 ->
  get_scope (team_id_of a') (user_id_of a') project' organization'
  = inr (scope_type', scope_identifier') ->
  scope_identifier' <> 0 ->
  (provider', type', scope_type', scope_identifier', a')
  <> (provider, type, scope_type, scope_identifier, a) ->
  NoDup (map NotificationSetting.id (settings s)) ->
  one_owner (settings s) = true ->
  let s' :=
    snd (update_settings provider type value None (user_id_of a) (team_id_of a)
           project organization None skip s) in
  fst (get_settings provider' type' (user_id_of a') (team_id_of a')
         project' organization' s')
  = fst (get_settings provider' type' (user_id_of a') (team_id_of a')
           project' organization' s).
Proof.
  intros Hnz Hscope Hsid Hnz' Hscope' Hsid' Hne Hpk Hown s'.
  assert (Hrows : List.filter
                    (key_record provider' type' scope_type' scope_identifier' a')
                    (settings s')
                  = List.filter
                      (key_record provider' type' scope_type' scope_identifier' a')
                      (settings s)).
  { subst s'.
    rewrite (update_settings_settings provider type value a project organization
               skip scope_type scope_identifier s Hscope).
    apply (write_step_elsewhere provider type value a project organization
             scope_type scope_identifier
             (fun r => NotificationSetting.user_id r = None
                       \/ NotificationSetting.team_id r = None)
             (key_record provider' type' scope_type' scope_identifier' a')
             (snd (record_event (updated_event a) s)) Hnz Hscope Hsid Hpk).
    - intros x Hx. exact (one_owner_row _ x Hown Hx).
    - intros pk v. exact (one_owner_of a).
    - intros x v. apply key_record_with_value.
    - intros x Hx Hk.
      exact (key_record_apart provider type scope_type scope_identifier a
               provider' type' scope_type' scope_identifier' a' x Hx Hne Hk). }
  unfold get_settings.
  rewrite (find_settings_single provider' type' a' project' organization'
             scope_type' scope_identifier' Hnz' Hscope').
  unfold db_bind, db_lift, qs_list, db_read.
  rewrite !(filter_ext_eq
              (matches (recipient_query provider' type' scope_type'
                          scope_identifier' a'))
              (key_record provider' type' scope_type' scope_identifier' a'))
    by (intros x; now apply recipient_query_key).
  rewrite Hrows.
  destruct (List.filter _ (settings s)) as [|r rest]; reflexivity.
Qed.

(** *** The double write *)

Lemma option_key_with_value tn sn sid uid tid v r :
  option_key tn sn sid uid tid (NotificationSettingOption.with_value v r)
  = option_key tn sn sid uid tid r.
Proof. reflexivity. Qed.

Lemma option_key_new tn sn sid uid tid v :
  option_key tn sn sid uid tid
    (NotificationSettingOption.Build tn sn sid uid tid v) = true.
Proof.
  unfold option_key. cbn. now rewrite !bool_decide_eq_true_2, Z.eqb_refl.
Qed.

(** After the upsert of an option row the rows of the key hold the
    value, there is one, and the other rows are as before. *)
Lemma option_upsert_spec tn sn sid uid tid v s :
  let rows :=
    List.filter (option_key tn sn sid uid tid)
      (options (snd (option_create_or_update tn sn sid uid tid v s))) in
  rows <> []
  /\ (forall row, In row rows -> NotificationSettingOption.value row = v)
  /\ List.filter (fun r => negb (option_key tn sn sid uid tid r))
       (options (snd (option_create_or_update tn sn sid uid tid v s)))
     = List.filter (fun r => negb (option_key tn sn sid uid tid r)) (options s).
Proof.
  unfold option_create_or_update, db_write. cbn [snd]. cbv zeta.
  destruct (existsb (option_key tn sn sid uid tid) (options s)) eqn:Hex;
    cbn [options set_options].
  - apply existsb_exists in Hex as (row & Hin & Hrow). split; [|split].
    + intros Hnil.
      assert (Hin' : In (NotificationSettingOption.with_value v row)
                        (List.filter (option_key tn sn sid uid tid)
                           (map (fun r => if option_key tn sn sid uid tid r
                                          then NotificationSettingOption.with_value v r
                                          else r) (options s)))).
      { apply List.filter_In. split.
        - apply in_map_iff. exists row. now rewrite Hrow.
        - now rewrite option_key_with_value. }
      now rewrite Hnil in Hin'.
    + intros row' Hin'. apply List.filter_In in Hin' as [Hin' Hm].
      apply in_map_iff in Hin' as (r0 & Heq & _).
      destruct (option_key tn sn sid uid tid r0) eqn:H0; subst row';
        [reflexivity | congruence].
    + clear Hin. induction (options s) as [|r l IH]; [reflexivity|].
      cbn [map List.filter].
      destruct (option_key tn sn sid uid tid r) eqn:Hr.
      * rewrite option_key_with_value, Hr. cbn [negb]. exact IH.
      * rewrite Hr. cbn [negb]. now rewrite IH.
  - assert (Hnone : List.filter (option_key tn sn sid uid tid) (options s) = []).
    { apply filter_none. intros x Hx.
      destruct (option_key tn sn sid uid tid x) eqn:Hk; [|reflexivity].
      assert (existsb (option_key tn sn sid uid tid) (options s) = true)
        by (apply existsb_exists; eauto).
      congruence. }
    rewrite !List.filter_app. cbn [List.filter].
    rewrite option_key_new, Hnone. cbn [negb app]. split; [discriminate|].
    split; [|apply app_nil_r].
    intros row' [<- | []]. reflexivity.
Qed.

Lemma last_step_options (skip : bool) user_id team_id s :
  options (snd ((if skip then db_ret tt
                 else update_provider_settings user_id team_id) s))
  = options s.
Proof.
  destruct skip; [reflexivity|].
  pose proof (update_provider_settings_keeps user_id team_id s) as H.
  unfold apart_from_providers in H. now inversion H.
Qed.

(** X12. The double write keeps the option table in step with the
    setting records.  For a recipient and a scope the resolver accepts,
    with the alert type and the scope type named in their tables: after
    [update_settings] with DEFAULT (and a recipient id other than zero)
    no option row is left under the names of the type and the scope for
    the scope identifier and the recipient; after [update_settings] with
    a valid value other than DEFAULT that has a name, on a table with at
    most one record under the key, there is an option row under them,
    every such row holds the name of the value, and the option rows under
    other names, scopes or recipients are as before. *)
Theorem option_rows_follow (provider : ExternalProviders.t)
        (type : NotificationSettingTypes.t)
        (value : NotificationSettingOptionValues.t) (a : RpcActor.t)
        (project organization : option Z) (skip : bool)
        (scope_type : NotificationScopeType.t) (scope_identifier : Z)
        (type_name scope_name : string) (s : Store) :
  get_scope (team_id_of a) (user_id_of a) project organization
  = inr (scope_type, scope_identifier) ->
  dict_get NOTIFICATION_SETTING_TYPES type = Some type_name ->
  dict_get NOTIFICATION_SCOPE_TYPE scope_type = Some scope_name ->
  let s' :=
    snd (update_settings provider type value None (user_id_of a) (team_id_of a)
           project organization None skip s) in
  let key :=
    option_key type_name scope_name scope_identifier
      (user_id_of a) (team_id_of a) in
  (value = NotificationSettingOptionValues.DEFAULT ->
   RpcActor.id a <> 0 ->
   List.filter key (options s') = [])
  /\ (forall value_name,
        value <> NotificationSettingOptionValues.DEFAULT ->
        validate type value = true ->
        dict_get NOTIFICATION_SETTING_OPTION_VALUES value = Some value_name ->
        (length (List.filter
                   (same_key (ExternalProviders.value provider)
                      (NotificationSettingTypes.value type) scope_type
                      scope_identifier (user_id_of a) (team_id_of a))
                   (settings s)) <= 1)%nat ->
        List.filter key (options s') <> []
        /\ (forall row, In row (List.filter key (options s')) ->
              NotificationSettingOption.value row = value_name)
        /\ List.filter (fun r => negb (key r)) (options s')
           = List.filter (fun r => negb (key r)) (options s)).
Proof.
  intros Hscope Htn Hsn s' key. subst s'.
  rewrite (update_settings_steps provider type value a project organization
             skip scope_type scope_identifier s Hscope).
  set (s0 := snd (record_event (updated_event a) s)).
  split.
  - intros -> Hnz. unfold write_step.
    rewrite bool_decide_eq_true_2 by reflexivity.
    destruct (remove_settings_single provider type a project organization
                scope_type scope_identifier scope_name s0 Hnz Hscope Hsn)
      as (s1 & Hrun & _).
    unfold db_bind at 1. rewrite Hrun.
    unfold double_write, db_bind, db_lift, subscript.
    rewrite Htn, Hsn. rewrite bool_decide_eq_true_2 by reflexivity.
    unfold option_delete, db_write. rewrite last_step_options.
    cbn [options set_options]. apply filter_out_then_in.
  - intros value_name Hnd Hval Hvn Hone. unfold write_step.
    rewrite (bool_decide_eq_false_2 _ Hnd), Hval. cbn [negb].
    destruct (_update_settings_once provider type value scope_type
                scope_identifier (user_id_of a) (team_id_of a) s0 Hone)
      as (s1 & r & Hrun & _).
    pose proof (_update_settings_keeps provider type value scope_type
                  scope_identifier (user_id_of a) (team_id_of a) s0) as Hkeep.
    rewrite Hrun in Hkeep. cbn [snd] in Hkeep.
    assert (Hopt : options s1 = options s) by now inversion Hkeep.
    unfold db_bind at 1 2 3. rewrite Hrun.
    unfold double_write, db_bind at 1 3 5, db_lift at 1 3 5, subscript.
    rewrite Htn.
    unfold db_bind at 1 3 5, db_lift at 1 3 5. rewrite Hsn.
    rewrite (bool_decide_eq_false_2 _ Hnd).
    unfold db_bind at 1 3 5. unfold db_bind at 1 2 3, db_lift. rewrite Hvn.
    pose proof (option_upsert_spec type_name scope_name scope_identifier
                  (user_id_of a) (team_id_of a) value_name s1) as Hspec.
    cbv zeta in Hspec. fold key in Hspec. rewrite Hopt in Hspec.
    unfold option_create_or_update at 1 2 3, db_write at 1 2 3.
    rewrite !last_step_options.
    unfold option_create_or_update, db_write in Hspec. cbn [snd] in Hspec.
    exact Hspec.
Qed.

(** *** The invariants the writes keep *)

(** Exactly one of the two owner columns of every record holds an id. *)
Definition single_owner (l : list NotificationSetting.t) : bool :=
  forallb (fun r =>
             match NotificationSetting.user_id r, NotificationSetting.team_id r with
             | Some _, None | None, Some _ => true
             | _, _ => false
             end) l.

(** A store whose records store no DEFAULT, differ in their six key
    columns, have exactly one owner each, and have primary keys that
    differ and lie below the next one to be given. *)
Definition sound (s : Store) : Prop :=
  explicit_values (settings s) = true
  /\ unique_keys (settings s) = true
  /\ single_owner (settings s) = true
  /\ NoDup (map NotificationSetting.id (settings s))
  /\ forall r, In r (settings s) -> NotificationSetting.id r < next_pk s.

(** [preserves m]: a run of [m] on a sound store leaves a sound store,
    whether it returns or raises. *)
Definition preserves {A} (m : Db A) : Prop :=
  forall s, sound s -> sound (snd (m s)).

Lemma preserves_bind {A B} (m : Db A) (k : A -> Db B) :
  preserves m -> (forall x, preserves (k x)) -> preserves (db_bind m k).
Proof.
  intros Hm Hk s Hs. unfold db_bind. specialize (Hm s Hs).
  destruct (m s) as [[e|x] s1]; cbn [snd] in *; [exact Hm|]. now apply Hk.
Qed.

Lemma preserves_of_keeps {A} (m : Db A) :
  keeps (fun s => (settings s, next_pk s)) m -> preserves m.
Proof.
  intros H s Hs. specialize (H s). injection H as Hset Hpk.
  unfold sound. now rewrite Hset, Hpk.
Qed.

Lemma NoDup_map_filter {A B} (f : A -> B) (p : A -> bool) (l : list A) :
  NoDup (map f l) -> NoDup (map f (List.filter p l)).
Proof.
  induction l as [|x l IH]; cbn [List.filter map]; [constructor|].
  intros H. apply NoDup_cons in H as [Hx Hl].
  destruct (p x); cbn [map]; [|now apply IH].
  apply NoDup_cons. split; [|now apply IH].
  rewrite list_elem_of_In in *. intros Hin. apply Hx.
  apply in_map_iff in Hin as (y & Hy & Hin).
  apply List.filter_In in Hin as [Hin _]. apply in_map_iff. now exists y.
Qed.

Lemma forallb_filter {A} (p f : A -> bool) (l : list A) :
  forallb p l = true -> forallb p (List.filter f l) = true.
Proof.
  rewrite !forallb_forall. intros H x Hx.
  apply List.filter_In in Hx as [Hx _]. now apply H.
Qed.

Lemma qs_delete_preserves q : preserves (qs_delete q).
Proof.
  intros s (He & Hu & Ho & Hn & Hb). unfold qs_delete, db_write.
  cbn [snd]. unfold sound. cbn [settings set_settings next_pk].
  split; [now apply forallb_filter|].
  split.
  { unfold unique_keys in *. apply bool_decide_eq_true in Hu.
    apply bool_decide_eq_true. now apply NoDup_map_filter. }
  split; [now apply forallb_filter|].
  split; [now apply NoDup_map_filter|].
  intros r Hr. apply List.filter_In in Hr as [Hr _]. now apply Hb.
Qed.

Lemma remove_settings_preserves provider type user user_id team_id
      project organization :
  preserves (remove_settings provider type user user_id team_id
               project organization).
Proof.
  unfold remove_settings.
  apply preserves_bind; [now apply preserves_of_keeps, keeps_lift|].
  intros [st sid].
  apply preserves_bind; [now apply preserves_of_keeps, keeps_lift|]. intros name.
  apply preserves_bind; [now apply preserves_of_keeps, keeps_write|]. intros _.
  apply preserves_bind; [now apply preserves_of_keeps, keeps_lift|]. intros q.
  apply qs_delete_preserves.
Qed.

(** The upsert of a value other than DEFAULT for one owner, at whatever
    scope. *)
Lemma _update_settings_preserves provider type value scope_type scope_identifier
      user_id team_id :
  value <> NotificationSettingOptionValues.DEFAULT ->
  (exists i, (user_id, team_id) = (Some i, None)
             \/ (user_id, team_id) = (None, Some i)) ->
  preserves (_update_settings provider type value scope_type scope_identifier
               user_id team_id).
Proof.
  intros Hnd Hone s (He & Hu & Ho & Hn & Hb).
  unfold _update_settings, db_bind, get_or_create.
  set (key := same_key _ _ scope_type scope_identifier user_id team_id).
  destruct (List.filter key (settings s)) as [|r [|r' rest]] eqn:Hrows;
    [| |exact (conj He (conj Hu (conj Ho (conj Hn Hb))))].
  - cbn [negb andb snd db_ret]. unfold sound. cbn [settings next_pk].
    unfold explicit_values, unique_keys, single_owner in *.
    apply bool_decide_eq_true in Hu.
    rewrite !forallb_app, He, Ho.
    cbn [forallb andb NotificationSetting.value NotificationSetting.user_id
           NotificationSetting.team_id].
    rewrite (bool_decide_eq_false_2 _ Hnd). cbn [negb andb].
    split; [reflexivity|]. split.
    { apply bool_decide_eq_true. rewrite map_app. cbn [map].
      apply NoDup_app. split; [exact Hu|]. split; [|apply NoDup_singleton].
      intros k Hk Hk'. apply list_elem_of_singleton in Hk'. subst k.
      rewrite list_elem_of_In in Hk. apply in_map_iff in Hk as (r & Hkr & Hin).
      assert (Hr : In r (List.filter key (settings s))).
      { apply List.filter_In. split; [exact Hin|]. subst key.
        now apply same_key_columns. }
      now rewrite Hrows in Hr. }
    split.
    { destruct Hone as [i [[= -> ->] | [= -> ->]]]; reflexivity. }
    split.
    + rewrite map_app. cbn [map NotificationSetting.id].
      apply NoDup_app. split; [exact Hn|]. split; [|apply NoDup_singleton].
      intros x Hx Hx'. apply list_elem_of_singleton in Hx'. subst x.
      rewrite list_elem_of_In in Hx. apply in_map_iff in Hx as (y & Hy & Hin).
      specialize (Hb y Hin). lia.
    + intros x Hx. apply in_app_iff in Hx as [Hx | [<- | []]].
      * specialize (Hb x Hx). lia.
      * cbn. lia.
  - cbn [negb andb].
    destruct (bool_decide (NotificationSetting.value r = value));
      cbn [negb snd db_ret];
      [exact (conj He (conj Hu (conj Ho (conj Hn Hb))))|].
    unfold update_value, db_write. unfold sound.
    cbn [snd settings set_settings next_pk].
    unfold explicit_values, unique_keys, single_owner in *.
    rewrite forallb_forall in He, Ho.
    split.
    { apply forallb_forall. intros x Hin.
      apply in_map_iff in Hin as (y & <- & Hy).
      destruct (_ =? _); [|apply He; exact Hy].
      cbn. now rewrite (bool_decide_eq_false_2 _ Hnd). }
    split.
    { rewrite map_map. rewrite (map_ext _ key_columns); [exact Hu|].
      intros x. now destruct (_ =? _). }
    split.
    { apply forallb_forall. intros x Hin.
      apply in_map_iff in Hin as (y & <- & Hy).
      destruct (_ =? _); apply (Ho y Hy). }
    split.
    + rewrite map_map.
      rewrite (map_ext _ NotificationSetting.id); [exact Hn|].
      intros x. now destruct (_ =? _).
    + intros x Hx. apply in_map_iff in Hx as (y & <- & Hy).
      specialize (Hb y Hy). now destruct (_ =? _).
Qed.

(** [update_settings] keeps a sound store sound for any arguments and
    whatever scope the resolver gives: the record it writes has the one
    owner it has settled on, a value other than DEFAULT, and a key no
    other record has. *)
Lemma update_settings_preserves provider type value user user_id team_id
      project organization actor skip :
  preserves (update_settings provider type value user user_id team_id
               project organization actor skip).
Proof.
  rewrite update_settings_ids.
  destruct (recipient_ids user user_id team_id actor) as [uid tid]. cbn [fst snd].
  rewrite update_settings_unfold.
  destruct (chosen_actor uid tid) as [a|];
    [|now apply preserves_of_keeps, keeps_raise].
  apply preserves_bind; [now apply preserves_of_keeps, keeps_write|]. intros _.
  apply preserves_bind; [now apply preserves_of_keeps, keeps_lift|].
  intros [st sid]. unfold after_scope. apply preserves_bind.
  - destruct (bool_decide (value = NotificationSettingOptionValues.DEFAULT))
      eqn:Hv; [apply remove_settings_preserves|].
    apply bool_decide_eq_false in Hv.
    destruct (validate type value); cbn [negb];
      [|now apply preserves_of_keeps, keeps_raise].
    destruct (bool_decide (RpcActor.actor_type a = ActorType.USER));
      (apply _update_settings_preserves; [exact Hv|]);
      exists (RpcActor.id a); [now left | now right].
  - intros _. apply preserves_of_keeps.
    apply (keeps_proj (fun s => (settings s, next_pk s, analytics s))
             (fun '(st, pk, _) => (st, pk))).
    apply double_write_keeps.
Qed.

Lemma update_provider_settings_preserves user_id team_id :
  preserves (update_provider_settings user_id team_id).
Proof.
  apply preserves_of_keeps.
  apply (keeps_proj apart_from_providers (fun '(st, pk, _, _) => (st, pk))).
  apply update_provider_settings_keeps.
Qed.

(** *** The invariants under every write of the manager *)

(** The stores the manager's writes lead to from an empty table of
    setting records. *)
Inductive written : Store -> Prop :=
| written_empty s : settings s = [] -> written s
| written_update_settings provider type value user user_id team_id
    project organization actor skip s :
    written s ->
    written (snd (update_settings provider type value user user_id team_id
                    project organization actor skip s))
| written_remove_settings provider type user user_id team_id
    project organization s :
    written s ->
    written (snd (remove_settings provider type user user_id team_id
                    project organization s))
| written_remove_for_user user type s :
    written s -> written (snd (remove_for_user user type s))
| written_remove_for_project project_id type s :
    written s -> written (snd (remove_for_project project_id type s))
| written_remove_for_organization organization_id type s :
    written s -> written (snd (remove_for_organization organization_id type s))
| written_update_provider_settings user_id team_id s :
    written s -> written (snd (update_provider_settings user_id team_id s)).

(** X7. The manager keeps four invariants of the setting table.  On a
    table that starts empty and is written only through the manager
    ([update_settings], [remove_settings], the three bulk deletes, the
    rebuild of the projection, with any arguments and whether the calls
    return or raise), no record ever stores DEFAULT, no two records have
    the same six key columns, every record has exactly one owner (one of
    its user and team columns holds an id, the other is empty), and the
    primary keys differ.  None of this rests on the scope the resolver
    gives: the record is written under whatever scope comes back. *)
Theorem manager_keeps_invariants (s : Store) :
  written s ->
  explicit_values (settings s) = true
  /\ unique_keys (settings s) = true
  /\ single_owner (settings s) = true
  /\ NoDup (map NotificationSetting.id (settings s)).
Proof.
  intros Hw.
  assert (Hs : sound s).
  { induction Hw as [s H| ? ? ? ? ? ? ? ? ? ? s Hw Hs
                     | ? ? ? ? ? ? ? s Hw Hs
                     | ? ? s Hw Hs | ? ? s Hw Hs
                     | ? ? s Hw Hs | ? ? s Hw Hs].
    - unfold sound. rewrite H.
      split; [reflexivity|]. split; [apply bool_decide_eq_true; constructor|].
      split; [reflexivity|]. split; [constructor | intros r []].
    - now apply update_settings_preserves.
    - now apply remove_settings_preserves.
    - now apply qs_delete_preserves.
    - now apply qs_delete_preserves.
    - now apply qs_delete_preserves.
    - now apply update_provider_settings_preserves. }
  destruct Hs as (He & Hu & Ho & Hn & _).
  now repeat split.
Qed.

(** *** The rebuild and the other projection rows *)

(** The projection rows a rebuild for [user_id] and [team_id] may write
    or delete: those of a personal provider, with these owner columns,
    at the recipient's own scope. *)
Definition rebuilt_row (user_id team_id : option Z)
           (r : NotificationSettingProvider.t) : bool :=
  bool_decide (NotificationSettingProvider.provider r
               ∈ PERSONAL_NOTIFICATION_PROVIDERS)
  && bool_decide (NotificationSettingProvider.user_id r = user_id)
  && bool_decide (NotificationSettingProvider.team_id r = team_id)
  && bool_decide (NotificationSettingProvider.scope_type r
                  = match team_id with
                    | Some _ => NotificationScopeEnum.TEAM
                    | None => NotificationScopeEnum.USER
                    end)
  && (NotificationSettingProvider.scope_identifier r
      =? match team_id with
         | Some t => t
         | None => default 0 user_id
         end).

Lemma keeps_for_in {X A} (f : Store -> X) (l : list A) (body : A -> Db unit) :
  (forall x, In x l -> keeps f (body x)) -> keeps f (db_for l body).
Proof.
  induction l as [|x l IH]; intros Hb; cbn [db_for].
  - apply keeps_ret.
  - apply keeps_bind; [apply Hb; now left|]. intros _. apply IH.
    intros y Hy. apply Hb. now right.
Qed.

Section Frame.

Variable out : NotificationSettingProvider.t -> bool.
Variable b : base_query.
Hypothesis out_value :
  forall v r, out (NotificationSettingProvider.with_value v r) = out r.
Hypothesis out_base : forall r, base_match b r = true -> out r = false.

Lemma provider_create_or_update_frame name v :
  keeps (fun s => List.filter out (providers s))
    (provider_create_or_update b name v).
Proof using out_value out_base.
  apply keeps_write. intros s.
  destruct (existsb (args_match b name) (providers s));
    cbn [providers set_providers].
  - induction (providers s) as [|r l IH]; [reflexivity|]. cbn [map List.filter].
    destruct (args_match b name r) eqn:Hr.
    + rewrite out_value. rewrite out_base; [exact IH|].
      unfold args_match in Hr. now apply andb_true_iff in Hr as [Hr _].
    + destruct (out r); now rewrite IH.
  - rewrite List.filter_app. cbn [List.filter]. rewrite out_base.
    + apply app_nil_r.
    + pose proof (args_match_new b name v) as Hnew. unfold args_match in Hnew.
      now apply andb_true_iff in Hnew as [Hnew _].
Qed.

Lemma provider_delete_frame names :
  keeps (fun s => List.filter out (providers s)) (provider_delete b names).
Proof using out_base.
  apply keeps_write. intros s. cbn [providers set_providers].
  rewrite filter_filter_andb. apply filter_ext_eq. intros r.
  destruct (out r) eqn:Ho; [|apply andb_false_r]. rewrite andb_true_r.
  destruct (base_match b r) eqn:Hb; [|reflexivity].
  rewrite (out_base r Hb) in Ho. discriminate.
Qed.

Lemma project_types_frame enabled disabled types acc :
  keeps (fun s => List.filter out (providers s))
    (project_types b enabled disabled types acc).
Proof using out_value out_base.
  revert acc. induction types as [|t types IH]; intros acc; simpl.
  - apply keeps_ret.
  - apply keeps_bind; [apply keeps_lift|]. intros name.
    repeat case_match; auto;
      (apply keeps_bind;
       [apply provider_create_or_update_frame | intros _; apply IH]).
Qed.

Lemma provider_round_frame enabled disabled :
  keeps (fun s => List.filter out (providers s))
    (provider_round enabled disabled b).
Proof using out_value out_base.
  unfold provider_round.
  apply keeps_bind; [apply project_types_frame|]. intros del.
  apply keeps_bind; [apply keeps_lift|]. intros names.
  apply provider_delete_frame.
Qed.

End Frame.

(** X13. The rebuild of the projection for a recipient writes and
    deletes rows of that recipient only.  Whatever the arguments and
    whether it returns or raises, the projection rows of other
    recipients, at another scope, or of a provider outside the personal
    providers are after [update_provider_settings] what they were
    before, in the same order, and the setting records, the option rows,
    the events and the next primary key are not touched. *)
Theorem update_provider_settings_frame (user_id team_id : option Z) (s : Store) :
  let s' := snd (update_provider_settings user_id team_id s) in
  List.filter (fun r => negb (rebuilt_row user_id team_id r)) (providers s')
  = List.filter (fun r => negb (rebuilt_row user_id team_id r)) (providers s)
  /\ settings s' = settings s
  /\ options s' = options s
  /\ analytics s' = analytics s
  /\ next_pk s' = next_pk s.
Proof.
  intros s'. split.
  - subst s'.
    assert (Hk : keeps (fun s => List.filter
                                   (fun r => negb (rebuilt_row user_id team_id r))
                                   (providers s))
                   (update_provider_settings user_id team_id));
      [|exact (Hk s)].
    clear s.
    unfold update_provider_settings. case_match; [apply keeps_raise|].
    apply keeps_bind; [apply keeps_read|]. intros rows.
    apply keeps_bind; [apply keeps_lift|]. intros [enabled disabled].
    apply keeps_for_in. intros name Hname.
    apply provider_round_frame; [reflexivity|].
    intros r Hr. apply negb_false_iff.
    unfold base_match in Hr. cbn [bq_provider bq_user_id bq_team_id
                                    bq_scope_type bq_scope_identifier] in Hr.
    rewrite !andb_true_iff in Hr. destruct Hr as [[[[Hp Hu] Ht] Hst] Hsid].
    unfold rebuilt_row. rewrite Hu, Ht, Hsid.
    apply bool_decide_eq_true in Hp, Hst.
    rewrite (bool_decide_eq_true_2 (_ ∈ PERSONAL_NOTIFICATION_PROVIDERS))
      by (rewrite Hp; now apply list_elem_of_In).
    cbn [andb]. rewrite andb_true_r. apply bool_decide_eq_true.
    rewrite Hst. now destruct team_id.
  - pose proof (update_provider_settings_keeps user_id team_id s) as H.
    unfold apart_from_providers in H. fold s' in H.
    injection H as H1 H2 H3 H4. now repeat split.
Qed.

(** *** The rebuild run twice *)

Lemma set_providers_id s : set_providers (providers s) s = s.
Proof. now destruct s. Qed.

Lemma filter_all {A} (f : A -> bool) (l : list A) :
  (forall x, In x l -> f x = true) -> List.filter f l = l.
Proof.
  induction l as [|x l IH]; intros H; [reflexivity|]. cbn [List.filter].
  rewrite (H x (or_introl eq_refl)). f_equal. apply IH. intros y Hy.
  apply H. now right.
Qed.

(** On rows that hold the value already the upsert changes nothing. *)
Lemma upsert_fixed b name v s :
  settled v (List.filter (args_match b name) (providers s)) ->
  provider_create_or_update b name v s = (inr tt, s).
Proof.
  intros [Hne Hval]. unfold provider_create_or_update, db_write.
  assert (Hex : existsb (args_match b name) (providers s) = true).
  { destruct (List.filter (args_match b name) (providers s)) as [|r l] eqn:Hf;
      [congruence|].
    assert (Hr : In r (List.filter (args_match b name) (providers s)))
      by (rewrite Hf; now left).
    apply List.filter_In in Hr as [Hr Hm]. apply existsb_exists. eauto. }
  rewrite Hex. f_equal. rewrite map_id_in; [apply set_providers_id|].
  intros r Hr. destruct (args_match b name r) eqn:Hm; [|reflexivity].
  assert (Hv : NotificationSettingProvider.value r = v)
    by (apply Hval; apply List.filter_In; now split).
  destruct r. cbn in Hv. subst. reflexivity.
Qed.

(** What the round for a provider leaves behind: for every alert type
    of the table, the rows its status asks for. *)
Definition projected (b : base_query) (enabled disabled : gmap Z (gset string))
           (s : Store) : Prop :=
  forall t name,
    In t (keys VALID_VALUES_FOR_KEY_V2) ->
    dict_get NOTIFICATION_SETTING_TYPES t = Some name ->
    match status b enabled disabled t with
    | Some v => settled v (List.filter (args_match b name) (providers s))
    | None => List.filter (args_match b name) (providers s) = []
    end.

Lemma project_types_fixed b enabled disabled types s :
  (forall t, In t types -> In t (keys VALID_VALUES_FOR_KEY_V2)) ->
  (forall t, In t types -> is_Some (dict_get NOTIFICATION_SETTING_TYPES t)) ->
  projected b enabled disabled s ->
  forall acc,
    project_types b enabled disabled types acc s
    = (inr (acc ++ List.filter (unset b enabled disabled) types)%list, s).
Proof.
  intros Hsub Hnamed Hpost.
  induction types as [|t rest IH]; intros acc.
  - cbn [project_types List.filter]. now rewrite app_nil_r.
  - destruct (Hnamed t (or_introl eq_refl)) as [name Hname].
    rewrite (project_types_cons b enabled disabled t name rest acc s Hname).
    cbn [List.filter]. unfold unset at 1.
    pose proof (Hpost t name (Hsub t (or_introl eq_refl)) Hname) as Ht.
    destruct (status b enabled disabled t) as [v|].
    + rewrite (upsert_fixed b name v s Ht). cbn [snd].
      apply IH; [intros; apply Hsub | intros; apply Hnamed]; now right.
    + rewrite IH
        by (first [intros; apply Hsub; now right
                  | intros; apply Hnamed; now right]).
      now rewrite <- app_assoc.
Qed.

Lemma provider_round_fixed b enabled disabled s :
  (forall t, In t (keys VALID_VALUES_FOR_KEY_V2) ->
     is_Some (dict_get NOTIFICATION_SETTING_TYPES t)) ->
  projected b enabled disabled s ->
  provider_round enabled disabled b s = (inr tt, s).
Proof.
  intros Hnamed Hpost. unfold provider_round.
  unfold db_bind at 1.
  rewrite (project_types_fixed b enabled disabled _ s (fun t H => H) Hnamed
             Hpost []).
  cbn [app].
  destruct (type_names_spec
              (List.filter (unset b enabled disabled)
                 (keys VALID_VALUES_FOR_KEY_V2)))
    as (names & Hnames & Hmem).
  { intros t Hin. apply List.filter_In in Hin as [Hin _]. now apply Hnamed. }
  unfold db_bind, db_lift. rewrite Hnames.
  unfold provider_delete, db_write. f_equal.
  rewrite filter_all; [apply set_providers_id|].
  intros r Hr. apply negb_true_iff.
  destruct (base_match b r) eqn:Hb; [|reflexivity]. cbn [andb].
  apply bool_decide_eq_false. rewrite list_elem_of_In. intros Hin.
  apply Hmem in Hin as (t & Ht & Hname).
  apply List.filter_In in Ht as [Ht Hun].
  pose proof (Hpost t _ Ht Hname) as Hnone.
  unfold unset in Hun. destruct (status b enabled disabled t); [discriminate|].
  assert (Hin : In r (List.filter
                        (args_match b (NotificationSettingProvider.type r))
                        (providers s))).
  { apply List.filter_In. split; [exact Hr|]. unfold args_match.
    rewrite Hb. now rewrite bool_decide_eq_true_2. }
  now rewrite Hnone in Hin.
Qed.

Lemma provider_loop_fixed enabled disabled user_id team_id scope_type
      scope_identifier names s :
  (forall t, In t (keys VALID_VALUES_FOR_KEY_V2) ->
     is_Some (dict_get NOTIFICATION_SETTING_TYPES t)) ->
  (forall provider, In provider names ->
     projected (base_for user_id team_id scope_type scope_identifier provider)
       enabled disabled s) ->
  db_for names
    (fun provider =>
       provider_round enabled disabled
         (base_for user_id team_id scope_type scope_identifier provider)) s
  = (inr tt, s).
Proof.
  intros Hnamed. induction names as [|pn rest IH]; intros Hpost; [reflexivity|].
  cbn [db_for]. unfold db_bind.
  rewrite (provider_round_fixed _ enabled disabled s Hnamed
             (Hpost pn (or_introl eq_refl))).
  apply IH. intros provider Hin. apply Hpost. now right.
Qed.

Lemma rebuild_fails a e s :
  RpcActor.id a <> 0 ->
  classify (List.filter (own_scoped a) (settings s)) ∅ ∅ = inl e ->
  update_provider_settings (user_id_of a) (team_id_of a) s = (inl e, s).
Proof.
  intros Hid Hcl. apply Z.eqb_neq in Hid.
  unfold update_provider_settings.
  assert (Htruthy : truthy (team_id_of a) || truthy (user_id_of a) = true).
  { destruct a as [[] i]; cbn in *; rewrite Hid; reflexivity. }
  rewrite Htruthy. cbn [negb].
  unfold db_bind at 1. unfold qs_list, db_read.
  rewrite (filter_ext_eq
             (matches (Q_and (Q_and (Q_user_id (user_id_of a))
                                    (Q_team_id (team_id_of a)))
                             (Q_scope_type__in [NotificationScopeType.USER;
                                                NotificationScopeType.TEAM])))
             (own_scoped a)) by reflexivity.
  unfold db_bind at 1. unfold db_lift at 1. now rewrite Hcl.
Qed.

(** X14. The rebuild of the projection is idempotent.  With the alert
    types of the compatibility table named apart, when
    [update_provider_settings] for a recipient with an id other than zero
    has returned, a second call right after it returns as well and leaves
    the store exactly as the first left it. *)
Theorem update_provider_settings_twice (a : RpcActor.t) (s s1 : Store) :
  RpcActor.id a <> 0 ->
  types_named = true ->
  type_names_distinct = true ->
  update_provider_settings (user_id_of a) (team_id_of a) s = (inr tt, s1) ->
  update_provider_settings (user_id_of a) (team_id_of a) s1 = (inr tt, s1).
Proof.
  intros Hid Hnamed Hdist Hrun.
  assert (Hnamed' : forall t, In t (keys VALID_VALUES_FOR_KEY_V2) ->
            is_Some (dict_get NOTIFICATION_SETTING_TYPES t)).
  { unfold types_named in Hnamed. rewrite forallb_forall in Hnamed.
    intros t Hin. specialize (Hnamed t Hin).
    now apply bool_decide_eq_true in Hnamed. }
  assert (Hinj : forall t1 t2, In t1 (keys VALID_VALUES_FOR_KEY_V2) ->
            In t2 (keys VALID_VALUES_FOR_KEY_V2) ->
            dict_get NOTIFICATION_SETTING_TYPES t1
            = dict_get NOTIFICATION_SETTING_TYPES t2 -> t1 = t2).
  { unfold type_names_distinct in Hdist. apply bool_decide_eq_true in Hdist.
    intros t1 t2 H1 H2 Heq.
    exact (NoDup_map_inj _ _ t1 t2 Hdist H1 H2 Heq). }
  assert (Hkeep : settings s1 = settings s).
  { pose proof (update_provider_settings_settings
                  (user_id_of a) (team_id_of a) s) as H.
    now rewrite Hrun in H. }
  destruct (classify (List.filter (own_scoped a) (settings s)) ∅ ∅)
    as [e|[enabled disabled]] eqn:Hcl.
  { rewrite (rebuild_fails a e s Hid Hcl) in Hrun. discriminate. }
  rewrite (rebuild_unfold a enabled disabled s Hid Hcl) in Hrun.
  destruct (provider_loop_spec enabled disabled (user_id_of a) (team_id_of a)
              (own_scope_enum a) (RpcActor.id a)
              PERSONAL_NOTIFICATION_PROVIDERS Hnamed' Hinj s)
    as (s' & Hloop & Hset & _).
  rewrite Hloop in Hrun. injection Hrun as <-.
  rewrite (rebuild_unfold a enabled disabled s' Hid)
    by (now rewrite Hkeep).
  apply provider_loop_fixed; [exact Hnamed'|].
  intros provider Hin t name Ht Hname. exact (Hset provider t name Hin Ht Hname).
Qed.

(** *** The errors of the rebuild *)

(** [raises E m]: an exception [m] raises is one of [E]. *)
Definition raises {A} (E : exn -> Prop) (m : Db A) : Prop :=
  forall s e s', m s = (inl e, s') -> E e.

Lemma raises_bind {A B} (E : exn -> Prop) (m : Db A) (k : A -> Db B) :
  raises E m -> (forall x, raises E (k x)) -> raises E (db_bind m k).
Proof.
  intros Hm Hk s e s'. unfold db_bind.
  destruct (m s) as [[e0|x] s0] eqn:Hms.
  - intros [= <- <-]. exact (Hm s e0 s0 Hms).
  - apply Hk.
Qed.

Lemma raises_write (E : exn -> Prop) (f : Store -> Store) :
  raises E (db_write f).
Proof. intros s e s'. discriminate. Qed.

Lemma raises_ret {A} (E : exn -> Prop) (x : A) : raises E (db_ret x).
Proof. intros s e s'. discriminate. Qed.

Lemma raises_for {A} (E : exn -> Prop) (l : list A) (body : A -> Db unit) :
  (forall x, raises E (body x)) -> raises E (db_for l body).
Proof.
  intros Hb. induction l as [|x l IH]; cbn [db_for].
  - apply raises_ret.
  - apply raises_bind; [apply Hb | intros _; exact IH].
Qed.

Lemma raises_subscript {K V} `{EqDecision K} (E : exn -> Prop) name
      (d : dict K V) k :
  E (KeyError name) -> raises E (db_lift (subscript name d k)).
Proof.
  intros HE s e s'. unfold db_lift, subscript.
  destruct (dict_get d k); [discriminate|]. now intros [= <- <-].
Qed.

Lemma classify_raises rows enabled disabled e :
  classify rows enabled disabled = inl e -> e = KeyError "EXTERNAL_PROVIDERS".
Proof.
  revert enabled disabled. induction rows as [|r rows IH]; intros enabled disabled;
    cbn [classify]; [discriminate|].
  unfold subscript. destruct (dict_get EXTERNAL_PROVIDERS _); [|now intros [= <-]].
  destruct (bool_decide _); apply IH.
Qed.

Lemma type_names_raises types e :
  type_names types = inl e -> e = KeyError "NOTIFICATION_SETTING_TYPES".
Proof.
  induction types as [|t types IH]; cbn [type_names]; [discriminate|].
  unfold subscript. destruct (dict_get NOTIFICATION_SETTING_TYPES t);
    [|now intros [= <-]].
  destruct (type_names types); [|discriminate]. intros [= <-]. now apply IH.
Qed.

Lemma project_types_raises b enabled disabled types acc :
  raises (fun e => e = KeyError "NOTIFICATION_SETTING_TYPES")
    (project_types b enabled disabled types acc).
Proof.
  revert acc. induction types as [|t types IH]; intros acc; cbn [project_types].
  - apply raises_ret.
  - apply raises_bind; [now apply raises_subscript|]. intros name.
    repeat case_match; auto;
      (apply raises_bind; [apply raises_write | intros _; apply IH]).
Qed.

(** X15. The errors of [update_provider_settings].  When neither id is
    true in a condition (an id of zero is false like [None]) it raises
    its assertion and writes nothing.  Otherwise the only thing it raises
    is a [KeyError]: for a provider that is not in the provider table,
    before any write, so the store is as it was, or for an alert type
    that has no name. *)
Theorem update_provider_settings_errors (user_id team_id : option Z)
        (s : Store) :
  (truthy team_id || truthy user_id = false ->
   update_provider_settings user_id team_id s
   = (inl (AssertionError
             "Cannot update settings if user or team is not passed"), s))
  /\ (truthy team_id || truthy user_id = true ->
      forall e s',
        update_provider_settings user_id team_id s = (inl e, s') ->
        (e = KeyError "EXTERNAL_PROVIDERS" /\ s' = s)
        \/ e = KeyError "NOTIFICATION_SETTING_TYPES").
Proof.
  split; intros Hid; unfold update_provider_settings; rewrite Hid; cbn [negb];
    [reflexivity|].
  intros e s'. unfold db_bind at 1. unfold qs_list, db_read.
  unfold db_bind at 1. unfold db_lift at 1.
  destruct (classify _ ∅ ∅) as [e0|[enabled disabled]] eqn:Hcl.
  - intros [= <- <-]. left. split; [|reflexivity].
    exact (classify_raises _ _ _ _ Hcl).
  - intros Hrun. right. revert Hrun.
    apply (raises_for (fun e => e = KeyError "NOTIFICATION_SETTING_TYPES")).
    intros provider. unfold provider_round.
    apply raises_bind; [apply project_types_raises|]. intros del.
    apply raises_bind; [|intros names; apply raises_write].
    intros s0 e1 s1. unfold db_lift. intros [= H <-].
    exact (type_names_raises _ _ H).
Qed.

(** *** The recipients of a batch lookup as a set *)

Lemma add_recipients_same recipients recipients' :
  (forall a, In a recipients <-> In a recipients') ->
  fold_left add_recipient recipients (∅, ∅)
  = fold_left add_recipient recipients' (∅, ∅).
Proof.
  intros Hsame.
  pose proof (add_recipients_ids recipients ∅ ∅) as H.
  pose proof (add_recipients_ids recipients' ∅ ∅) as H'.
  destruct (fold_left add_recipient recipients (∅, ∅)) as [u t].
  destruct (fold_left add_recipient recipients' (∅, ∅)) as [u' t'].
  cbn [fst snd] in H, H'. f_equal; apply set_eq; intros i.
  - rewrite (proj1 (H i)), (proj1 (H' i)), (Hsame (RpcActor.Build ActorType.USER i)).
    reflexivity.
  - rewrite (proj2 (H i)), (proj2 (H' i)), (Hsame (RpcActor.Build ActorType.TEAM i)).
    reflexivity.
Qed.

(** X16. [get_for_recipient_by_parent] looks at the recipients as a set
    and at the parent's id only.  Two lists with the same recipients, in
    whatever order and however often each is repeated, and two parents
    with the same id, be they a project and an organization, give the
    same query, so the same rows of any store. *)
Theorem get_for_recipient_by_parent_set (type_ : NotificationSettingTypes.t)
        (parent parent' : Parent.t) (recipients recipients' : list RpcActor.t) :
  (forall a, In a recipients <-> In a recipients') ->
  Parent.id parent = Parent.id parent' ->
  get_for_recipient_by_parent type_ parent recipients
  = get_for_recipient_by_parent type_ parent' recipients'.
Proof.
  intros Hsame Hid. unfold get_for_recipient_by_parent.
  rewrite (add_recipients_same recipients recipients' Hsame), Hid.
  reflexivity.
Qed.

(** *** From an update to the projection *)

(** What the projection holds for a stored value: NEVER for NEVER,
    ALWAYS for every other value. *)
Definition projected_value (v : NotificationSettingOptionValues.t)
  : NotificationSettingsOptionEnum.t :=
  if bool_decide (v = NotificationSettingOptionValues.NEVER)
  then NotificationSettingsOptionEnum.NEVER
  else NotificationSettingsOptionEnum.ALWAYS.

(** The scope type of a recipient's own scope. *)
Definition own_scope_type (a : RpcActor.t) : NotificationScopeType.t :=
  match RpcActor.actor_type a with
  | ActorType.USER => NotificationScopeType.USER
  | ActorType.TEAM => NotificationScopeType.TEAM
  end.

Lemma get_scope_own a :
  get_scope (team_id_of a) (user_id_of a) None None
  = inr (own_scope_type a, RpcActor.id a).
Proof. now destruct a as [[] i]. Qed.

Lemma same_key_own_setting a p t r :
  same_key (ExternalProviders.value p) (NotificationSettingTypes.value t)
    (own_scope_type a) (RpcActor.id a) (user_id_of a) (team_id_of a) r = true ->
  own_setting a p t r = true.
Proof.
  unfold same_key, own_setting, own_scoped.
  rewrite !andb_true_iff, !bool_decide_eq_true.
  intros [[[[[Hp Ht] Hst] Hsid] Hu] Htm]. repeat split; try assumption.
  rewrite Hst, list_elem_of_In. destruct a as [[] i]; cbn; auto.
Qed.

Lemma own_setting_same_key a p t r :
  own_scope_ok r = true -> own_setting a p t r = true ->
  same_key (ExternalProviders.value p) (NotificationSettingTypes.value t)
    (own_scope_type a) (RpcActor.id a) (user_id_of a) (team_id_of a) r = true.
Proof.
  intros Hok H. unfold own_setting in H. rewrite !andb_true_iff in H.
  destruct H as [[[Hsc Hsid] Hp] Ht].
  destruct (own_scoped_scope a r Hsc Hok) as [Hst _].
  unfold own_scoped in Hsc. rewrite !andb_true_iff in Hsc.
  destruct Hsc as [[Hu Htm] _].
  unfold same_key. rewrite Hp, Ht, Hsid, Hu, Htm. cbn [andb].
  rewrite !andb_true_r. apply bool_decide_eq_true. exact Hst.
Qed.

(** The rebuild, for one provider and one alert type: no projection row
    without an own-scope record, and with one the rows hold what its
    value projects to. *)
Lemma rebuild_rows a s p t pn tn :
  RpcActor.id a <> 0 ->
  types_named = true ->
  type_names_distinct = true ->
  provider_names_distinct = true ->
  providers_known (List.filter (own_scoped a) (settings s)) = true ->
  own_scopes (settings s) = true ->
  unique_keys (settings s) = true ->
  In t (keys VALID_VALUES_FOR_KEY_V2) ->
  dict_get EXTERNAL_PROVIDERS p = Some pn ->
  In pn PERSONAL_NOTIFICATION_PROVIDERS ->
  dict_get NOTIFICATION_SETTING_TYPES t = Some tn ->
  exists s',
    update_provider_settings (user_id_of a) (team_id_of a) s = (inr tt, s')
    /\ (List.filter (own_setting a p t) (settings s) = [] ->
        List.filter (projection_row a pn tn) (providers s') = [])
    /\ (forall r, In r (List.filter (own_setting a p t) (settings s)) ->
          settled (projected_value (NotificationSetting.value r))
            (List.filter (projection_row a pn tn) (providers s'))).
Proof.
  intros Hid Hnamed Hdist Hpdist Hknown Hown Huniq Ht Hpn Hpers Htn.
  assert (Hnamed' : forall t, In t (keys VALID_VALUES_FOR_KEY_V2) ->
            is_Some (dict_get NOTIFICATION_SETTING_TYPES t)).
  { unfold types_named in Hnamed. rewrite forallb_forall in Hnamed.
    intros t0 Hin. specialize (Hnamed t0 Hin).
    now apply bool_decide_eq_true in Hnamed. }
  assert (Hinj : forall t1 t2, In t1 (keys VALID_VALUES_FOR_KEY_V2) ->
            In t2 (keys VALID_VALUES_FOR_KEY_V2) ->
            dict_get NOTIFICATION_SETTING_TYPES t1
            = dict_get NOTIFICATION_SETTING_TYPES t2 -> t1 = t2).
  { unfold type_names_distinct in Hdist. apply bool_decide_eq_true in Hdist.
    intros t1 t2 H1 H2 Heq.
    exact (NoDup_map_inj _ _ t1 t2 Hdist H1 H2 Heq). }
  assert (Hknown' : forall r, In r (List.filter (own_scoped a) (settings s)) ->
            is_Some (provider_name r)).
  { unfold providers_known in Hknown. rewrite forallb_forall in Hknown.
    intros r Hin. specialize (Hknown r Hin).
    now apply bool_decide_eq_true in Hknown. }
  destruct (classify_spec _ Hknown' ∅ ∅) as (enabled & disabled & Hcl & Hmem).
  destruct (provider_loop_spec enabled disabled (user_id_of a) (team_id_of a)
              (own_scope_enum a) (RpcActor.id a)
              PERSONAL_NOTIFICATION_PROVIDERS Hnamed' Hinj s)
    as (s' & Hloop & Hset & _).
  exists s'. split; [now rewrite (rebuild_unfold a enabled disabled s Hid Hcl)|].
  set (records := List.filter (own_setting a p t) (settings s)).
  assert (Hen : pn ∈ dd_get enabled (NotificationSettingTypes.value t)
                <-> exists r, In r records
                              /\ NotificationSetting.value r
                                 <> NotificationSettingOptionValues.NEVER).
  { destruct (Hmem (NotificationSettingTypes.value t) pn) as [-> _].
    rewrite dd_get_empty. split.
    - intros [H | (r & Hin & Hty & Hname & Hv)];
        [now apply not_elem_of_empty in H|].
      exists r. split; [|exact Hv].
      now apply (own_rows_records a p t pn s r Hown Hpdist Hpn).
    - intros (r & Hin & Hv). right. exists r.
      apply (own_rows_records a p t pn s r Hown Hpdist Hpn) in Hin.
      taut. }
  assert (Hdis : pn ∈ dd_get disabled (NotificationSettingTypes.value t)
                 <-> exists r, In r records
                               /\ NotificationSetting.value r
                                  = NotificationSettingOptionValues.NEVER).
  { destruct (Hmem (NotificationSettingTypes.value t) pn) as [_ ->].
    rewrite dd_get_empty. split.
    - intros [H | (r & Hin & Hty & Hname & Hv)];
        [now apply not_elem_of_empty in H|].
      exists r. split; [|exact Hv].
      now apply (own_rows_records a p t pn s r Hown Hpdist Hpn).
    - intros (r & Hin & Hv). right. exists r.
      apply (own_rows_records a p t pn s r Hown Hpdist Hpn) in Hin.
      taut. }
  pose proof (Hset pn t tn Hpers Ht Htn) as Hfinal. cbv zeta in Hfinal.
  fold (projection_row a pn tn) in Hfinal.
  unfold status in Hfinal. cbn [bq_provider base_for] in Hfinal.
  split.
  - intros Hnil.
    rewrite bool_decide_eq_false_2 in Hfinal
      by (rewrite Hen; intros (r & Hin & _); now rewrite Hnil in Hin).
    rewrite bool_decide_eq_false_2 in Hfinal
      by (rewrite Hdis; intros (r & Hin & _); now rewrite Hnil in Hin).
    exact Hfinal.
  - intros r Hin.
    assert (Hone : forall r', In r' records -> r' = r)
      by (intros r' Hin';
          exact (own_setting_unique a p t s r' r Hown Huniq Hin' Hin)).
    unfold projected_value.
    destruct (decide (NotificationSetting.value r
                      = NotificationSettingOptionValues.NEVER)) as [Hv | Hv].
    + rewrite (bool_decide_eq_true_2 _ Hv).
      rewrite bool_decide_eq_false_2 in Hfinal.
      2:{ rewrite Hen. intros (r' & Hin' & Hv').
          rewrite (Hone r' Hin') in Hv'. contradiction. }
      rewrite bool_decide_eq_true_2 in Hfinal by (apply Hdis; eauto).
      exact Hfinal.
    + rewrite (bool_decide_eq_false_2 _ Hv).
      rewrite bool_decide_eq_true_2 in Hfinal by (apply Hen; eauto).
      exact Hfinal.
Qed.

Lemma provider_name_with_value v r :
  provider_name (NotificationSetting.with_value v r) = provider_name r.
Proof. reflexivity. Qed.

Lemma own_scoped_with_value a v r :
  own_scoped a (NotificationSetting.with_value v r) = own_scoped a r.
Proof. reflexivity. Qed.

(** The upsert of a record with a known provider keeps the providers of
    a recipient's own rows known. *)
Lemma _update_settings_known provider type value scope_type scope_identifier
      user_id team_id a s :
  is_Some (dict_get EXTERNAL_PROVIDERS provider) ->
  providers_known (List.filter (own_scoped a) (settings s)) = true ->
  providers_known
    (List.filter (own_scoped a)
       (settings (snd (_update_settings provider type value scope_type
                         scope_identifier user_id team_id s)))) = true.
Proof.
  intros Hp Hs. unfold _update_settings, db_bind, get_or_create.
  destruct (List.filter (same_key _ _ _ _ _ _) (settings s))
    as [|r [|r' rest]]; [| |exact Hs].
  - cbn [negb andb snd settings db_ret]. unfold providers_known in *.
    rewrite List.filter_app, forallb_app, Hs. cbn [List.filter andb].
    destruct (own_scoped a _); [|reflexivity]. cbn [forallb].
    rewrite andb_true_r. apply bool_decide_eq_true.
    unfold provider_name. cbn [NotificationSetting.provider].
    now rewrite member_value.
  - cbn [negb andb].
    destruct (bool_decide (NotificationSetting.value r = value));
      cbn [negb snd db_ret]; [exact Hs|].
    unfold update_value, db_write. cbn [snd settings set_settings].
    unfold providers_known in *. rewrite forallb_forall in *.
    intros x Hx. apply List.filter_In in Hx as [Hx Hox].
    apply in_map_iff in Hx as (y & <- & Hy).
    destruct (_ =? _).
    + rewrite provider_name_with_value. apply Hs. apply List.filter_In.
      split; [exact Hy|]. now rewrite own_scoped_with_value in Hox.
    + apply Hs. apply List.filter_In. now split.
Qed.

Lemma write_step_keeps_ok provider type value a project organization
      scope_type scope_identifier :
  get_scope (team_id_of a) (user_id_of a) project organization
  = inr (scope_type, scope_identifier) ->
  keeps_ok (write_step provider type value a project organization
              scope_type scope_identifier).
Proof.
  intros Hscope. unfold write_step.
  destruct (bool_decide (value = NotificationSettingOptionValues.DEFAULT)) eqn:Hv;
    [apply remove_settings_keeps_ok|].
  apply bool_decide_eq_false in Hv.
  destruct (validate type value); cbn [negb];
    [|now apply keeps_ok_of_keeps, keeps_raise].
  apply _update_settings_keeps_ok; [exact Hv|].
  exact (get_scope_fits a project organization scope_type scope_identifier
           value Hscope _ _).
Qed.

(** The write to the setting records at a recipient's own scope, seen
    from the rebuild: the invariants and the known providers are kept,
    and the own-scope record of the provider and the alert type is gone
    for DEFAULT and holds the value otherwise. *)
Lemma write_step_own provider type value a scope_name s :
  RpcActor.id a <> 0 ->
  dict_get NOTIFICATION_SCOPE_TYPE (own_scope_type a) = Some scope_name ->
  is_Some (dict_get EXTERNAL_PROVIDERS provider) ->
  table_ok (settings s) = true ->
  providers_known (List.filter (own_scoped a) (settings s)) = true ->
  (value <> NotificationSettingOptionValues.DEFAULT ->
   validate type value = true) ->
  exists s1,
    write_step provider type value a None None (own_scope_type a)
      (RpcActor.id a) s = (inr tt, s1)
    /\ table_ok (settings s1) = true
    /\ providers_known (List.filter (own_scoped a) (settings s1)) = true
    /\ (value = NotificationSettingOptionValues.DEFAULT ->
        List.filter (own_setting a provider type) (settings s1) = [])
    /\ (value <> NotificationSettingOptionValues.DEFAULT ->
        exists r, In r (List.filter (own_setting a provider type) (settings s1))
                  /\ NotificationSetting.value r = value).
Proof.
  intros Hid Hsn Hp Hok Hknown Hvalid.
  pose proof (write_step_keeps_ok provider type value a None None
                (own_scope_type a) (RpcActor.id a) (get_scope_own a) s Hok)
    as Hok1.
  assert (Hparts : own_scopes (settings s) = true
                   /\ unique_keys (settings s) = true).
  { unfold table_ok in Hok. apply andb_true_iff in Hok as [H Hu].
    apply andb_true_iff in H as [_ Ho]. now split. }
  destruct Hparts as [Hown Huniq].
  unfold write_step in *.
  destruct (bool_decide (value = NotificationSettingOptionValues.DEFAULT)) eqn:Hv.
  - apply bool_decide_eq_true in Hv.
    destruct (remove_settings_single provider type a None None
                (own_scope_type a) (RpcActor.id a) scope_name s Hid
                (get_scope_own a) Hsn)
      as (s1 & Hrun & Hset & _).
    rewrite Hrun in Hok1. cbn [snd] in Hok1.
    exists s1. split; [exact Hrun|]. split; [exact Hok1|]. split; [|split].
    + unfold providers_known in *. rewrite forallb_forall in *.
      intros x Hx. apply Hknown. apply List.filter_In in Hx as [Hx Hox].
      rewrite Hset in Hx. apply List.filter_In in Hx as [Hx _].
      apply List.filter_In. now split.
    + intros _. apply filter_none. intros x Hx.
      destruct (own_setting a provider type x) eqn:Hox; [|reflexivity].
      exfalso. rewrite Hset in Hx. apply List.filter_In in Hx as [Hx Hm].
      apply negb_true_iff in Hm.
      unfold own_scopes in Hown. rewrite forallb_forall in Hown.
      pose proof (own_setting_same_key a provider type x (Hown x Hx) Hox) as Hk.
      apply same_key_key_record, recipient_query_covers in Hk. congruence.
    + intros Hnd. contradiction.
  - apply bool_decide_eq_false in Hv. rewrite (Hvalid Hv) in *. cbn [negb] in *.
    destruct (_update_settings_once provider type value (own_scope_type a)
                (RpcActor.id a) (user_id_of a) (team_id_of a) s
                (unique_keys_one _ _ _ _ _ _ _ Huniq))
      as (s1 & r & Hrun & Hrows & Hval & _).
    pose proof (_update_settings_known provider type value (own_scope_type a)
                  (RpcActor.id a) (user_id_of a) (team_id_of a) a s Hp Hknown)
      as Hknown1.
    rewrite Hrun in Hok1, Hknown1. cbn [snd] in Hok1, Hknown1.
    exists s1. split; [exact Hrun|]. split; [exact Hok1|].
    split; [exact Hknown1|]. split; [intros Hd; contradiction|].
    intros _. exists r. split; [|exact Hval].
    assert (Hr : In r (List.filter
                         (same_key (ExternalProviders.value provider)
                            (NotificationSettingTypes.value type)
                            (own_scope_type a) (RpcActor.id a)
                            (user_id_of a) (team_id_of a)) (settings s1)))
      by (rewrite Hrows; now left).
    apply List.filter_In in Hr as [Hr Hk]. apply List.filter_In.
    split; [exact Hr|]. now apply same_key_own_setting.
Qed.

(** The double write to the option table returns when the names are
    there, and leaves the setting records alone. *)
Lemma option_step_runs value type_name scope_name scope_identifier
      user_id team_id s :
  (value <> NotificationSettingOptionValues.DEFAULT ->
   is_Some (dict_get NOTIFICATION_SETTING_OPTION_VALUES value)) ->
  exists s2,
    (if bool_decide (value = NotificationSettingOptionValues.DEFAULT)
     then option_delete type_name scope_name scope_identifier user_id team_id
     else
       value_name <~
         db_lift (subscript "NOTIFICATION_SETTING_OPTION_VALUES"
                    NOTIFICATION_SETTING_OPTION_VALUES value) ;;
       option_create_or_update type_name scope_name scope_identifier
         user_id team_id value_name)%db s = (inr tt, s2)
    /\ settings s2 = settings s.
Proof.
  intros Hvn.
  destruct (bool_decide (value = NotificationSettingOptionValues.DEFAULT)) eqn:Hv.
  - eexists. split; reflexivity.
  - apply bool_decide_eq_false in Hv. destruct (Hvn Hv) as [vn Hname].
    unfold db_bind, db_lift, subscript. rewrite Hname.
    unfold option_create_or_update, db_write.
    eexists. split; [reflexivity|].
    destruct (existsb _ (options s)); reflexivity.
Qed.

(** X17. An update at a recipient's own scope shows in the projection.
    With tables that name the providers and the alert types apart, on a
    setting table that has the invariants of the data model and whose
    own-scope records of the recipient have providers of the provider
    table: [update_settings] for a recipient with an id other than zero,
    with neither project nor organization and without the skip flag, for
    a personal provider and an alert type of the compatibility table
    (both named, like the recipient's scope type), returns after DEFAULT
    and after a valid value that has a name.  After DEFAULT the recipient
    has no projection row at its own scope for the provider and the alert
    type; after the value it has one, and every such row holds NEVER when
    the value is NEVER and ALWAYS otherwise. *)
Theorem update_settings_projects (provider : ExternalProviders.t)
        (type : NotificationSettingTypes.t)
        (value : NotificationSettingOptionValues.t) (a : RpcActor.t)
        (provider_name0 type_name scope_name : string) (s : Store) :
  RpcActor.id a <> 0 ->
  types_named = true ->
  type_names_distinct = true ->
  provider_names_distinct = true ->
  In type (keys VALID_VALUES_FOR_KEY_V2) ->
  dict_get NOTIFICATION_SETTING_TYPES type = Some type_name ->
  dict_get NOTIFICATION_SCOPE_TYPE (own_scope_type a) = Some scope_name ->
  dict_get EXTERNAL_PROVIDERS provider = Some provider_name0 ->
  In provider_name0 PERSONAL_NOTIFICATION_PROVIDERS ->
  (value <> NotificationSettingOptionValues.DEFAULT ->
   validate type value = true
   /\ is_Some (dict_get NOTIFICATION_SETTING_OPTION_VALUES value)) ->
  explicit_values (settings s) = true ->
  own_scopes (settings s) = true ->
  unique_keys (settings s) = true ->
  providers_known (List.filter (own_scoped a) (settings s)) = true ->
  exists s',
    update_settings provider type value None (user_id_of a) (team_id_of a)
      None None None false s = (inr tt, s')
    /\ let rows :=
         List.filter (projection_row a provider_name0 type_name) (providers s') in
       (value = NotificationSettingOptionValues.DEFAULT -> rows = [])
       /\ (value <> NotificationSettingOptionValues.DEFAULT ->
           rows <> []
           /\ forall row, In row rows ->
                NotificationSettingProvider.value row = projected_value value).
Proof.
  intros Hid Hnamed Hdist Hpdist Hin Htn Hsn Hpn Hpers Hvalid Hexp Hown Huniq
         Hknown.
  rewrite (update_settings_steps provider type value a None None false
             (own_scope_type a) (RpcActor.id a) s (get_scope_own a)).
  set (s0 := snd (record_event (updated_event a) s)).
  assert (Hok : table_ok (settings s0) = true)
    by (unfold table_ok; cbn [s0 snd record_event db_write settings];
        now rewrite Hexp, Hown, Huniq).
  destruct (write_step_own provider type value a scope_name s0 Hid Hsn
              (ex_intro _ provider_name0 Hpn) Hok Hknown
              (fun H => proj1 (Hvalid H)))
    as (s1 & Hrun & Hok1 & Hknown1 & Hdef & Hval).
  unfold db_bind at 1. rewrite Hrun.
  unfold double_write.
  unfold db_bind at 1. unfold db_lift at 1, subscript at 1. rewrite Htn.
  unfold db_bind at 1. unfold db_lift at 1, subscript at 1. rewrite Hsn.
  destruct (option_step_runs value type_name scope_name (RpcActor.id a)
              (user_id_of a) (team_id_of a) s1 (fun H => proj2 (Hvalid H)))
    as (s2 & Hopt & Hs2).
  unfold db_bind at 1. rewrite Hopt.
  rewrite <- Hs2 in Hok1, Hknown1, Hdef, Hval.
  unfold table_ok in Hok1. apply andb_true_iff in Hok1 as [H Huniq2].
  apply andb_true_iff in H as [_ Hown2].
  destruct (rebuild_rows a s2 provider type provider_name0 type_name Hid Hnamed
              Hdist Hpdist Hknown1 Hown2 Huniq2 Hin Hpn Hpers Htn)
    as (s' & Hrb & Hnone & Hsome).
  exists s'. split; [exact Hrb|]. cbv zeta. split.
  - intros Hd. apply Hnone. now apply Hdef.
  - intros Hnd. destruct (Hval Hnd) as (r & Hr & Hv).
    rewrite <- Hv. exact (Hsome r Hr).
Qed.

(** *** Calls that name two recipients, or none *)



End Manager.

(** ** A catalog and a store for the examples *)

(** A small instance of the imported tables: two providers, three alert
    types, and a default policy that opts in to everything. *)
Module Demo.

Definition EMAIL : ExternalProviders.t := ExternalProviders.Member 100.
Definition SLACK : ExternalProviders.t := ExternalProviders.Member 110.

Definition DEPLOY : NotificationSettingTypes.t := NotificationSettingTypes.Member 10.
Definition ISSUE_ALERTS : NotificationSettingTypes.t :=
  NotificationSettingTypes.Member 20.
Definition WORKFLOW : NotificationSettingTypes.t := NotificationSettingTypes.Member 30.

Definition EXTERNAL_PROVIDERS : dict ExternalProviders.t string :=
  [(EMAIL, "email"); (SLACK, "slack")].

Definition PERSONAL_NOTIFICATION_PROVIDERS : list string := ["email"; "slack"].

Definition NOTIFICATION_SETTING_TYPES : dict NotificationSettingTypes.t string :=
  [(DEPLOY, "deploy"); (ISSUE_ALERTS, "alerts"); (WORKFLOW, "workflow")].

Definition NOTIFICATION_SCOPE_TYPE : dict NotificationScopeType.t string :=
  [(NotificationScopeType.USER, "user");
   (NotificationScopeType.ORGANIZATION, "organization");
   (NotificationScopeType.PROJECT, "project");
   (NotificationScopeType.TEAM, "team")].

Definition NOTIFICATION_SETTING_OPTION_VALUES
  : dict NotificationSettingOptionValues.t string :=
  [(NotificationSettingOptionValues.DEFAULT, "default");
   (NotificationSettingOptionValues.NEVER, "never");
   (NotificationSettingOptionValues.ALWAYS, "always");
   (NotificationSettingOptionValues.SUBSCRIBE_ONLY, "subscribe_only");
   (NotificationSettingOptionValues.COMMITTED_ONLY, "committed_only")].

Definition VALID_VALUES_FOR_KEY_V2
  : dict NotificationSettingTypes.t (list NotificationSettingOptionValues.t) :=
  [(DEPLOY, [NotificationSettingOptionValues.NEVER;
             NotificationSettingOptionValues.ALWAYS;
             NotificationSettingOptionValues.COMMITTED_ONLY]);
   (ISSUE_ALERTS, [NotificationSettingOptionValues.NEVER;
                   NotificationSettingOptionValues.ALWAYS]);
   (WORKFLOW, [NotificationSettingOptionValues.NEVER;
               NotificationSettingOptionValues.ALWAYS;
               NotificationSettingOptionValues.SUBSCRIBE_ONLY])].

(** Deploy alerts are set per organization, the others per project. *)
Definition get_scope_type (type : NotificationSettingTypes.t)
  : exn + NotificationScopeType.t :=
  if NotificationSettingTypes.value type =? 10
  then inr NotificationScopeType.ORGANIZATION
  else inr NotificationScopeType.PROJECT.

Definition str_of_type (type : NotificationSettingTypes.t) : string :=
  match dict_get NOTIFICATION_SETTING_TYPES type with
  | Some name => "NotificationSettingTypes." ++ name
  | None => "NotificationSettingTypes"
  end.

Definition default_policy (type : string) (provider : ExternalProviders.t)
  : NotificationSettingOptionValues.t :=
  NotificationSettingOptionValues.ALWAYS.

Definition user (i : Z) : RpcActor.t := RpcActor.Build ActorType.USER i.
Definition team (i : Z) : RpcActor.t := RpcActor.Build ActorType.TEAM i.

Definition empty_store : Store :=
  {| settings := []; next_pk := 1; options := []; providers := [];
     analytics := [] |}.

(** User 1 takes issue alerts by email, but not for project 7; team 4
    never takes them on Slack.  The projection holds a stale Slack row of
    user 1. *)
Definition store : Store :=
  {| settings :=
       [NotificationSetting.Build 1 100 20 NotificationScopeType.USER 1
          (Some 1) None NotificationSettingOptionValues.ALWAYS;
        NotificationSetting.Build 2 100 20 NotificationScopeType.PROJECT 7
          (Some 1) None NotificationSettingOptionValues.NEVER;
        NotificationSetting.Build 3 110 20 NotificationScopeType.TEAM 4
          None (Some 4) NotificationSettingOptionValues.NEVER;
        NotificationSetting.Build 4 100 10 NotificationScopeType.ORGANIZATION 5
          (Some 1) None NotificationSettingOptionValues.COMMITTED_ONLY];
     next_pk := 5;
     options := [];
     providers :=
       [NotificationSettingProvider.Build "slack" "alerts"
          NotificationScopeEnum.USER 1 (Some 1) None
          NotificationSettingsOptionEnum.ALWAYS];
     analytics := [] |}.

(** The manager over this catalog. *)
Definition update_provider_settings : option Z -> option Z -> Db unit :=
  update_provider_settings EXTERNAL_PROVIDERS PERSONAL_NOTIFICATION_PROVIDERS
    NOTIFICATION_SETTING_TYPES VALID_VALUES_FOR_KEY_V2.

Definition update_settings (provider : ExternalProviders.t)
           (type : NotificationSettingTypes.t)
           (value : NotificationSettingOptionValues.t)
           (user_id team_id project organization : option Z) : Db unit :=
  update_settings EXTERNAL_PROVIDERS PERSONAL_NOTIFICATION_PROVIDERS
    NOTIFICATION_SETTING_TYPES NOTIFICATION_SCOPE_TYPE
    NOTIFICATION_SETTING_OPTION_VALUES VALID_VALUES_FOR_KEY_V2 str_of_type
    provider type value None user_id team_id project organization None false.

Definition filter_to_accepting_recipients
  : Parent.t -> list RpcActor.t -> option NotificationSettingTypes.t ->
    Db (dict ExternalProviders.t (list RpcActor.t)) :=
  filter_to_accepting_recipients EXTERNAL_PROVIDERS NOTIFICATION_SETTING_TYPES
    default_policy "alerts".

End Demo.

(** ** The properties at the examples *)

(** The rebuild for user 1 on the example store: the stale Slack row is
    deleted and the email row for issue alerts is written. *)
Example rebuild_example :
  providers (snd (Demo.update_provider_settings (Some 1) None Demo.store))
  = [NotificationSettingProvider.Build "email" "alerts"
       NotificationScopeEnum.USER 1 (Some 1) None
       NotificationSettingsOptionEnum.ALWAYS].
Proof. vm_compute. reflexivity. Qed.

(** [remove_for_project(0)] deletes the record of project 7. *)
Example remove_for_project_zero_example :
  map NotificationSetting.id
      (settings (snd (remove_for_project 0 None Demo.store)))
  = [1; 3; 4].
Proof. vm_compute. reflexivity. Qed.

(** With both a user id and a team id [update_settings] records the
    event under the team's id, the team overriding the user when the
    actor is chosen, and goes on to the resolver; the resolver as the
    specification describes it then rejects the two ids. *)
Example update_settings_both_ids :
  Demo.update_settings Demo.EMAIL Demo.ISSUE_ALERTS
    NotificationSettingOptionValues.ALWAYS (Some 1) (Some 4) None None
    Demo.empty_store
  = (inl InvalidScopeError,
     {| settings := []; next_pk := 1; options := []; providers := [];
        analytics := [updated_event (Demo.team 4)] |}).
Proof. vm_compute. reflexivity. Qed.

(** With two ids other than zero the read path fails at its own
    assertion, before the resolver is asked. *)
Example find_settings_both_ids :
  find_settings Demo.EMAIL Demo.ISSUE_ALERTS (Some 1) (Some 4) None None
  = inl (AssertionError "Can only get settings for team or user").
Proof. vm_compute. reflexivity. Qed.

(** With two records under one key (a table that breaks the uniqueness
    invariant) [get_settings] raises nothing and returns the value of the
    one that comes first in the table, here the one with the higher id. *)
Example get_settings_first_of_two :
  let two :=
    set_settings
      [NotificationSetting.Build 9 100 20 NotificationScopeType.USER 1
         (Some 1) None NotificationSettingOptionValues.NEVER;
       NotificationSetting.Build 2 100 20 NotificationScopeType.USER 1
         (Some 1) None NotificationSettingOptionValues.ALWAYS]
      Demo.empty_store in
  get_settings Demo.EMAIL Demo.ISSUE_ALERTS (Some 1) None None None two
  = (inr NotificationSettingOptionValues.NEVER, two).
Proof. vm_compute. reflexivity. Qed.

(** The invariant on stored values matters for C1: a stored DEFAULT row,
    which [update_settings] never writes, would be projected as ALWAYS. *)
Example stored_default_is_projected :
  let odd :=
    set_settings
      [NotificationSetting.Build 1 100 20 NotificationScopeType.USER 1
         (Some 1) None NotificationSettingOptionValues.DEFAULT]
      Demo.empty_store in
  providers (snd (Demo.update_provider_settings (Some 1) None odd))
  = [NotificationSettingProvider.Build "email" "alerts"
       NotificationScopeEnum.USER 1 (Some 1) None
       NotificationSettingsOptionEnum.ALWAYS].
Proof. vm_compute. reflexivity. Qed.

(** The hypotheses of C1 hold for user 1 on the example store, and the
    rebuild returns. *)
Lemma projection_after_rebuild_witness :
  types_named Demo.NOTIFICATION_SETTING_TYPES Demo.VALID_VALUES_FOR_KEY_V2 = true
  /\ type_names_distinct Demo.NOTIFICATION_SETTING_TYPES
       Demo.VALID_VALUES_FOR_KEY_V2 = true
  /\ provider_names_distinct Demo.EXTERNAL_PROVIDERS = true
  /\ explicit_values (settings Demo.store) = true
  /\ own_scopes (settings Demo.store) = true
  /\ unique_keys (settings Demo.store) = true
  /\ exists s',
      Demo.update_provider_settings (Some 1) None Demo.store = (inr tt, s')
      /\ settings s' = settings Demo.store
      /\ List.filter (projection_row (Demo.user 1) "email" "alerts") (providers s')
         <> [].
Proof.
  assert (H1 : types_named Demo.NOTIFICATION_SETTING_TYPES
                 Demo.VALID_VALUES_FOR_KEY_V2 = true) by (vm_compute; reflexivity).
  assert (H2 : type_names_distinct Demo.NOTIFICATION_SETTING_TYPES
                 Demo.VALID_VALUES_FOR_KEY_V2 = true) by (vm_compute; reflexivity).
  assert (H3 : provider_names_distinct Demo.EXTERNAL_PROVIDERS = true)
    by (vm_compute; reflexivity).
  assert (H4 : explicit_values (settings Demo.store) = true)
    by (vm_compute; reflexivity).
  assert (H5 : own_scopes (settings Demo.store) = true)
    by (vm_compute; reflexivity).
  assert (H6 : unique_keys (settings Demo.store) = true)
    by (vm_compute; reflexivity).
  repeat (split; [assumption|]).
  destruct (projection_after_rebuild Demo.EXTERNAL_PROVIDERS
              Demo.PERSONAL_NOTIFICATION_PROVIDERS Demo.NOTIFICATION_SETTING_TYPES
              Demo.VALID_VALUES_FOR_KEY_V2 (Demo.user 1) Demo.store)
    as (s' & Hrun & Hkeep & Hrows & _);
    [cbn; lia | assumption | assumption | assumption
     | vm_compute; reflexivity | assumption | assumption | assumption |].
  exists s'. split; [exact Hrun|]. split; [exact Hkeep|].
  destruct (Hrows Demo.ISSUE_ALERTS Demo.EMAIL "email" "alerts")
    as [[_ Hne] _].
  - right. now left.
  - reflexivity.
  - now left.
  - reflexivity.
  - apply Hne.
    exists (NotificationSetting.Build 1 100 20 NotificationScopeType.USER 1
              (Some 1) None NotificationSettingOptionValues.ALWAYS).
    split; [now left | discriminate].
Defined.

(** The hypotheses of C2 hold for user 1 and project 7, and the read after
    the reset gives DEFAULT. *)
Lemma reset_to_default_witness :
  let s' :=
    snd (Demo.update_settings Demo.EMAIL Demo.ISSUE_ALERTS
           NotificationSettingOptionValues.DEFAULT (Some 1) None (Some 7) None
           Demo.store) in
  get_scope None (Some 1) (Some 7) None = inr (NotificationScopeType.PROJECT, 7)
  /\ dict_get Demo.NOTIFICATION_SCOPE_TYPE NotificationScopeType.PROJECT
     = Some "project"
  /\ get_settings Demo.EMAIL Demo.ISSUE_ALERTS (Some 1) None (Some 7) None s'
     = (inr NotificationSettingOptionValues.DEFAULT, s').
Proof.
  split; [reflexivity|]. split; [reflexivity|].
  apply (reset_to_default Demo.EXTERNAL_PROVIDERS
           Demo.PERSONAL_NOTIFICATION_PROVIDERS Demo.NOTIFICATION_SETTING_TYPES
           Demo.NOTIFICATION_SCOPE_TYPE Demo.NOTIFICATION_SETTING_OPTION_VALUES
           Demo.VALID_VALUES_FOR_KEY_V2 Demo.str_of_type
           Demo.EMAIL Demo.ISSUE_ALERTS (Demo.user 1) (Some 7) None false
           NotificationScopeType.PROJECT 7 "project" Demo.store).
  - cbn. lia.
  - reflexivity.
  - reflexivity.
Defined.

(** The hypotheses of C3 hold for user 1 and project 7, where the one
    record of the key holds NEVER. *)
Lemma get_settings_lookup_witness :
  get_scope None (Some 1) (Some 7) None = inr (NotificationScopeType.PROJECT, 7)
  /\ get_settings Demo.EMAIL Demo.ISSUE_ALERTS (Some 1) None (Some 7) None
       Demo.store
     = (inr NotificationSettingOptionValues.NEVER, Demo.store).
Proof.
  split; [reflexivity|].
  apply (proj1 (get_settings_lookup Demo.EMAIL Demo.ISSUE_ALERTS (Demo.user 1)
                  (Some 7) None NotificationScopeType.PROJECT 7 Demo.store
                  ltac:(cbn; lia) eq_refl ltac:(lia))
               (NotificationSetting.Build 2 100 20 NotificationScopeType.PROJECT 7
                  (Some 1) None NotificationSettingOptionValues.NEVER)).
  vm_compute. reflexivity.
Defined.

(** C4 fails as stated: the second of two equal calls of [update_settings]
    records the event again. *)
Lemma update_settings_fires_again :
  let run :=
    Demo.update_settings Demo.EMAIL Demo.ISSUE_ALERTS
      NotificationSettingOptionValues.ALWAYS (Some 1) None None None in
  let s1 := snd (run Demo.empty_store) in
  let s2 := snd (run s1) in
  length (analytics s1) = 1%nat
  /\ length (analytics s2) = 2%nat
  /\ analytics s2 <> analytics s1.
Proof.
  split; [vm_compute; reflexivity|]. split; [vm_compute; reflexivity|].
  intros H. apply (f_equal (@length _)) in H. vm_compute in H. discriminate.
Qed.

(** The hypotheses of the amended C4 hold for user 1 writing ALWAYS twice
    on the example store. *)
Lemma update_settings_twice_witness :
  let run :=
    Demo.update_settings Demo.EMAIL Demo.ISSUE_ALERTS
      NotificationSettingOptionValues.ALWAYS (Some 1) None None None in
  let s1 := snd (run Demo.store) in
  let s2 := snd (run s1) in
  validate Demo.VALID_VALUES_FOR_KEY_V2 Demo.ISSUE_ALERTS
    NotificationSettingOptionValues.ALWAYS = true
  /\ settings s2 = settings s1
  /\ analytics s2 = (analytics s1 ++ [updated_event (Demo.user 1)])%list.
Proof.
  split; [reflexivity|].
  destruct (update_settings_twice Demo.EXTERNAL_PROVIDERS
              Demo.PERSONAL_NOTIFICATION_PROVIDERS Demo.NOTIFICATION_SETTING_TYPES
              Demo.NOTIFICATION_SCOPE_TYPE Demo.NOTIFICATION_SETTING_OPTION_VALUES
              Demo.VALID_VALUES_FOR_KEY_V2 Demo.str_of_type
              Demo.EMAIL Demo.ISSUE_ALERTS NotificationSettingOptionValues.ALWAYS
              (Demo.user 1) None None false NotificationScopeType.USER 1
              Demo.store)
    as (_ & Hsame & _ & Hfire & _).
  - discriminate.
  - reflexivity.
  - reflexivity.
  - vm_compute. lia.
  - split; [exact Hsame | exact Hfire].
Defined.

(** The hypotheses of C5 hold in the scenario of the specification: user 1
    has NEVER for email at project 7 and ALWAYS as the global value, and
    is not listed under email. *)
Lemma parent_scope_wins_witness :
  In (NotificationSetting.Build 1 100 20 NotificationScopeType.USER 1
        (Some 1) None NotificationSettingOptionValues.ALWAYS)
     (settings Demo.store)
  /\ List.filter
       (parent_record Demo.NOTIFICATION_SETTING_TYPES (Parent.Project 7 5)
          "alerts" Demo.EMAIL (Demo.user 1)) (settings Demo.store)
     = [NotificationSetting.Build 2 100 20 NotificationScopeType.PROJECT 7
          (Some 1) None NotificationSettingOptionValues.NEVER]
  /\ exists groups,
      Demo.filter_to_accepting_recipients (Parent.Project 7 5) [Demo.user 1]
        (Some Demo.ISSUE_ALERTS) Demo.store = (inr groups, Demo.store)
      /\ (forall rs, In (Demo.EMAIL, rs) groups -> ~ In (Demo.user 1) rs)
      /\ exists rs, In (Demo.EMAIL, rs) groups.
Proof.
  split; [now left|]. split; [vm_compute; reflexivity|].
  destruct (parent_scope_wins Demo.EXTERNAL_PROVIDERS
              Demo.NOTIFICATION_SETTING_TYPES Demo.default_policy "alerts"
              (Parent.Project 7 5) [Demo.user 1] (Some Demo.ISSUE_ALERTS)
              "alerts" Demo.EMAIL (Demo.user 1)
              NotificationSettingOptionValues.NEVER Demo.store)
    as (groups & Hrun & _ & Hout & Hcat).
  - reflexivity.
  - now left.
  - vm_compute. discriminate.
  - intros r Hin. vm_compute in Hin. destruct Hin as [<- | []]. reflexivity.
  - exists groups. split; [exact Hrun|]. split; [now apply Hout|].
    apply Hcat. now left.
Defined.

(** The hypotheses of C7 hold for SUBSCRIBE_ONLY, which the example
    catalog does not allow for issue alerts. *)
Lemma invalid_value_rejected_witness :
  validate Demo.VALID_VALUES_FOR_KEY_V2 Demo.ISSUE_ALERTS
    NotificationSettingOptionValues.SUBSCRIBE_ONLY = false
  /\ exists s',
      Demo.update_settings Demo.EMAIL Demo.ISSUE_ALERTS
        NotificationSettingOptionValues.SUBSCRIBE_ONLY (Some 1) None None None
        Demo.store
      = (inl (Exception_ "value '{value}' is not valid for type '{type}'"), s')
      /\ same_tables Demo.store s'.
Proof.
  split; [reflexivity|].
  destruct (invalid_value_rejected Demo.EXTERNAL_PROVIDERS
              Demo.PERSONAL_NOTIFICATION_PROVIDERS Demo.NOTIFICATION_SETTING_TYPES
              Demo.NOTIFICATION_SCOPE_TYPE Demo.NOTIFICATION_SETTING_OPTION_VALUES
              Demo.VALID_VALUES_FOR_KEY_V2 Demo.str_of_type
              Demo.EMAIL Demo.ISSUE_ALERTS
              NotificationSettingOptionValues.SUBSCRIBE_ONLY (Demo.user 1)
              None None false Demo.store)
    as (s' & Hrun & Hsame & _).
  - discriminate.
  - reflexivity.
  - exists s'. split; [exact Hrun | exact Hsame].
Defined.

(** The hypothesis of C8 holds for project 7: its record goes, the three
    others stay. *)
Lemma remove_for_project_exact_witness :
  7 <> 0
  /\ exists s',
      remove_for_project 7 None Demo.store = (inr tt, s')
      /\ map NotificationSetting.id (settings s') = [1; 3; 4].
Proof.
  split; [lia|].
  destruct (remove_for_project_exact 7 None Demo.store ltac:(lia))
    as (s' & Hrun & Hset & _).
  exists s'. split; [exact Hrun|]. rewrite Hset. vm_compute. reflexivity.
Defined.

(** C9 fails as stated: for deploy alerts, whose tier is the
    organization, and a project with id 5 as the parent, the lookup returns
    the record of user 1 at organization 5, which is not scoped to the
    project, to a user or to a team. *)
Lemma get_for_recipient_by_parent_tier_of_type :
  let parent := Parent.Project 5 9 in
  let r := NotificationSetting.Build 4 100 10 NotificationScopeType.ORGANIZATION 5
             (Some 1) None NotificationSettingOptionValues.COMMITTED_ONLY in
  exists q,
    get_for_recipient_by_parent Demo.get_scope_type Demo.DEPLOY parent
      [Demo.user 1] = inr q
    /\ In r (List.filter (matches q) (settings Demo.store))
    /\ ~ record_of_batch (natural_tier parent) Demo.DEPLOY parent [Demo.user 1] r.
Proof.
  eexists. split; [vm_compute; reflexivity|]. split.
  - vm_compute. now left.
  - intros (_ & _ & [[Hst _] | [[Hst _] | [Hst _]]]); discriminate.
Qed.

(** The same happens whatever [get_scope_type] is: it sees the alert type
    only, so for each alert type there is a kind of parent whose own tier
    it does not give, and a record at the parent's own tier is left out. *)
Lemma tier_ignores_parent
      (get_scope_type : NotificationSettingTypes.t -> exn + NotificationScopeType.t)
      (type_ : NotificationSettingTypes.t) (tier : NotificationScopeType.t) :
  get_scope_type type_ = inr tier ->
  exists parent r q,
    get_for_recipient_by_parent get_scope_type type_ parent [Demo.user 1] = inr q
    /\ record_of_batch (natural_tier parent) type_ parent [Demo.user 1] r
    /\ matches q r = false.
Proof.
  intros Htier.
  set (parent := if bool_decide (tier = NotificationScopeType.PROJECT)
                 then Parent.Organization 5 else Parent.Project 5 9).
  exists parent,
    (NotificationSetting.Build 1 0 (NotificationSettingTypes.value type_)
       (natural_tier parent) 5 (Some 1) None
       NotificationSettingOptionValues.ALWAYS).
  unfold get_for_recipient_by_parent.
  cbn [fold_left add_recipient Demo.user RpcActor.actor_type RpcActor.id].
  rewrite (bool_decide_eq_false_2 (ActorType.USER = ActorType.TEAM)) by discriminate.
  rewrite (bool_decide_eq_true_2 (ActorType.USER = ActorType.USER)) by reflexivity.
  rewrite nonempty_empty, nonempty_singleton, Htier. cbn [orb negb].
  eexists. split; [reflexivity|]. split.
  - split; [reflexivity|]. split.
    + right. exists 1. split; [reflexivity | now left].
    + left. split; [reflexivity|]. subst parent. now destruct (bool_decide _).
  - subst parent. destruct tier; vm_compute; reflexivity.
Qed.

(** The hypothesis of the amended C9 holds for issue alerts, whose tier is
    the project, with project 7 as the parent. *)
Lemma get_for_recipient_by_parent_rows_witness :
  Demo.get_scope_type Demo.ISSUE_ALERTS = inr NotificationScopeType.PROJECT
  /\ exists q,
      get_for_recipient_by_parent Demo.get_scope_type Demo.ISSUE_ALERTS
        (Parent.Project 7 5) [Demo.user 1; Demo.team 4] = inr q
      /\ forall r,
          In r (List.filter (matches q) (settings Demo.store))
          <-> In r (settings Demo.store)
              /\ record_of_batch NotificationScopeType.PROJECT Demo.ISSUE_ALERTS
                   (Parent.Project 7 5) [Demo.user 1; Demo.team 4] r.
Proof.
  split; [reflexivity|].
  apply (get_for_recipient_by_parent_rows Demo.get_scope_type Demo.ISSUE_ALERTS
           (Parent.Project 7 5) [Demo.user 1; Demo.team 4]
           NotificationScopeType.PROJECT Demo.store eq_refl).
Defined.



(** ** The further properties at the examples *)

(** Organization 5 on the example store: the one record scoped to it is
    deleted, the others stay. *)
Lemma remove_for_organization_exact_witness :
  5 <> 0
  /\ map NotificationSetting.id
       (settings (snd (remove_for_organization 5 None Demo.store)))
     = [1; 2; 3].
Proof.
  split; [lia|].
  pose proof (remove_for_organization_exact 5 None Demo.store ltac:(lia)) as H.
  cbv zeta in H. destruct H as (_ & Hset & _). rewrite Hset.
  vm_compute. reflexivity.
Defined.

(** A store written by one [update_settings] from the empty table has the
    invariants. *)
Lemma manager_keeps_invariants_witness :
  let s :=
    snd (Demo.update_settings Demo.EMAIL Demo.ISSUE_ALERTS
           NotificationSettingOptionValues.ALWAYS (Some 1) None None None
           Demo.empty_store) in
  written Demo.EXTERNAL_PROVIDERS Demo.PERSONAL_NOTIFICATION_PROVIDERS
    Demo.NOTIFICATION_SETTING_TYPES Demo.NOTIFICATION_SCOPE_TYPE
    Demo.NOTIFICATION_SETTING_OPTION_VALUES Demo.VALID_VALUES_FOR_KEY_V2
    Demo.str_of_type s
  /\ length (settings s) = 1%nat
  /\ unique_keys (settings s) = true
  /\ single_owner (settings s) = true.
Proof.
  intros s.
  assert (Hw : written Demo.EXTERNAL_PROVIDERS
                 Demo.PERSONAL_NOTIFICATION_PROVIDERS
                 Demo.NOTIFICATION_SETTING_TYPES Demo.NOTIFICATION_SCOPE_TYPE
                 Demo.NOTIFICATION_SETTING_OPTION_VALUES
                 Demo.VALID_VALUES_FOR_KEY_V2 Demo.str_of_type s).
  { subst s. unfold Demo.update_settings. apply written_update_settings.
    apply written_empty. reflexivity. }
  split; [exact Hw|]. split; [vm_compute; reflexivity|].
  destruct (manager_keeps_invariants _ _ _ _ _ _ _ s Hw)
    as (_ & Hu & Ho & _).
  now split.
Defined.

(** User 1 and project 7 on the example store: [remove_settings] deletes
    the record of the key and no other. *)
Lemma remove_settings_exact_witness :
  RpcActor.id (Demo.user 1) <> 0
  /\ get_scope None (Some 1) (Some 7) None
     = inr (NotificationScopeType.PROJECT, 7)
  /\ dict_get Demo.NOTIFICATION_SCOPE_TYPE NotificationScopeType.PROJECT
     = Some "project"
  /\ map NotificationSetting.id
       (settings
          (snd (remove_settings Demo.NOTIFICATION_SCOPE_TYPE Demo.str_of_type
                  Demo.EMAIL Demo.ISSUE_ALERTS None (Some 1) None (Some 7) None
                  Demo.store)))
     = [1; 3; 4].
Proof.
  split; [cbn; lia|]. split; [reflexivity|]. split; [reflexivity|].
  pose proof (remove_settings_exact Demo.NOTIFICATION_SCOPE_TYPE
                Demo.str_of_type Demo.EMAIL Demo.ISSUE_ALERTS (Demo.user 1)
                (Some 7) None NotificationScopeType.PROJECT 7 "project"
                Demo.store ltac:(cbn; lia) eq_refl ltac:(lia) eq_refl) as H.
  cbv zeta in H. destruct H as (_ & Hset & _).
  change (user_id_of (Demo.user 1)) with (Some 1) in Hset.
  change (team_id_of (Demo.user 1)) with (@None Z) in Hset.
  rewrite Hset. vm_compute. reflexivity.
Defined.

(** User 1 writes ALWAYS for project 7 on the example store: the records
    of the other keys are as they were. *)
Lemma update_settings_other_records_witness :
  let key :=
    key_record Demo.EMAIL Demo.ISSUE_ALERTS NotificationScopeType.PROJECT 7
      (Demo.user 1) in
  let s' :=
    snd (Demo.update_settings Demo.EMAIL Demo.ISSUE_ALERTS
           NotificationSettingOptionValues.ALWAYS (Some 1) None (Some 7) None
           Demo.store) in
  NoDup (map NotificationSetting.id (settings Demo.store))
  /\ List.filter (fun r => negb (key r)) (settings s')
     = List.filter (fun r => negb (key r)) (settings Demo.store).
Proof.
  intros key s'.
  assert (Hnd : NoDup (map NotificationSetting.id (settings Demo.store)))
    by (apply (bool_decide_eq_true_1 _); vm_compute; reflexivity).
  split; [exact Hnd|].
  exact (update_settings_other_records Demo.EXTERNAL_PROVIDERS
           Demo.PERSONAL_NOTIFICATION_PROVIDERS Demo.NOTIFICATION_SETTING_TYPES
           Demo.NOTIFICATION_SCOPE_TYPE Demo.NOTIFICATION_SETTING_OPTION_VALUES
           Demo.VALID_VALUES_FOR_KEY_V2 Demo.str_of_type
           Demo.EMAIL Demo.ISSUE_ALERTS NotificationSettingOptionValues.ALWAYS
           (Demo.user 1) (Some 7) None false NotificationScopeType.PROJECT 7
           Demo.store ltac:(cbn; lia) eq_refl ltac:(lia) Hnd).
Defined.

(** User 1 writes NEVER at the own scope on the example store, where the
    record held ALWAYS: the read gives NEVER. *)
Lemma update_then_get_witness :
  let s' :=
    snd (Demo.update_settings Demo.EMAIL Demo.ISSUE_ALERTS
           NotificationSettingOptionValues.NEVER (Some 1) None None None
           Demo.store) in
  validate Demo.VALID_VALUES_FOR_KEY_V2 Demo.ISSUE_ALERTS
    NotificationSettingOptionValues.NEVER = true
  /\ unique_keys (settings Demo.store) = true
  /\ one_owner (settings Demo.store) = true
  /\ get_settings Demo.EMAIL Demo.ISSUE_ALERTS (Some 1) None None None s'
     = (inr NotificationSettingOptionValues.NEVER, s').
Proof.
  intros s'.
  split; [vm_compute; reflexivity|]. split; [vm_compute; reflexivity|].
  split; [vm_compute; reflexivity|].
  exact (update_then_get Demo.EXTERNAL_PROVIDERS
           Demo.PERSONAL_NOTIFICATION_PROVIDERS Demo.NOTIFICATION_SETTING_TYPES
           Demo.NOTIFICATION_SCOPE_TYPE Demo.NOTIFICATION_SETTING_OPTION_VALUES
           Demo.VALID_VALUES_FOR_KEY_V2 Demo.str_of_type
           Demo.EMAIL Demo.ISSUE_ALERTS NotificationSettingOptionValues.NEVER
           (Demo.user 1) None None false NotificationScopeType.USER 1
           Demo.store ltac:(cbn; lia) eq_refl ltac:(lia)
           ltac:(discriminate) ltac:(vm_compute; reflexivity)
           ltac:(vm_compute; reflexivity) ltac:(vm_compute; reflexivity)).
Defined.

(** User 1 writes NEVER at the own scope on the example store: the read
    for project 7 gives what it gave before. *)
Lemma update_leaves_other_keys_witness :
  let s' :=
    snd (Demo.update_settings Demo.EMAIL Demo.ISSUE_ALERTS
           NotificationSettingOptionValues.NEVER (Some 1) None None None
           Demo.store) in
  get_scope None (Some 1) None None = inr (NotificationScopeType.USER, 1)
  /\ get_scope None (Some 1) (Some 7) None
     = inr (NotificationScopeType.PROJECT, 7)
  /\ one_owner (settings Demo.store) = true
  /\ fst (get_settings Demo.EMAIL Demo.ISSUE_ALERTS (Some 1) None (Some 7) None
            s')
     = fst (get_settings Demo.EMAIL Demo.ISSUE_ALERTS (Some 1) None (Some 7)
              None Demo.store).
Proof.
  intros s'.
  split; [reflexivity|]. split; [reflexivity|].
  split; [vm_compute; reflexivity|].
  exact (update_leaves_other_keys Demo.EXTERNAL_PROVIDERS
           Demo.PERSONAL_NOTIFICATION_PROVIDERS Demo.NOTIFICATION_SETTING_TYPES
           Demo.NOTIFICATION_SCOPE_TYPE Demo.NOTIFICATION_SETTING_OPTION_VALUES
           Demo.VALID_VALUES_FOR_KEY_V2 Demo.str_of_type
           Demo.EMAIL Demo.ISSUE_ALERTS NotificationSettingOptionValues.NEVER
           (Demo.user 1) None None false NotificationScopeType.USER 1
           Demo.EMAIL Demo.ISSUE_ALERTS (Demo.user 1) (Some 7) None
           NotificationScopeType.PROJECT 7 Demo.store
           ltac:(cbn; lia) eq_refl ltac:(lia)
           ltac:(cbn; lia) eq_refl ltac:(lia)
           ltac:(discriminate)
           ltac:(apply (bool_decide_eq_true_1 _); vm_compute; reflexivity)
           ltac:(vm_compute; reflexivity)).
Defined.

(** User 1 writes NEVER at the own scope on the example store: the
    option table has rows for the key, all holding the name of NEVER. *)
Lemma option_rows_follow_witness :
  let s' :=
    snd (Demo.update_settings Demo.EMAIL Demo.ISSUE_ALERTS
           NotificationSettingOptionValues.NEVER (Some 1) None None None
           Demo.store) in
  let key := option_key "alerts" "user" 1 (Some 1) None in
  dict_get Demo.NOTIFICATION_SETTING_TYPES Demo.ISSUE_ALERTS = Some "alerts"
  /\ dict_get Demo.NOTIFICATION_SCOPE_TYPE NotificationScopeType.USER
     = Some "user"
  /\ List.filter key (options s') <> []
  /\ forall row, In row (List.filter key (options s')) ->
       NotificationSettingOption.value row = "never".
Proof.
  intros s' key.
  split; [reflexivity|]. split; [reflexivity|].
  pose proof (option_rows_follow Demo.EXTERNAL_PROVIDERS
                Demo.PERSONAL_NOTIFICATION_PROVIDERS
                Demo.NOTIFICATION_SETTING_TYPES Demo.NOTIFICATION_SCOPE_TYPE
                Demo.NOTIFICATION_SETTING_OPTION_VALUES
                Demo.VALID_VALUES_FOR_KEY_V2 Demo.str_of_type
                Demo.EMAIL Demo.ISSUE_ALERTS
                NotificationSettingOptionValues.NEVER (Demo.user 1) None None
                false NotificationScopeType.USER 1 "alerts" "user" Demo.store
                eq_refl eq_refl eq_refl) as H.
  cbv zeta in H. destruct H as [_ H].
  destruct (H "never" ltac:(discriminate) ltac:(vm_compute; reflexivity)
              eq_refl ltac:(vm_compute; lia)) as (Hne & Hall & _).
  split; [exact Hne | exact Hall].
Defined.

(** The rebuild for user 1 on the example store returns, and a second
    rebuild leaves what the first one left. *)
Lemma update_provider_settings_twice_witness :
  let s1 := snd (Demo.update_provider_settings (Some 1) None Demo.store) in
  Demo.update_provider_settings (Some 1) None Demo.store = (inr tt, s1)
  /\ Demo.update_provider_settings (Some 1) None s1 = (inr tt, s1).
Proof.
  intros s1.
  assert (Hrun : Demo.update_provider_settings (Some 1) None Demo.store
                 = (inr tt, s1)) by (vm_compute; reflexivity).
  split; [exact Hrun|].
  exact (update_provider_settings_twice Demo.EXTERNAL_PROVIDERS
           Demo.PERSONAL_NOTIFICATION_PROVIDERS Demo.NOTIFICATION_SETTING_TYPES
           Demo.VALID_VALUES_FOR_KEY_V2 (Demo.user 1) Demo.store s1
           ltac:(cbn; lia) ltac:(vm_compute; reflexivity)
           ltac:(vm_compute; reflexivity) Hrun).
Defined.

(** The project 7 with a user and a team, and the organization 7 with
    the same two in the other order and the user twice: one query. *)
Lemma get_for_recipient_by_parent_set_witness :
  Parent.id (Parent.Project 7 5) = Parent.id (Parent.Organization 7)
  /\ get_for_recipient_by_parent Demo.get_scope_type Demo.ISSUE_ALERTS
       (Parent.Project 7 5) [Demo.user 1; Demo.team 4]
     = get_for_recipient_by_parent Demo.get_scope_type Demo.ISSUE_ALERTS
         (Parent.Organization 7) [Demo.team 4; Demo.user 1; Demo.user 1].
Proof.
  split; [reflexivity|].
  apply (get_for_recipient_by_parent_set Demo.get_scope_type Demo.ISSUE_ALERTS
           (Parent.Project 7 5) (Parent.Organization 7)
           [Demo.user 1; Demo.team 4] [Demo.team 4; Demo.user 1; Demo.user 1]).
  - intros a. cbn. tauto.
  - reflexivity.
Defined.

(** User 1 writes NEVER for issue alerts by email at the own scope on
    the example store, where the tables name the providers and the alert
    types apart and the providers of the user's own records are known:
    the call returns, and the projection has rows for the user, email
    and issue alerts, each holding NEVER. *)
Lemma update_settings_projects_witness :
  types_named Demo.NOTIFICATION_SETTING_TYPES Demo.VALID_VALUES_FOR_KEY_V2 = true
  /\ type_names_distinct Demo.NOTIFICATION_SETTING_TYPES
       Demo.VALID_VALUES_FOR_KEY_V2 = true
  /\ provider_names_distinct Demo.EXTERNAL_PROVIDERS = true
  /\ providers_known Demo.EXTERNAL_PROVIDERS
       (List.filter (own_scoped (Demo.user 1)) (settings Demo.store)) = true
  /\ exists s',
       Demo.update_settings Demo.EMAIL Demo.ISSUE_ALERTS
         NotificationSettingOptionValues.NEVER (Some 1) None None None
         Demo.store = (inr tt, s')
       /\ List.filter (projection_row (Demo.user 1) "email" "alerts")
            (providers s') <> []
       /\ forall row,
            In row (List.filter (projection_row (Demo.user 1) "email" "alerts")
                      (providers s')) ->
            NotificationSettingProvider.value row
            = NotificationSettingsOptionEnum.NEVER.
Proof.
  assert (H1 : types_named Demo.NOTIFICATION_SETTING_TYPES
                 Demo.VALID_VALUES_FOR_KEY_V2 = true) by (vm_compute; reflexivity).
  assert (H2 : type_names_distinct Demo.NOTIFICATION_SETTING_TYPES
                 Demo.VALID_VALUES_FOR_KEY_V2 = true) by (vm_compute; reflexivity).
  assert (H3 : provider_names_distinct Demo.EXTERNAL_PROVIDERS = true)
    by (vm_compute; reflexivity).
  assert (H4 : providers_known Demo.EXTERNAL_PROVIDERS
                 (List.filter (own_scoped (Demo.user 1)) (settings Demo.store))
               = true) by (vm_compute; reflexivity).
  repeat (split; [assumption|]).
  destruct (update_settings_projects Demo.EXTERNAL_PROVIDERS
              Demo.PERSONAL_NOTIFICATION_PROVIDERS
              Demo.NOTIFICATION_SETTING_TYPES Demo.NOTIFICATION_SCOPE_TYPE
              Demo.NOTIFICATION_SETTING_OPTION_VALUES
              Demo.VALID_VALUES_FOR_KEY_V2 Demo.str_of_type
              Demo.EMAIL Demo.ISSUE_ALERTS
              NotificationSettingOptionValues.NEVER (Demo.user 1)
              "email" "alerts" "user" Demo.store)
    as (s' & Hrun & _ & Hrows);
    [cbn; lia | assumption | assumption | assumption
     | right; now left | reflexivity | reflexivity | reflexivity
     | now left
     | intros _; split; [vm_compute; reflexivity | eexists; reflexivity]
     | vm_compute; reflexivity | vm_compute; reflexivity
     | vm_compute; reflexivity | assumption |].
  exists s'. split; [exact Hrun|]. apply Hrows. discriminate.
Defined.
